(** * Codenote: the save-synchronisation engine

    A shallow embedding of the server-side revision protocol
    ([server/api.ts], [db/schema.ts]) and of the client-side save scheduler
    (the [ProjectView] component of the router module and the draft record
    of [lib/drafts.ts]), with the properties of the persistence
    specification stated and proved over it.

    Conventions of the embedding.
    - JavaScript strings are [string]s; a character is a code unit below 256.
    - Timestamps are milliseconds since the epoch ([Z]).  The [revision]
      column and the [baseRevision] number are unbounded integers ([Z]): the
      32-bit range of the column and the range in which JavaScript adds
      integers exactly are left out.
    - The relational datastore is an explicit state: the [projects] table is
      a finite map keyed by its primary key, [project_snapshots] is the list
      of its rows in insertion order.  A statement either completes or
      throws without effect; the handler runs outside any transaction, so
      the effects of the statements that completed before a throw stay in
      the store.
    - What a request handler reads from its environment (clocks,
      [randomUUID], whether a statement reaches the datastore) is collected
      in [Env].
    - The component is a state machine over events (edits, timers firing,
      requests ending, clicks); an asynchronous function is cut at its
      [await]s.  What it asks of the network and of the draft store is
      returned as a list of commands.  One mounted component on one loaded
      project is modelled; timers have no durations, an armed timer may
      fire at any time. *)

From Stdlib Require Import ZArith Ascii String.
From stdpp Require Import base option gmap strings list.

Local Open Scope string_scope.
Local Open Scope list_scope.
Local Open Scope Z_scope.

(** ** JavaScript values and string helpers *)

Module Js.

(** The values a decoded JSON body can hold in one of its properties.
    [VUndefined] is what reading an absent property yields; [VFrac]
    stands for any number that is not an integer. *)
Inductive value : Type :=
| VUndefined
| VNull
| VBool (b : bool)
| VInt (n : Z)
| VFrac
| VString (s : string)
| VObject.

(** [typeof v === "string" ? v : null] *)
Definition asString (v : value) : option string :=
  match v with
  | VString s => Some s
  | _ => None
  end.

(** [typeof v === "number" && Number.isInteger(v) ? v : null] *)
Definition asInteger (v : value) : option Z :=
  match v with
  | VInt n => Some n
  | _ => None
  end.

(** White space and line terminators of ECMAScript, below 256:
    TAB, LF, VT, FF, CR, SP and NBSP. *)
Definition isWhiteSpace (a : ascii) : bool :=
  let n := N_of_ascii a in
  (N.leb 9 n && N.leb n 13) || N.eqb n 32 || N.eqb n 160.

Definition isEmpty (s : string) : bool :=
  match s with
  | EmptyString => true
  | String _ _ => false
  end.

Fixpoint trimStart (s : string) : string :=
  match s with
  | EmptyString => EmptyString
  | String a rest => if isWhiteSpace a then trimStart rest else s
  end.

Fixpoint trimEnd (s : string) : string :=
  match s with
  | EmptyString => EmptyString
  | String a rest =>
      let t := trimEnd rest in
      if isWhiteSpace a && isEmpty t then EmptyString else String a t
  end.

(** [String.prototype.trim] *)
Definition trim (s : string) : string := trimEnd (trimStart s).


(** Truthiness of a string: the empty string is the only falsy one. *)
Definition truthy (s : string) : bool := negb (isEmpty s).

(** The remainder operator [%] on integers: the sign follows the
    dividend, as [Z.rem] does. *)
Definition rem (a b : Z) : Z := Z.rem a b.

End Js.

(** A decoded JSON object: property name to value.  A body that is not
    valid JSON is replaced by the empty object ([.catch(() => ({}))]). *)
Abbreviation Body := (gmap string Js.value).

Definition prop (body : Body) (key : string) : Js.value :=
  default Js.VUndefined (body !! key).

(** ** Data model ([db/schema.ts]) *)

Module Project.
Record t : Type := mk {
  id : string;
  name : string;
  language : string;
  content : string;
  revision : Z;
  createdAt : Z;
  updatedAt : Z;
}.
End Project.

Module Snapshot.
Record t : Type := mk {
  id : string;
  projectId : string;
  revision : Z;
  content : string;
  createdAt : Z;
}.
End Snapshot.

#[global] Instance Project_eq_dec : EqDecision Project.t.
Proof. solve_decision. Defined.

#[global] Instance Snapshot_eq_dec : EqDecision Snapshot.t.
Proof. solve_decision. Defined.

Record Db : Type := mkDb {
  projects : gmap string Project.t;
  projectSnapshots : list Snapshot.t;
}.

(** * The server: revision store and snapshot policy *)

Module Server.

(** ** Constants of [server/api.ts] *)

Definition DEFAULT_LANGUAGE : string := "typescript".
Definition DEFAULT_CONTENT : string :=
String.append "// Start typing in Codenote" (String (ascii_of_nat 10) EmptyString).
Definition SNAPSHOT_INTERVAL_MS : Z := 30000.
Definition SNAPSHOT_EVERY_N_REVISIONS : Z := 10.

(** ** The environment of one request *)

(** The statements the project routes send to the datastore. *)
Inductive Stmt : Type :=
| StmtLatestSnapshot   (* select createdAt from project_snapshots ... limit 1 *)
| StmtInsertSnapshot   (* insert into project_snapshots *)
| StmtInsertProject    (* insert into projects ... returning *)
| StmtSelectProject    (* select from projects where id (GET) *)
| StmtUpdateProject    (* update projects set ... where id and revision *)
| StmtSelectCurrent.   (* select from projects where id (after a miss) *)

Record Env : Type := mkEnv {
jsDate : Z;            (* [new Date()] when the update values are built *)
jsNow : Z;             (* [Date.now()] inside [maybeSnapshot] *)
dbNow : Z;             (* [now()] of the datastore, for column defaults *)
randomUUID : string;   (* [crypto.randomUUID()] *)
fails : Stmt -> bool;  (* the statement does not complete (it throws) *)
}.

Definition reliable (env : Env) : Prop := forall st, fails env st = false.

(** ** Statements: a state and exception monad over the store *)

Inductive outcome (A : Type) : Type :=
| Returned (a : A)
| Thrown.
Arguments Returned {A} a.
Arguments Thrown {A}.

Definition M (A : Type) : Type := Db -> outcome A * Db.

Definition ret {A} (a : A) : M A := fun db => (Returned a, db).
Definition throw {A} : M A := fun db => (Thrown, db).
Definition bind {A B} (m : M A) (k : A -> M B) : M B :=
fun db =>
  match m db with
  | (Returned a, db') => k a db'
  | (Thrown, db') => (Thrown, db')
  end.

Notation "'await' x <- m ; k" := (bind m (fun x => k))
(at level 10, x name, m at level 100, k at level 200).

(** A statement that the environment lets through runs [body]. *)
Definition stmt {A} (env : Env) (st : Stmt) (body : M A) : M A :=
if fails env st then throw else body.

(** ** The statements of [server/api.ts] *)

(** [select({createdAt}).from(projectSnapshots).where(eq(projectId))
  .orderBy(desc(createdAt)).limit(1)]: the greatest [createdAt] among the
  snapshots of the project, if it has any. *)
Definition latestCreatedAt (projectId : string) (snaps : list Snapshot.t) : option Z :=
foldr (fun s acc =>
         if bool_decide (Snapshot.projectId s = projectId)
         then Some (match acc with
                    | Some c => Z.max c (Snapshot.createdAt s)
                    | None => Snapshot.createdAt s
                    end)
         else acc)
      None snaps.

Definition selectLatestSnapshot (env : Env) (projectId : string) : M (option Z) :=
stmt env StmtLatestSnapshot
     (fun db => (Returned (latestCreatedAt projectId (projectSnapshots db)), db)).

(** [insert(projectSnapshots).values(row)]: the primary key must be new and
  the foreign key must name a project. *)
Definition insertSnapshot (env : Env) (row : Snapshot.t) : M unit :=
stmt env StmtInsertSnapshot
     (fun db =>
        if bool_decide (Snapshot.id row ∈ Snapshot.id <$> projectSnapshots db)
        then (Thrown, db)
        else match projects db !! Snapshot.projectId row with
             | None => (Thrown, db)
             | Some _ =>
                 (Returned tt, mkDb (projects db) (projectSnapshots db ++ [row]))
             end).

(** [insert(projects).values(row).returning()], destructured to its one row. *)
Definition insertProject (env : Env) (row : Project.t) : M Project.t :=
stmt env StmtInsertProject
     (fun db =>
        match projects db !! Project.id row with
        | Some _ => (Thrown, db)
        | None =>
            (Returned row,
             mkDb (<[Project.id row := row]> (projects db)) (projectSnapshots db))
        end).

(** [select().from(projects).where(eq(projects.id, id))], destructured to
  its first row. *)
Definition selectProject (env : Env) (st : Stmt) (pid : string) : M (option Project.t) :=
stmt env st (fun db => (Returned (projects db !! pid), db)).

(** The object [updateValues]: [name] is set only when the body carried one. *)
Record UpdateValues : Type := mkUpdateValues {
uv_content : string;
uv_revision : Z;
uv_updatedAt : Z;
uv_name : option string;
}.

Definition applySet (v : UpdateValues) (p : Project.t) : Project.t :=
{| Project.id := Project.id p;
   Project.name := default (Project.name p) (uv_name v);
   Project.language := Project.language p;
   Project.content := uv_content v;
   Project.revision := uv_revision v;
   Project.createdAt := Project.createdAt p;
   Project.updatedAt := uv_updatedAt v |}.

(** [update(projects).set(v).where(and(eq(id), eq(revision, baseRevision)))
  .returning()], destructured to its first row: one conditional statement. *)
Definition updateProject (env : Env) (v : UpdateValues) (pid : string) (baseRevision : Z)
: M (option Project.t) :=
stmt env StmtUpdateProject
     (fun db =>
        match projects db !! pid with
        | Some p =>
            if bool_decide (Project.revision p = baseRevision)
            then let p' := applySet v p in
                 (Returned (Some p'),
                  mkDb (<[pid := p']> (projects db)) (projectSnapshots db))
            else (Returned None, db)
        | None => (Returned None, db)
        end).

(** ** [maybeSnapshot] *)

Definition shouldSnapshot (latest : option Z) (now revision : Z) : bool :=
let lastSnapshotAt := default 0 latest in
negb (bool_decide (is_Some latest))
|| (SNAPSHOT_INTERVAL_MS <=? now - lastSnapshotAt)
|| (Js.rem revision SNAPSHOT_EVERY_N_REVISIONS =? 0).

Definition maybeSnapshot (env : Env) (projectId : string) (revision : Z) (content : string)
: M unit :=
await latest <- selectLatestSnapshot env projectId;
let now := jsNow env in
if negb (shouldSnapshot latest now revision) then ret tt
else insertSnapshot env
       {| Snapshot.id := randomUUID env;
          Snapshot.projectId := projectId;
          Snapshot.revision := revision;
          Snapshot.content := content;
          Snapshot.createdAt := dbNow env |}.

(** ** [handleApi], project routes *)

Inductive ResponseBody : Type :=
| Json (p : Project.t)
| Text (s : string).

Record Response : Type := mkResponse {
status : Z;
body : ResponseBody;
}.

(** A request to one of the project routes, with the identifier already
  taken from the path. *)
Inductive Request : Type :=
| PostProjects (body : Body)
| GetProject (pid : string)
| PatchProject (pid : string) (body : Body).

Definition handleApi (env : Env) (req : Request) : M Response :=
match req with
| PostProjects body =>
    let name :=
      match Js.asString (prop body "name") with
      | Some s => if Js.truthy (Js.trim s) then Js.trim s else "Untitled Project"
      | None => "Untitled Project"
      end in
    await inserted <-
      insertProject env
        {| Project.id := randomUUID env;
           Project.name := name;
           Project.language := DEFAULT_LANGUAGE;
           Project.content := DEFAULT_CONTENT;
           Project.revision := 0;
           Project.createdAt := dbNow env;
           Project.updatedAt := dbNow env |};
    ret (mkResponse 201 (Json inserted))
| GetProject pid =>
    await project <- selectProject env StmtSelectProject pid;
    match project with
    | None => ret (mkResponse 404 (Text "Not Found"))
    | Some p => ret (mkResponse 200 (Json p))
    end
| PatchProject pid body =>
    let content := Js.asString (prop body "content") in
    let rawName := Js.trim <$> Js.asString (prop body "name") in
    let name := rawName in
    let baseRevision := Js.asInteger (prop body "baseRevision") in
    match content, baseRevision with
    | Some content, Some baseRevision =>
        let updateValues :=
          {| uv_content := content;
             uv_revision := baseRevision + 1;
             uv_updatedAt := jsDate env;
             uv_name := name |} in
        await updated <- updateProject env updateValues pid baseRevision;
        match updated with
        | None =>
            await current <- selectProject env StmtSelectCurrent pid;
            match current with
            | None => ret (mkResponse 404 (Text "Not Found"))
            | Some c => ret (mkResponse 409 (Json c))
            end
        | Some u =>
            await _ <- maybeSnapshot env pid (Project.revision u) (Project.content u);
            ret (mkResponse 200 (Json u))
        end
    | _, _ =>
        ret (mkResponse 400 (Text "content and baseRevision are required"))
    end
end.

(** The [Deno.serve] handler: a rejection of [handleApi] becomes a 500. *)
Definition serve (env : Env) (req : Request) (db : Db) : Response * Db :=
match handleApi env req db with
| (Returned apiRes, db') => (apiRes, db')
| (Thrown, db') => (mkResponse 500 (Text "Internal Server Error"), db')
end.

End Server.

(** * The client: save scheduler of [ProjectView] *)

Module Draft.
Record t : Type := mk {
  projectId : string;
  content : string;
  name : string;
  updatedAt : Z;
  baseRevision : Z;
}.
End Draft.

Module Client.

Definition SAVE_DEBOUNCE_MS : Z := 500.
Definition SAVE_MAX_INTERVAL_MS : Z := 5000.
Definition DRAFT_DEBOUNCE_MS : Z := 250.

Inductive SaveState : Type := Idle | Saving | Error | Conflict.

(** What an armed timer runs when it fires. *)
Inductive Callback : Type :=
| CbDraftWrite (draft : Draft.t)   (* [void setDraft(draft).catch(...)] *)
| CbDebounce                       (* [flushRef.current("debounce")] *)
| CbMax.                           (* [flushRef.current("max")] *)

(** The PATCH request of [flush]: the path carries the project, the body
    carries [content], [baseRevision] and [name]. *)
Record PatchRequest : Type := mkPatch {
  patch_projectId : string;
  patch_content : string;
  patch_baseRevision : Z;
  patch_name : string;
}.

(** What the component asks of the outside: the network and the draft
    store. *)
Inductive Cmd : Type :=
| Fetch (req : PatchRequest)
| SetDraft (draft : Draft.t)
| ClearDraft (projectId : string).

(** How a PATCH request ends for [flush]: status 409 with the latest
    record, any failure (network error, status that is not ok, body that
    does not decode), or success with the updated record. *)
Inductive FetchResult : Type :=
| Res409 (latest : Project.t)
| ResFailed
| ResOk (updated : Project.t).

(** The component: its React state, its refs, and the part of the
    browser it has set in motion (armed timers, requests in flight,
    flushes suspended on the draft store).  Timer identifiers are
    positive, so a ref that holds one is truthy. *)
Record Session : Type := mkSession {
  value : string;
  name : string;
  saveState : SaveState;
  restoreDraft : option Draft.t;
  conflictProject : option Project.t;
  latestValueRef : string;
  latestNameRef : string;
  baseRevisionRef : Z;
  lastSavedRef : string;
  lastSavedNameRef : string;
  projectIdRef : string;
  savingRef : bool;
  pendingSaveRef : bool;
  conflictRef : option Project.t;
  debounceRef : option nat;
  maxFlushRef : option nat;
  draftTimerRef : option nat;
  timers : gmap nat Callback;
  nextTimer : nat;
  inFlight : list PatchRequest;
  awaitingClearDraft : nat;
}.

(** Assignment to one field. *)
Definition set_value (x : string) (s : Session) : Session :=
  mkSession x (name s) (saveState s) (restoreDraft s) (conflictProject s)
    (latestValueRef s) (latestNameRef s) (baseRevisionRef s) (lastSavedRef s)
    (lastSavedNameRef s) (projectIdRef s) (savingRef s) (pendingSaveRef s)
    (conflictRef s) (debounceRef s) (maxFlushRef s) (draftTimerRef s) (timers
    s) (nextTimer s) (inFlight s) (awaitingClearDraft s).

Definition set_name (x : string) (s : Session) : Session :=
  mkSession (value s) x (saveState s) (restoreDraft s) (conflictProject s)
    (latestValueRef s) (latestNameRef s) (baseRevisionRef s) (lastSavedRef s)
    (lastSavedNameRef s) (projectIdRef s) (savingRef s) (pendingSaveRef s)
    (conflictRef s) (debounceRef s) (maxFlushRef s) (draftTimerRef s) (timers
    s) (nextTimer s) (inFlight s) (awaitingClearDraft s).

Definition set_saveState (x : SaveState) (s : Session) : Session :=
  mkSession (value s) (name s) x (restoreDraft s) (conflictProject s)
    (latestValueRef s) (latestNameRef s) (baseRevisionRef s) (lastSavedRef s)
    (lastSavedNameRef s) (projectIdRef s) (savingRef s) (pendingSaveRef s)
    (conflictRef s) (debounceRef s) (maxFlushRef s) (draftTimerRef s) (timers
    s) (nextTimer s) (inFlight s) (awaitingClearDraft s).

Definition set_restoreDraft (x : option Draft.t) (s : Session) : Session :=
  mkSession (value s) (name s) (saveState s) x (conflictProject s)
    (latestValueRef s) (latestNameRef s) (baseRevisionRef s) (lastSavedRef s)
    (lastSavedNameRef s) (projectIdRef s) (savingRef s) (pendingSaveRef s)
    (conflictRef s) (debounceRef s) (maxFlushRef s) (draftTimerRef s) (timers
    s) (nextTimer s) (inFlight s) (awaitingClearDraft s).

Definition set_conflictProject (x : option Project.t) (s : Session) : Session :=
  mkSession (value s) (name s) (saveState s) (restoreDraft s) x
    (latestValueRef s) (latestNameRef s) (baseRevisionRef s) (lastSavedRef s)
    (lastSavedNameRef s) (projectIdRef s) (savingRef s) (pendingSaveRef s)
    (conflictRef s) (debounceRef s) (maxFlushRef s) (draftTimerRef s) (timers
    s) (nextTimer s) (inFlight s) (awaitingClearDraft s).

Definition set_latestValueRef (x : string) (s : Session) : Session :=
  mkSession (value s) (name s) (saveState s) (restoreDraft s)
    (conflictProject s) x (latestNameRef s) (baseRevisionRef s) (lastSavedRef
    s) (lastSavedNameRef s) (projectIdRef s) (savingRef s) (pendingSaveRef s)
    (conflictRef s) (debounceRef s) (maxFlushRef s) (draftTimerRef s) (timers
    s) (nextTimer s) (inFlight s) (awaitingClearDraft s).

Definition set_latestNameRef (x : string) (s : Session) : Session :=
  mkSession (value s) (name s) (saveState s) (restoreDraft s)
    (conflictProject s) (latestValueRef s) x (baseRevisionRef s) (lastSavedRef
    s) (lastSavedNameRef s) (projectIdRef s) (savingRef s) (pendingSaveRef s)
    (conflictRef s) (debounceRef s) (maxFlushRef s) (draftTimerRef s) (timers
    s) (nextTimer s) (inFlight s) (awaitingClearDraft s).

Definition set_baseRevisionRef (x : Z) (s : Session) : Session :=
  mkSession (value s) (name s) (saveState s) (restoreDraft s)
    (conflictProject s) (latestValueRef s) (latestNameRef s) x (lastSavedRef
    s) (lastSavedNameRef s) (projectIdRef s) (savingRef s) (pendingSaveRef s)
    (conflictRef s) (debounceRef s) (maxFlushRef s) (draftTimerRef s) (timers
    s) (nextTimer s) (inFlight s) (awaitingClearDraft s).

Definition set_lastSavedRef (x : string) (s : Session) : Session :=
  mkSession (value s) (name s) (saveState s) (restoreDraft s)
    (conflictProject s) (latestValueRef s) (latestNameRef s) (baseRevisionRef
    s) x (lastSavedNameRef s) (projectIdRef s) (savingRef s) (pendingSaveRef
    s) (conflictRef s) (debounceRef s) (maxFlushRef s) (draftTimerRef s)
    (timers s) (nextTimer s) (inFlight s) (awaitingClearDraft s).

Definition set_lastSavedNameRef (x : string) (s : Session) : Session :=
  mkSession (value s) (name s) (saveState s) (restoreDraft s)
    (conflictProject s) (latestValueRef s) (latestNameRef s) (baseRevisionRef
    s) (lastSavedRef s) x (projectIdRef s) (savingRef s) (pendingSaveRef s)
    (conflictRef s) (debounceRef s) (maxFlushRef s) (draftTimerRef s) (timers
    s) (nextTimer s) (inFlight s) (awaitingClearDraft s).

Definition set_projectIdRef (x : string) (s : Session) : Session :=
  mkSession (value s) (name s) (saveState s) (restoreDraft s)
    (conflictProject s) (latestValueRef s) (latestNameRef s) (baseRevisionRef
    s) (lastSavedRef s) (lastSavedNameRef s) x (savingRef s) (pendingSaveRef
    s) (conflictRef s) (debounceRef s) (maxFlushRef s) (draftTimerRef s)
    (timers s) (nextTimer s) (inFlight s) (awaitingClearDraft s).

Definition set_savingRef (x : bool) (s : Session) : Session :=
  mkSession (value s) (name s) (saveState s) (restoreDraft s)
    (conflictProject s) (latestValueRef s) (latestNameRef s) (baseRevisionRef
    s) (lastSavedRef s) (lastSavedNameRef s) (projectIdRef s) x
    (pendingSaveRef s) (conflictRef s) (debounceRef s) (maxFlushRef s)
    (draftTimerRef s) (timers s) (nextTimer s) (inFlight s)
    (awaitingClearDraft s).

Definition set_pendingSaveRef (x : bool) (s : Session) : Session :=
  mkSession (value s) (name s) (saveState s) (restoreDraft s)
    (conflictProject s) (latestValueRef s) (latestNameRef s) (baseRevisionRef
    s) (lastSavedRef s) (lastSavedNameRef s) (projectIdRef s) (savingRef s) x
    (conflictRef s) (debounceRef s) (maxFlushRef s) (draftTimerRef s) (timers
    s) (nextTimer s) (inFlight s) (awaitingClearDraft s).

Definition set_conflictRef (x : option Project.t) (s : Session) : Session :=
  mkSession (value s) (name s) (saveState s) (restoreDraft s)
    (conflictProject s) (latestValueRef s) (latestNameRef s) (baseRevisionRef
    s) (lastSavedRef s) (lastSavedNameRef s) (projectIdRef s) (savingRef s)
    (pendingSaveRef s) x (debounceRef s) (maxFlushRef s) (draftTimerRef s)
    (timers s) (nextTimer s) (inFlight s) (awaitingClearDraft s).

Definition set_debounceRef (x : option nat) (s : Session) : Session :=
  mkSession (value s) (name s) (saveState s) (restoreDraft s)
    (conflictProject s) (latestValueRef s) (latestNameRef s) (baseRevisionRef
    s) (lastSavedRef s) (lastSavedNameRef s) (projectIdRef s) (savingRef s)
    (pendingSaveRef s) (conflictRef s) x (maxFlushRef s) (draftTimerRef s)
    (timers s) (nextTimer s) (inFlight s) (awaitingClearDraft s).

Definition set_maxFlushRef (x : option nat) (s : Session) : Session :=
  mkSession (value s) (name s) (saveState s) (restoreDraft s)
    (conflictProject s) (latestValueRef s) (latestNameRef s) (baseRevisionRef
    s) (lastSavedRef s) (lastSavedNameRef s) (projectIdRef s) (savingRef s)
    (pendingSaveRef s) (conflictRef s) (debounceRef s) x (draftTimerRef s)
    (timers s) (nextTimer s) (inFlight s) (awaitingClearDraft s).

Definition set_draftTimerRef (x : option nat) (s : Session) : Session :=
  mkSession (value s) (name s) (saveState s) (restoreDraft s)
    (conflictProject s) (latestValueRef s) (latestNameRef s) (baseRevisionRef
    s) (lastSavedRef s) (lastSavedNameRef s) (projectIdRef s) (savingRef s)
    (pendingSaveRef s) (conflictRef s) (debounceRef s) (maxFlushRef s) x
    (timers s) (nextTimer s) (inFlight s) (awaitingClearDraft s).

Definition set_timers (x : gmap nat Callback) (s : Session) : Session :=
  mkSession (value s) (name s) (saveState s) (restoreDraft s)
    (conflictProject s) (latestValueRef s) (latestNameRef s) (baseRevisionRef
    s) (lastSavedRef s) (lastSavedNameRef s) (projectIdRef s) (savingRef s)
    (pendingSaveRef s) (conflictRef s) (debounceRef s) (maxFlushRef s)
    (draftTimerRef s) x (nextTimer s) (inFlight s) (awaitingClearDraft s).

Definition set_nextTimer (x : nat) (s : Session) : Session :=
  mkSession (value s) (name s) (saveState s) (restoreDraft s)
    (conflictProject s) (latestValueRef s) (latestNameRef s) (baseRevisionRef
    s) (lastSavedRef s) (lastSavedNameRef s) (projectIdRef s) (savingRef s)
    (pendingSaveRef s) (conflictRef s) (debounceRef s) (maxFlushRef s)
    (draftTimerRef s) (timers s) x (inFlight s) (awaitingClearDraft s).

Definition set_inFlight (x : list PatchRequest) (s : Session) : Session :=
  mkSession (value s) (name s) (saveState s) (restoreDraft s)
    (conflictProject s) (latestValueRef s) (latestNameRef s) (baseRevisionRef
    s) (lastSavedRef s) (lastSavedNameRef s) (projectIdRef s) (savingRef s)
    (pendingSaveRef s) (conflictRef s) (debounceRef s) (maxFlushRef s)
    (draftTimerRef s) (timers s) (nextTimer s) x (awaitingClearDraft s).

Definition set_awaitingClearDraft (x : nat) (s : Session) : Session :=
  mkSession (value s) (name s) (saveState s) (restoreDraft s)
    (conflictProject s) (latestValueRef s) (latestNameRef s) (baseRevisionRef
    s) (lastSavedRef s) (lastSavedNameRef s) (projectIdRef s) (savingRef s)
    (pendingSaveRef s) (conflictRef s) (debounceRef s) (maxFlushRef s)
    (draftTimerRef s) (timers s) (nextTimer s) (inFlight s) x.

(** The state after mount with the loaded [project] (the refs'
    initial values and the reset of the project effect). *)
Definition init (project : Project.t) : Session :=
  {| value := Project.content project;
     name := Project.name project;
     saveState := Idle;
     restoreDraft := None;
     conflictProject := None;
     latestValueRef := Project.content project;
     latestNameRef := Project.name project;
     baseRevisionRef := Project.revision project;
     lastSavedRef := Project.content project;
     lastSavedNameRef := Project.name project;
     projectIdRef := Project.id project;
     savingRef := false;
     pendingSaveRef := false;
     conflictRef := None;
     debounceRef := None;
     maxFlushRef := None;
     draftTimerRef := None;
     timers := ∅;
     nextTimer := 1;
     inFlight := [];
     awaitingClearDraft := 0 |}.

(** ** Timers *)

(** [ref.current = globalThis.setTimeout(cb, ms)] *)
Definition setTimeout (cb : Callback) (assign : option nat -> Session -> Session)
           (s : Session) : Session :=
  let tid := nextTimer s in
  assign (Some tid)
         (set_nextTimer (S tid) (set_timers (<[tid := cb]> (timers s)) s)).

(** [globalThis.clearTimeout(tid)] *)
Definition clearTimeout (tid : nat) (s : Session) : Session :=
  set_timers (delete tid (timers s)) s.

Definition clearTimers (s : Session) : Session :=
  let s1 :=
    match debounceRef s with
    | Some tid => set_debounceRef None (clearTimeout tid s)
    | None => s
    end in
  match maxFlushRef s1 with
  | Some tid => set_maxFlushRef None (clearTimeout tid s1)
  | None => s1
  end.

Definition scheduleDraftWrite (draft : Draft.t) (s : Session) : Session :=
  let s1 :=
    match draftTimerRef s with
    | Some tid => clearTimeout tid s
    | None => s
    end in
  setTimeout (CbDraftWrite draft) set_draftTimerRef s1.

Definition scheduleServerSave (s : Session) : Session :=
  if bool_decide (is_Some (conflictRef s)) then s
  else
    let s1 :=
      match debounceRef s with
      | Some tid => clearTimeout tid s
      | None => s
      end in
    let s2 := setTimeout CbDebounce set_debounceRef s1 in
    match maxFlushRef s2 with
    | None => setTimeout CbMax set_maxFlushRef s2
    | Some _ => s2
    end.

(** ** [flush] *)

(** The part of [flush] that runs before the request is awaited. *)
Definition flush (s : Session) : Session * list Cmd :=
  if bool_decide (is_Some (conflictRef s)) then (s, [])
  else if savingRef s then (s, [])
  else
    let content := latestValueRef s in
    let currentName := latestNameRef s in
    if bool_decide (content = lastSavedRef s)
       && bool_decide (currentName = lastSavedNameRef s)
    then (s, [])
    else
      let s1 := set_savingRef true s in
      let s2 := set_pendingSaveRef false s1 in
      let s3 := clearTimers s2 in
      let s4 := set_saveState Saving s3 in
      let req :=
        {| patch_projectId := projectIdRef s4;
           patch_content := content;
           patch_baseRevision := baseRevisionRef s4;
           patch_name := currentName |} in
      (set_inFlight (inFlight s4 ++ [req]) s4, [Fetch req]).

(** The [finally] block of [flush]. *)
Definition flushFinally (s : Session) : Session :=
  let s1 := set_savingRef false s in
  if pendingSaveRef s1 && negb (bool_decide (is_Some (conflictRef s1)))
  then scheduleServerSave s1
  else s1.

(** [flush] resumed by the end of its request.  [now] is the clock read
    for the draft that is scheduled when the buffer has moved on. *)
Definition flushResumed (now : Z) (res : FetchResult) (s : Session)
  : Session * list Cmd :=
  match res with
  | Res409 latest =>
      let s1 := set_conflictRef (Some latest) s in
      let s2 := set_conflictProject (Some latest) s1 in
      let s3 := set_saveState Conflict s2 in
      (flushFinally s3, [])
  | ResFailed =>
      (flushFinally (set_saveState Error s), [])
  | ResOk updated =>
      let s1 := set_baseRevisionRef (Project.revision updated) s in
      let s2 := set_lastSavedRef (Project.content updated) s1 in
      let s3 := set_lastSavedNameRef (Project.name updated) s2 in
      let s4 := set_saveState Idle s3 in
      if bool_decide (latestValueRef s4 = Project.content updated)
         && bool_decide (latestNameRef s4 = Project.name updated)
      then
        (set_awaitingClearDraft (S (awaitingClearDraft s4)) s4,
         [ClearDraft (projectIdRef s4)])
      else
        let draft :=
          {| Draft.projectId := projectIdRef s4;
             Draft.content := latestValueRef s4;
             Draft.name := latestNameRef s4;
             Draft.updatedAt := now;
             Draft.baseRevision := baseRevisionRef s4 |} in
        (flushFinally (scheduleDraftWrite draft s4), [])
  end.

(** ** The effect on [value] and [name] *)

Definition changeEffect (now : Z) (s : Session) : Session :=
  let s1 := set_latestValueRef (value s) s in
  let s2 := set_latestNameRef (name s1) s1 in
  if bool_decide (value s2 = lastSavedRef s2)
     && bool_decide (name s2 = lastSavedNameRef s2)
  then s2
  else
    let draft :=
      {| Draft.projectId := projectIdRef s2;
         Draft.content := value s2;
         Draft.name := name s2;
         Draft.updatedAt := now;
         Draft.baseRevision := baseRevisionRef s2 |} in
    let s3 := scheduleDraftWrite draft s2 in
    if bool_decide (is_Some (conflictRef s3)) then s3
    else if savingRef s3 then set_pendingSaveRef true s3
    else scheduleServerSave s3.

(** A render after [value] or [name] was set: the effect runs when one of
    them differs from the previous render. *)
Definition rendered (now : Z) (before s : Session) : Session :=
  if bool_decide (value s = value before) && bool_decide (name s = name before)
  then s
  else changeEffect now s.

(** ** Dialog handlers *)

Definition handleRestore (now : Z) (s : Session) : Session * list Cmd :=
  match restoreDraft s with
  | None => (s, [])
  | Some draft =>
      let s1 := set_value (Draft.content draft) s in
      let s2 := set_latestValueRef (Draft.content draft) s1 in
      let s3 := set_name (Draft.name draft) s2 in
      let s4 := set_latestNameRef (Draft.name draft) s3 in
      let s5 := set_restoreDraft None s4 in
      (rendered now s s5, [])
  end.

Definition handleDiscardDraft (s : Session) : Session * list Cmd :=
  match restoreDraft s with
  | None => (s, [])
  | Some _ => (set_restoreDraft None s, [ClearDraft (projectIdRef s)])
  end.

Definition handleReloadFromServer (now : Z) (s : Session) : Session * list Cmd :=
  match conflictProject s with
  | None => (s, [])
  | Some server =>
      let s1 := set_conflictRef None s in
      let s2 := set_baseRevisionRef (Project.revision server) s1 in
      let s3 := set_lastSavedRef (Project.content server) s2 in
      let s4 := set_lastSavedNameRef (Project.name server) s3 in
      let s5 := set_latestValueRef (Project.content server) s4 in
      let s6 := set_latestNameRef (Project.name server) s5 in
      let s7 := set_value (Project.content server) s6 in
      let s8 := set_name (Project.name server) s7 in
      let s9 := set_conflictProject None s8 in
      let s10 := set_saveState Idle s9 in
      (rendered now s s10, [ClearDraft (projectIdRef s10)])
  end.

Definition handleOverwriteServer (s : Session) : Session * list Cmd :=
  match conflictProject s with
  | None => (s, [])
  | Some server =>
      let s1 := set_conflictRef None s in
      let s2 := set_baseRevisionRef (Project.revision server) s1 in
      let s3 := set_conflictProject None s2 in
      let s4 := set_saveState Idle s3 in
      flush s4
  end.

(** ** Events *)

(** What can happen to a mounted component.  [now] is the clock at the
    event. *)
Inductive Event : Type :=
| ChangeValue (now : Z) (text : string)        (* the editor's [onChange] *)
| ChangeName (now : Z) (text : string)         (* the name input's [onChange] *)
| TimerFires (tid : nat)
| FlushCalled                                  (* blur, retry, pagehide, hidden, unmount *)
| FetchEnds (now : Z) (i : nat) (res : FetchResult)
| ClearDraftEnds                               (* the awaited [clearDraft] settles *)
| DraftOffered (draft : Draft.t)               (* [setRestoreDraft(normalizedDraft)] *)
| RestoreClicked (now : Z)
| DiscardClicked
| ReloadClicked (now : Z)
| OverwriteClicked.

(** One event; [None] when the event cannot occur in [s] (no such timer,
    no such request, no suspended flush). *)
Definition step (e : Event) (s : Session) : option (Session * list Cmd) :=
  match e with
  | ChangeValue now text =>
      Some (rendered now s (set_value text s), [])
  | ChangeName now text =>
      Some (rendered now s (set_name text s), [])
  | TimerFires tid =>
      match timers s !! tid with
      | None => None
      | Some cb =>
          let s1 := set_timers (delete tid (timers s)) s in
          match cb with
          | CbDraftWrite draft => Some (s1, [SetDraft draft])
          | CbDebounce => Some (flush s1)
          | CbMax => Some (flush s1)
          end
      end
  | FlushCalled => Some (flush s)
  | FetchEnds now i res =>
      match inFlight s !! i with
      | None => None
      | Some _ => Some (flushResumed now res (set_inFlight (delete i (inFlight s)) s))
      end
  | ClearDraftEnds =>
      match awaitingClearDraft s with
      | O => None
      | S n => Some (flushFinally (set_awaitingClearDraft n s), [])
      end
  | DraftOffered draft => Some (set_restoreDraft (Some draft) s, [])
  | RestoreClicked now => Some (handleRestore now s)
  | DiscardClicked => Some (handleDiscardDraft s)
  | ReloadClicked now => Some (handleReloadFromServer now s)
  | OverwriteClicked => Some (handleOverwriteServer s)
  end.

(** A run of events from [s]; the commands are collected in order. *)
Fixpoint run (es : list Event) (s : Session) : option (Session * list Cmd) :=
  match es with
  | [] => Some (s, [])
  | e :: es' =>
      match step e s with
      | None => None
      | Some (s1, cmds1) =>
          match run es' s1 with
          | None => None
          | Some (s2, cmds2) => Some (s2, cmds1 ++ cmds2)
          end
      end
  end.

End Client.

(** * Notions used to state the server's properties *)

Module ServerSpec.
Import Server.

(** A PATCH body that passes the handler's validation: [content] is a
    string and [baseRevision] an integer. *)
Definition wellFormed (body : Body) (content : string) (baseRevision : Z) : Prop :=
  Js.asString (prop body "content") = Some content
  /\ Js.asInteger (prop body "baseRevision") = Some baseRevision.

(** The identifier drawn for a snapshot row is not taken yet. *)
Definition snapshotIdFree (env : Env) (db : Db) : Prop :=
  randomUUID env ∉ (Snapshot.id <$> projectSnapshots db).

(** The project has no snapshot. *)
Definition noSnapshotOf (pid : string) (db : Db) : Prop :=
  forall s, s ∈ projectSnapshots db -> Snapshot.projectId s <> pid.

(** [t] is the creation time of the most recent snapshot of the project. *)
Definition mostRecentSnapshotAt (pid : string) (db : Db) (t : Z) : Prop :=
  (exists s, s ∈ projectSnapshots db
             /\ Snapshot.projectId s = pid /\ Snapshot.createdAt s = t)
  /\ (forall s, s ∈ projectSnapshots db ->
                Snapshot.projectId s = pid -> Snapshot.createdAt s <= t).

(** A sequence of requests served one after the other; each comes with
    the environment it meets. *)
Record Served : Type := mkServed {
  before : Db;
  request : Request;
  response : Response;
  after : Db;
}.

Fixpoint serveAll (reqs : list (Env * Request)) (db : Db) : list Served :=
  match reqs with
  | [] => []
  | (env, req) :: rest =>
      let '(res, db') := serve env req db in
      mkServed db req res db' :: serveAll rest db'
  end.

(** The step is a write to [pid] on base revision [b] that took effect:
    it was answered 200, or it changed the stored project. *)
Definition wonBy (pid : string) (b : Z) (st : Served) : Prop :=
  match request st with
  | PatchProject pid' body =>
      pid' = pid
      /\ Js.asInteger (prop body "baseRevision") = Some b
      /\ (status (response st) = 200
          \/ projects (after st) !! pid <> projects (before st) !! pid)
  | _ => False
  end.

(** The same question under concurrency.  Handlers that run at the same
    time interleave at their [await]s, and the datastore runs their
    statements one at a time: whatever the interleaving, the store goes
    through a sequence of statements, each as one of the handlers sends
    it.  The update of a PATCH always sets the revision to its base
    revision plus one. *)
Inductive Statement : Type :=
| Select
| InsertProject (row : Project.t)
| InsertSnapshot (row : Snapshot.t)
| UpdateProject (pid : string) (baseRevision : Z)
                (content : string) (name : option string) (updatedAt : Z).

(** One statement; the flag tells whether a conditional update matched. *)
Definition execute (env : Env) (st : Statement) (db : Db) : bool * Db :=
  match st with
  | Select => (false, db)
  | InsertProject row => (false, snd (insertProject env row db))
  | InsertSnapshot row => (false, snd (insertSnapshot env row db))
  | UpdateProject pid b c n t =>
      match updateProject env (mkUpdateValues c (b + 1) t n) pid b db with
      | (Returned (Some _), db') => (true, db')
      | (_, db') => (false, db')
      end
  end.

Definition targets (pid : string) (b : Z) (st : Statement) : bool :=
  match st with
  | UpdateProject pid' b' _ _ _ => bool_decide (pid' = pid) && bool_decide (b' = b)
  | _ => false
  end.

(** How many updates of [pid] on base revision [b] match in a sequence of
    statements. *)
Fixpoint matchedUpdates (pid : string) (b : Z) (sts : list (Env * Statement)) (db : Db)
  : nat :=
  match sts with
  | [] => O
  | (env, st) :: rest =>
      let '(hit, db') := execute env st db in
      ((if hit && targets pid b st then 1 else 0) + matchedUpdates pid b rest db')%nat
  end.

#[global] Instance wonBy_dec (pid : string) (b : Z) (st : Served) :
  Decision (wonBy pid b st).
Proof. unfold wonBy. destruct (request st); apply _. Defined.

End ServerSpec.

(** * Concrete stores and requests *)

Module Example.
Import Server.

Definition env : Env := mkEnv 1000 2000 3000 "u-1" (fun _ => false).

(** A later request: other clock readings, another identifier drawn. *)
Definition envLater : Env := mkEnv 1500 2500 3500 "u-2" (fun _ => false).

(** The same environment, except that the insert into
    [project_snapshots] does not complete. *)
Definition envSnapshotDown : Env :=
  mkEnv 1000 2000 3000 "u-1"
        (fun st => match st with StmtInsertSnapshot => true | _ => false end).

Definition project : Project.t :=
  Project.mk "p-1" "Notes" "typescript" "old" 0 10 10.

Definition db : Db := mkDb {[ "p-1" := project ]} [].

(** [{content: "hello", baseRevision: 0}] *)
Definition edit : Body :=
  {[ "content" := Js.VString "hello"; "baseRevision" := Js.VInt 0 ]}.

(** [{content: "hello", baseRevision: 3}] *)
Definition staleEdit : Body :=
  {[ "content" := Js.VString "hello"; "baseRevision" := Js.VInt 3 ]}.

(** [{content: "hello", baseRevision: 0, name: "  "}] *)
Definition blankRename : Body :=
  {[ "content" := Js.VString "hello"; "baseRevision" := Js.VInt 0;
     "name" := Js.VString "  " ]}.

(** The project after [edit]. *)
Definition edited : Project.t :=
  Project.mk "p-1" "Notes" "typescript" "hello" 1 10 1000.

End Example.

Module ExampleSession.
Import Client.

(** What another tab has saved meanwhile. *)
Definition theirs : Project.t :=
  Project.mk "p-1" "Notes" "typescript" "theirs" 5 10 900.

(** A draft found when the session starts. *)
Definition draft : Draft.t := Draft.mk "p-1" "local text" "Local name" 950 3.

Definition after (es : list Event) (s : Session) : Session :=
  match run es s with
  | Some (s', _) => s'
  | None => s
  end.

(** The mounted component, showing [theirs]. *)
Definition mounted : Session := init theirs.

(** The user renamed the project and nothing else. *)
Definition renamed : Session := after [ChangeName 1 "Renamed"] mounted.

(** The user typed; the debounce timer fired and the request is out. *)
Definition saving : Session :=
  after [ChangeValue 1 "mine"; TimerFires 2] (init Example.project).


(** The request was answered 409 with [theirs]. *)
Definition conflicted : Session :=
  after [FetchEnds 3 0 (Res409 theirs)] saving.

(** A draft was offered for restoration. *)
Definition offered : Session := after [DraftOffered draft] mounted.

End ExampleSession.

(** * Notions used to state the scheduler's properties *)

Module ClientSpec.
Import Client.

(** The scheduler is in conflict and holds the server's record. *)
Definition inConflict (s : Session) (server : Project.t) : Prop :=
  conflictRef s = Some server
  /\ conflictProject s = Some server
  /\ saveState s = Conflict
  /\ savingRef s = false.

(** The buffer differs from what was last saved. *)
Definition dirty (s : Session) : Prop :=
  latestValueRef s <> lastSavedRef s \/ latestNameRef s <> lastSavedNameRef s.

(** The request [flush] sends from [s]. *)
Definition patchOf (s : Session) : PatchRequest :=
  mkPatch (projectIdRef s) (latestValueRef s) (baseRevisionRef s) (latestNameRef s).

Definition isFetch (c : Cmd) : bool :=
  match c with
  | Fetch _ => true
  | _ => false
  end.

Definition isFlushTimer (cb : Callback) : bool :=
  match cb with
  | CbDebounce | CbMax => true
  | CbDraftWrite _ => false
  end.

(** Going from [s] to [s'] armed no timer that calls [flush]. *)
Definition noFlushTimerArmed (s s' : Session) : Prop :=
  forall tid cb, timers s' !! tid = Some cb -> isFlushTimer cb = true ->
                 timers s !! tid = Some cb.

(** Going from [s] to [s'] armed a new debounce timer, the one
    [debounceRef] now holds: a follow-up flush is scheduled. *)
Definition followUpArmed (s s' : Session) : Prop :=
  exists tid, (nextTimer s <= tid)%nat
              /\ debounceRef s' = Some tid
              /\ timers s' !! tid = Some CbDebounce.

(** Going from [s] to [s'] scheduled no flush: no timer that calls
    [flush] was armed and the two refs are as they were. *)
Definition nothingScheduled (s s' : Session) : Prop :=
  noFlushTimerArmed s s'
  /\ debounceRef s' = debounceRef s /\ maxFlushRef s' = maxFlushRef s.




(** [s'] is [s] up to timers: only the timer table, the next timer
    identifier and the three timer refs may differ. *)
Definition sameButTimers (s s' : Session) : Prop :=
  value s' = value s /\ name s' = name s /\ saveState s' = saveState s
  /\ restoreDraft s' = restoreDraft s /\ conflictProject s' = conflictProject s
  /\ latestValueRef s' = latestValueRef s /\ latestNameRef s' = latestNameRef s
  /\ baseRevisionRef s' = baseRevisionRef s /\ lastSavedRef s' = lastSavedRef s
  /\ lastSavedNameRef s' = lastSavedNameRef s /\ projectIdRef s' = projectIdRef s
  /\ savingRef s' = savingRef s /\ pendingSaveRef s' = pendingSaveRef s
  /\ conflictRef s' = conflictRef s /\ inFlight s' = inFlight s
  /\ awaitingClearDraft s' = awaitingClearDraft s.


(** [s'] is [s] as far as timers go. *)
Definition sameTimers (s s' : Session) : Prop :=
  timers s' = timers s /\ nextTimer s' = nextTimer s
  /\ debounceRef s' = debounceRef s /\ maxFlushRef s' = maxFlushRef s
  /\ draftTimerRef s' = draftTimerRef s.

(** [s'] is [s] as far as flushes under way and conflicts go. *)
Definition sameFlight (s s' : Session) : Prop :=
  inFlight s' = inFlight s /\ awaitingClearDraft s' = awaitingClearDraft s
  /\ savingRef s' = savingRef s /\ conflictRef s' = conflictRef s
  /\ conflictProject s' = conflictProject s.

(** A flush is under way exactly when [savingRef] is set, and then it is
    the only one; a conflict is held only between flushes. *)
Definition flightInvariant (s : Session) : Prop :=
  (length (inFlight s) + awaitingClearDraft s)%nat
  = (if savingRef s then 1%nat else 0%nat)
  /\ (is_Some (conflictRef s) -> savingRef s = false)
  /\ conflictProject s = conflictRef s.

(** Every armed timer is the one its ref holds, and is older than the
    next identifier. *)
Definition timersInvariant (s : Session) : Prop :=
  forall tid cb,
    timers s !! tid = Some cb ->
    (tid < nextTimer s)%nat
    /\ match cb with
       | CbDebounce => debounceRef s = Some tid
       | CbMax => maxFlushRef s = Some tid
       | CbDraftWrite _ => draftTimerRef s = Some tid
       end.

(** The sessions a mounted component can be in. *)
Definition reachable (project : Project.t) (s : Session) : Prop :=
  exists es cmds, run es (init project) = Some (s, cmds).

End ClientSpec.

(** * The store over many requests *)

Module StoreSpec.
Import Server ServerSpec.

(** Every project is stored under its own identifier. *)
Definition keyed (db : Db) : Prop :=
  forall k p, projects db !! k = Some p -> Project.id p = k.

(** Every snapshot belongs to a stored project and is not ahead of it. *)
Definition snapshotsAnchored (db : Db) : Prop :=
  forall s, s ∈ projectSnapshots db ->
            exists p, projects db !! Snapshot.projectId s = Some p
                      /\ Snapshot.revision s <= Project.revision p.

(** The primary key of [project_snapshots]. *)
Definition snapshotIdsUnique (db : Db) : Prop :=
  NoDup (Snapshot.id <$> projectSnapshots db).

Definition revisionsFromZero (db : Db) : Prop :=
  forall k p, projects db !! k = Some p -> 0 <= Project.revision p.

Definition consistent (db : Db) : Prop :=
  keyed db /\ snapshotsAnchored db /\ snapshotIdsUnique db /\ revisionsFromZero db.

(** The store before any request. *)
Definition emptyDb : Db := mkDb ∅ [].

(** The store a sequence of requests leaves. *)
Fixpoint finalDb (reqs : list (Env * Request)) (db : Db) : Db :=
  match reqs with
  | [] => db
  | (env, req) :: rest => finalDb rest (snd (serve env req db))
  end.

(** The step is a PATCH of [pid] that changed the stored project. *)
Definition accepted (pid : string) (st : Served) : Prop :=
  match request st with
  | PatchProject pid' _ =>
      pid' = pid /\ projects (after st) !! pid <> projects (before st) !! pid
  | _ => False
  end.

#[global] Instance accepted_dec (pid : string) (st : Served) : Decision (accepted pid st).
Proof. unfold accepted. destruct (request st); apply _. Defined.

End StoreSpec.
(** * Snapshots over many requests *)

Module SnapshotSpec.
Import Server ServerSpec StoreSpec.

(** Every revision of a stored project that is a multiple of ten has a
    snapshot. *)
Definition tenthsCovered (db : Db) : Prop :=
  forall pid p k,
    projects db !! pid = Some p ->
    0 < k <= Project.revision p -> (10 | k) ->
    exists s, s ∈ projectSnapshots db
              /\ Snapshot.projectId s = pid /\ Snapshot.revision s = k.

(** Each request meets an environment in which every statement completes
    and the identifier drawn is not the identifier of a snapshot. *)
Fixpoint dependable (reqs : list (Env * Request)) (db : Db) : Prop :=
  match reqs with
  | [] => True
  | (env, req) :: rest =>
      reliable env /\ snapshotIdFree env db
      /\ dependable rest (snd (serve env req db))
  end.

End SnapshotSpec.
(** * The session over many events *)

Module SessionSpec.
Import Client ClientSpec.






(** A flush is under way, or a conflict is held. *)
Definition busy (s : Session) : Prop :=
  savingRef s = true \/ is_Some (conflictRef s).

(** No timer that calls [flush] is armed. *)
Definition noFlushTimer (s : Session) : Prop :=
  forall tid cb, timers s !! tid = Some cb -> isFlushTimer cb = false.

(** A busy session has no timer armed that calls [flush]. *)
Definition quiet (s : Session) : Prop := busy s -> noFlushTimer s.

(** What the server is known to hold: the revision and the text and name
    the next request is compared with. *)
Definition baselines (s : Session) : Z * string * string :=
  (baseRevisionRef s, lastSavedRef s, lastSavedNameRef s).

(** The events by which the user resolves a conflict. *)
Definition resolves (e : Event) : bool :=
  match e with
  | ReloadClicked _ | OverwriteClicked => true
  | _ => false
  end.

(** The events that are edits of the text or of the name. *)
Definition isEdit (e : Event) : bool :=
  match e with
  | ChangeValue _ _ | ChangeName _ _ => true
  | _ => false
  end.

End SessionSpec.
(** * A save from the session to the store and back *)

Module Wire.
Import Server Client.

(** The body of the request of [flush]:
    [JSON.stringify({content, baseRevision, name})]. *)
Definition patchBody (req : PatchRequest) : Body :=
  {[ "content" := Js.VString (patch_content req);
     "baseRevision" := Js.VInt (patch_baseRevision req);
     "name" := Js.VString (patch_name req) ]}.

(** The request as the PATCH route receives it.  Project identifiers are
    UUIDs, which the path carries unchanged. *)
Definition toRequest (req : PatchRequest) : Request :=
  PatchProject (patch_projectId req) (patchBody req).

(** [res.ok] *)
Definition ok (res : Response) : bool :=
  (200 <=? status res) && (status res <=? 299).

(** How [flush] reads the answer: status 409 first, then [!res.ok];
    [res.json()] rejects when the body is not JSON, which the [catch]
    turns into a failure. *)
Definition fetchResult (res : Response) : FetchResult :=
  if status res =? 409 then
    match body res with
    | Json latest => Res409 latest
    | Text _ => ResFailed
    end
  else if negb (ok res) then ResFailed
  else
    match body res with
    | Json updated => ResOk updated
    | Text _ => ResFailed
    end.

(** One save with nothing happening in between: [start] sends the
    request, the server answers it, and [flush] resumes with the answer. *)
Definition roundTrip (start : Session -> Session * list Cmd)
           (env : Env) (now : Z) (s : Session) (db : Db)
  : option (Session * list Cmd * Db) :=
  match start s with
  | (s1, [Fetch req]) =>
      let '(res, db') := serve env (toRequest req) db in
      match step (FetchEnds now (length (inFlight s)) (fetchResult res)) s1 with
      | Some (s2, cmds) => Some (s2, cmds, db')
      | None => None
      end
  | _ => None
  end.

Definition save : Env -> Z -> Session -> Db -> option (Session * list Cmd * Db) :=
  roundTrip flush.

Definition overwrite : Env -> Z -> Session -> Db -> option (Session * list Cmd * Db) :=
  roundTrip handleOverwriteServer.

End Wire.
(** * The draft store ([lib/drafts.ts]) and the draft found at mount *)

Module Drafts.
Import Client.

(** A record as the object store holds it.  Records written by an earlier
    version may lack [name]; [updatedAt] is kept as [Date.parse] reads it,
    [None] when it is not a date. *)
Record Stored : Type := mkStored {
  projectId : string;
  content : string;
  name : option string;
  updatedAt : option Z;
  baseRevision : Z;
}.

(** The object store [drafts], keyed by [projectId]. *)
Abbreviation Store := (gmap string Stored).

(** What [store.put(draft)] stores for a [DraftRecord]. *)
Definition ofDraft (draft : Draft.t) : Stored :=
  {| projectId := Draft.projectId draft;
     content := Draft.content draft;
     name := Some (Draft.name draft);
     updatedAt := Some (Draft.updatedAt draft);
     baseRevision := Draft.baseRevision draft |}.

(** The three operations.  [available] tells whether the database opens
    and the request succeeds; when it does not, the promise rejects
    ([None]) and the store is as it was. *)
Definition getDraft (available : bool) (pid : string) (st : Store)
  : option (option Stored) :=
  if available then Some (st !! pid) else None.

Definition setDraft (available : bool) (draft : Draft.t) (st : Store) : option Store :=
  if available then Some (<[Draft.projectId draft := ofDraft draft]> st) else None.

Definition clearDraft (available : bool) (pid : string) (st : Store) : option Store :=
  if available then Some (delete pid st) else None.

(** What a command of the session does to the store; the session ignores
    a rejection. *)
Definition perform (available : bool) (st : Store) (c : Cmd) : Store :=
  match c with
  | Fetch _ => st
  | SetDraft draft => default st (setDraft available draft st)
  | ClearDraft pid => default st (clearDraft available pid st)
  end.

Definition performAll (available : bool) (cmds : list Cmd) (st : Store) : Store :=
  foldl (perform available) st cmds.

(** What the project effect does with the draft it finds at mount.  The
    project's [updatedAt] comes from the server and is a date. *)
Inductive Found : Type :=
| Ignored                 (* nothing happens; a stored draft stays stored *)
| Cleared                 (* [clearDraft(project.id)] *)
| Offered (draft : Draft.t).   (* [setRestoreDraft(normalizedDraft)] *)

Definition draftFound (project : Project.t) (got : option (option Stored)) : Found :=
  match got with
  | None => Ignored
  | Some None => Ignored
  | Some (Some draft) =>
      let normalizedName := default (Project.name project) (name draft) in
      if bool_decide (content draft = Project.content project)
         && bool_decide (normalizedName = Project.name project)
      then Cleared
      else
        match updatedAt draft with
        | None => Ignored
        | Some draftTime =>
            if draftTime <=? Project.updatedAt project then Ignored
            else Offered (Draft.mk (projectId draft) (content draft) normalizedName
                                   draftTime (baseRevision draft))
        end
  end.

End Drafts.

(** * Notions used to state what the drafts protect *)

Module DraftSpec.
Import Client ClientSpec.

(** The timer refs hold identifiers already drawn, and no two of them
    hold the same one. *)
Definition refsOk (s : Session) : Prop :=
  (forall t, debounceRef s = Some t -> (t < nextTimer s)%nat)
  /\ (forall t, maxFlushRef s = Some t -> (t < nextTimer s)%nat)
  /\ (forall t, draftTimerRef s = Some t -> (t < nextTimer s)%nat)
  /\ (forall t, debounceRef s = Some t -> maxFlushRef s <> Some t)
  /\ (forall t, debounceRef s = Some t -> draftTimerRef s <> Some t)
  /\ (forall t, maxFlushRef s = Some t -> draftTimerRef s <> Some t).







End DraftSpec.
(** * The whole of [handleApi]: routing on method and path *)

Module Router.
Import Server.

Definition DEFAULT_OPENAI_MODEL : string := "gpt-5.1-codex-mini".

(** [s.startsWith(prefix)] *)
Fixpoint startsWith (s prefix : string) {struct prefix} : bool :=
  match prefix with
  | EmptyString => true
  | String a prefix' =>
      match s with
      | EmptyString => false
      | String b s' => Ascii.eqb a b && startsWith s' prefix'
      end
  end.

Fixpoint skip (n : nat) (s : string) : string :=
  match n, s with
  | O, _ => s
  | S n', String _ rest => skip n' rest
  | S _, EmptyString => EmptyString
  end.

(** [s.replace(pattern, replacement)] with a string pattern: the first
    occurrence only. *)
Fixpoint replace (s pattern replacement : string) : string :=
  if startsWith s pattern
  then String.append replacement (skip (String.length pattern) s)
  else match s with
       | EmptyString => EmptyString
       | String a rest => String a (replace rest pattern replacement)
       end.

(** What the handler reads besides the store and [Env]: the URI decoder
    ([None] when it throws [URIError]), the two environment variables, the
    status the completions route ends with (it talks to another service
    and never to the store), and whether the list query completes. *)
Record Ambient : Type := mkAmbient {
  decodeURIComponent : string -> option string;
  openAiKey : option string;
  openAiModel : option string;
  completionStatus : Body -> Z;
  listFails : bool;
}.

Inductive Reply : Type :=
| HealthOk                                    (* 200, [{ok: true}] *)
| AiStatus (enabled : bool) (model : string)  (* 200, [{enabled, model}] *)
| AiCompletion (status : Z)
| ProjectList (rows : list Project.t)         (* 200, the rows *)
| ProjectReply (res : Response)               (* the project routes *)
| NoRoute                                     (* 404, ["Not Found"] *)
| ServerError.                                (* 500, ["Internal Server Error"] *)

(** Rows in the order of [desc(projects.updatedAt)]. *)
Fixpoint insertRow (p : Project.t) (rows : list Project.t) : list Project.t :=
  match rows with
  | [] => [p]
  | q :: rest =>
      if Project.updatedAt q <=? Project.updatedAt p then p :: q :: rest
      else q :: insertRow p rest
  end.

(** [select().from(projects).orderBy(desc(projects.updatedAt))]; among
    rows with the same time the order is the datastore's. *)
Definition selectProjects (amb : Ambient) : M (list Project.t) :=
  fun db =>
    if listFails amb then (Thrown, db)
    else (Returned (foldr insertRow [] (snd <$> map_to_list (projects db))), db).

(** [handleApi]: [None] is the [null] that hands the request over to the
    static files. *)
Definition handleApi (amb : Ambient) (env : Env) (method pathname : string) (body : Body)
  : M (option Reply) :=
  if negb (startsWith pathname "/api/") then ret None
  else if String.eqb method "GET" && String.eqb pathname "/api/health"
  then ret (Some HealthOk)
  else if String.eqb method "GET" && String.eqb pathname "/api/ai/status"
  then ret (Some (AiStatus
                    (match openAiKey amb with
                     | Some key => Js.truthy key
                     | None => false
                     end)
                    (default DEFAULT_OPENAI_MODEL (openAiModel amb))))
  else if String.eqb method "POST" && String.eqb pathname "/api/ai/completions"
  then ret (Some (AiCompletion (completionStatus amb body)))
  else if String.eqb method "GET" && String.eqb pathname "/api/projects"
  then await rows <- selectProjects amb; ret (Some (ProjectList rows))
  else if String.eqb method "POST" && String.eqb pathname "/api/projects"
  then await res <- Server.handleApi env (PostProjects body);
       ret (Some (ProjectReply res))
  else if String.eqb method "GET" && startsWith pathname "/api/projects/"
  then match decodeURIComponent amb (replace pathname "/api/projects/" "") with
       | None => throw
       | Some id =>
           await res <- Server.handleApi env (GetProject id);
           ret (Some (ProjectReply res))
       end
  else if String.eqb method "PATCH" && startsWith pathname "/api/projects/"
  then match decodeURIComponent amb (replace pathname "/api/projects/" "") with
       | None => throw
       | Some id =>
           await res <- Server.handleApi env (PatchProject id body);
           ret (Some (ProjectReply res))
       end
  else ret (Some NoRoute).

Definition replyStatus (r : Reply) : Z :=
  match r with
  | HealthOk | AiStatus _ _ | ProjectList _ => 200
  | AiCompletion st => st
  | ProjectReply res => status res
  | NoRoute => 404
  | ServerError => 500
  end.

(** The [Deno.serve] handler, as far as the API goes: [inl] is the answer
    of the API (500 when [handleApi] rejects), [inr tt] stands for the
    static files and the fallback page. *)
Definition serve (amb : Ambient) (env : Env) (method pathname : string) (body : Body)
           (db : Db) : (Reply + unit) * Db :=
  match handleApi amb env method pathname body db with
  | (Returned (Some r), db') => (inl r, db')
  | (Returned None, db') => (inr tt, db')
  | (Thrown, db') => (inl ServerError, db')
  end.

(** What a project route answers through the whole handler. *)
Definition routed (env : Env) (req : Request) (db : Db) : (Reply + unit) * Db :=
  match Server.handleApi env req db with
  | (Returned res, db') => (inl (ProjectReply res), db')
  | (Thrown, db') => (inl ServerError, db')
  end.

(** The request the project routes make of a method and a path, when it is
    one of theirs. *)
Definition projectRequest (amb : Ambient) (method pathname : string) (body : Body)
  : option Request :=
  if String.eqb method "POST" && String.eqb pathname "/api/projects"
  then Some (PostProjects body)
  else if startsWith pathname "/api/projects/"
  then match decodeURIComponent amb (skip 14 pathname) with
       | None => None
       | Some id =>
           if String.eqb method "GET" then Some (GetProject id)
           else if String.eqb method "PATCH" then Some (PatchProject id body)
           else None
       end
  else None.

End Router.
(** * The suggestion shown as ghost text ([lib/llm-suggestions.ts]) *)

Module Llm.

Definition CR : ascii := ascii_of_nat 13.
Definition LF : ascii := ascii_of_nat 10.

(** [text.replace(/\r/g, "")] *)
Fixpoint removeCR (text : string) : string :=
  match text with
  | EmptyString => EmptyString
  | String a rest =>
      if Ascii.eqb a CR then removeCR rest else String a (removeCR rest)
  end.

(** [cleaned.split("\n")]: never empty, the empty string gives one empty
    line. *)
Fixpoint split (cleaned : string) : list string :=
  match cleaned with
  | EmptyString => [EmptyString]
  | String a rest =>
      if Ascii.eqb a LF then EmptyString :: split rest
      else match split rest with
           | line :: lines => String a line :: lines
           | [] => [String a EmptyString]
           end
  end.

(** [lines.find((item) => item.trim().length > 0)] *)
Fixpoint find (lines : list string) : option string :=
  match lines with
  | [] => None
  | item :: rest => if Js.truthy (Js.trim item) then Some item else find rest
  end.

Definition normalizeSuggestion (text : string) : string :=
  let cleaned := removeCR text in
  let lines := split cleaned in
  let line := find lines in
  default EmptyString line.

(** The character occurs in the string. *)
Fixpoint occurs (c : ascii) (s : string) : bool :=
  match s with
  | EmptyString => false
  | String a rest => Ascii.eqb a c || occurs c rest
  end.

End Llm.

(** * Properties of the server *)



Import Server ServerSpec.

(** ** The PATCH route, case by case *)

Section PatchRoute.

Variables (env : Env) (pid : string) (body : Body) (db : Db).
Variables (c : string) (b : Z).
Hypothesis Hbody : wellFormed body c b.

(** The record the conditional update stores in place of [p]. *)
Let written (p : Project.t) : Project.t :=
  applySet (mkUpdateValues c (b + 1) (jsDate env)
                           (Js.trim <$> Js.asString (prop body "name"))) p.

Let stored (p : Project.t) : Db :=
  mkDb (<[pid := written p]> (projects db)) (projectSnapshots db).

Lemma patch_run :
  handleApi env (PatchProject pid body) db =
    if fails env StmtUpdateProject then (Thrown, db)
    else
      match projects db !! pid with
      | Some p =>
          if bool_decide (Project.revision p = b)
          then
            match maybeSnapshot env pid (b + 1) c (stored p) with
            | (Returned _, db') => (Returned (mkResponse 200 (Json (written p))), db')
            | (Thrown, db') => (Thrown, db')
            end
          else if fails env StmtSelectCurrent then (Thrown, db)
               else (Returned (mkResponse 409 (Json p)), db)
      | None =>
          if fails env StmtSelectCurrent then (Thrown, db)
          else (Returned (mkResponse 404 (Text "Not Found")), db)
      end.
Proof.
  destruct Hbody as [Hc Hb].
  unfold handleApi. rewrite Hc, Hb.
  unfold bind, updateProject, selectProject, stmt, throw, ret.
  destruct (fails env StmtUpdateProject); [reflexivity|].
  destruct (projects db !! pid) as [p|] eqn:Hp.
  - destruct (bool_decide (Project.revision p = b)).
    + reflexivity.
    + destruct (fails env StmtSelectCurrent); [reflexivity|].
      rewrite Hp. reflexivity.
  - destruct (fails env StmtSelectCurrent); [reflexivity|].
    rewrite Hp. reflexivity.
Qed.

End PatchRoute.

(** A body that fails validation is answered 400 and nothing is touched. *)
Lemma patch_malformed (env : Env) (pid : string) (body : Body) (db : Db) :
  (forall c b, ~ wellFormed body c b) ->
  handleApi env (PatchProject pid body) db =
    (Returned (mkResponse 400 (Text "content and baseRevision are required")), db).
Proof.
  intros Hbad. unfold handleApi.
  destruct (Js.asString (prop body "content")) as [c|] eqn:Hc;
    destruct (Js.asInteger (prop body "baseRevision")) as [b|] eqn:Hb;
    try reflexivity.
  exfalso. apply (Hbad c b). split; assumption.
Qed.

Lemma wellFormed_dec (body : Body) :
  (exists c b, wellFormed body c b) \/ (forall c b, ~ wellFormed body c b).
Proof.
  unfold wellFormed.
  destruct (Js.asString (prop body "content")) as [c|];
    destruct (Js.asInteger (prop body "baseRevision")) as [b|];
    [left; exists c, b; split; reflexivity | right; intros ? ? [? ?]; discriminate ..].
Qed.

(** ** [maybeSnapshot], case by case *)

Lemma maybeSnapshot_run (env : Env) (pid : string) (rev : Z) (c : string) (db : Db) :
  maybeSnapshot env pid rev c db =
    if fails env StmtLatestSnapshot then (Thrown, db)
    else if shouldSnapshot (latestCreatedAt pid (projectSnapshots db)) (jsNow env) rev
    then
      if fails env StmtInsertSnapshot then (Thrown, db)
      else if bool_decide (randomUUID env ∈ Snapshot.id <$> projectSnapshots db)
      then (Thrown, db)
      else
        match projects db !! pid with
        | None => (Thrown, db)
        | Some _ =>
            (Returned tt,
             mkDb (projects db)
                  (projectSnapshots db
                     ++ [Snapshot.mk (randomUUID env) pid rev c (dbNow env)]))
        end
    else (Returned tt, db).
Proof.
  unfold maybeSnapshot, bind, selectLatestSnapshot, insertSnapshot, stmt, throw, ret.
  destruct (fails env StmtLatestSnapshot); [reflexivity|].
  destruct (shouldSnapshot _ _ _); simpl; [|reflexivity].
  destruct (fails env StmtInsertSnapshot); reflexivity.
Qed.

(** [maybeSnapshot] leaves the [projects] table alone, and leaves the
    whole store alone when it throws. *)
Lemma maybeSnapshot_projects (env : Env) (pid : string) (rev : Z) (c : string) (db : Db) :
  projects (snd (maybeSnapshot env pid rev c db)) = projects db.
Proof.
  rewrite maybeSnapshot_run.
  repeat (match goal with
          | |- context [if ?x then _ else _] => destruct x
          | |- context [match ?x with Some _ => _ | None => _ end] => destruct x
          end; try reflexivity).
Qed.

Lemma maybeSnapshot_thrown (env : Env) (pid : string) (rev : Z) (c : string) (db db' : Db) :
  maybeSnapshot env pid rev c db = (Thrown, db') -> db' = db.
Proof.
  rewrite maybeSnapshot_run.
  repeat (match goal with
          | |- context [if ?x then _ else _] => destruct x
          | |- context [match ?x with Some _ => _ | None => _ end] => destruct x
          end; try (intros [= <-]; reflexivity); try discriminate).
Qed.

(** The selected [latest] row, in terms of the table. *)
Lemma latestCreatedAt_None (pid : string) (db : Db) :
  latestCreatedAt pid (projectSnapshots db) = None <-> noSnapshotOf pid db.
Proof.
  unfold noSnapshotOf. induction (projectSnapshots db) as [|s l IH]; simpl.
  - split; [intros _ s Hs; inversion Hs | reflexivity].
  - case_bool_decide as Hs.
    + split; [discriminate|]. intros H. exfalso. apply (H s); [left|exact Hs].
    + rewrite IH. split.
      * intros H s' [->|Hin]%elem_of_cons; [exact Hs | exact (H s' Hin)].
      * intros H s' Hin. apply H. right. exact Hin.
Qed.

Lemma latestCreatedAt_Some (pid : string) (db : Db) (t : Z) :
  latestCreatedAt pid (projectSnapshots db) = Some t <-> mostRecentSnapshotAt pid db t.
Proof.
  unfold mostRecentSnapshotAt. revert t.
  induction (projectSnapshots db) as [|s l IH]; intros t; simpl.
  - split; [discriminate|]. intros [(s & Hs & _) _]. inversion Hs.
  - case_bool_decide as Hs.
    + destruct (latestCreatedAt pid l) as [m|] eqn:Hl.
      * destruct (proj1 (IH m) eq_refl) as [(sm & Hsm & Hpm & Htm) Hmax].
        split.
        -- intros [= <-]. split.
           ++ destruct (Z.max_spec m (Snapshot.createdAt s)) as [[_ ->]|[_ ->]].
              ** exists s. split; [left | split; [exact Hs | reflexivity]].
              ** exists sm. split; [right; exact Hsm | split; assumption].
           ++ intros s' [->|Hin]%elem_of_cons Hp'; [lia|].
              specialize (Hmax s' Hin Hp'). lia.
        -- intros [(s' & Hin & Hp' & Ht') Hall]. f_equal.
           assert (Snapshot.createdAt s <= t) by (apply Hall; [left | exact Hs]).
           assert (m <= t).
           { rewrite <- Htm. apply Hall; [right; exact Hsm | exact Hpm]. }
           apply elem_of_cons in Hin as [->|Hin]; [lia|].
           specialize (Hmax s' Hin Hp'). lia.
      * assert (Hnone : forall s', s' ∈ l -> Snapshot.projectId s' <> pid).
        { intros s' Hin Hp'.
          assert (Hex : is_Some (latestCreatedAt pid l)).
          { clear -Hin Hp'. induction l as [|x l IHl]; [inversion Hin|].
            simpl. case_bool_decide; [eauto|].
            apply elem_of_cons in Hin as [->|Hin]; [contradiction | auto]. }
          rewrite Hl in Hex. destruct Hex as [? [=]]. }
        split.
        -- intros [= <-]. split.
           ++ exists s. split; [left | split; [exact Hs | reflexivity]].
           ++ intros s' [->|Hin]%elem_of_cons Hp'; [lia|].
              exfalso. exact (Hnone s' Hin Hp').
        -- intros [(s' & Hin & Hp' & Ht') _]. f_equal.
           apply elem_of_cons in Hin as [->|Hin]; [exact Ht'|].
           exfalso. exact (Hnone s' Hin Hp').
    + rewrite IH. split.
      * intros [(s' & Hin & Hp' & Ht') Hall]. split.
        -- exists s'. split; [right; exact Hin | split; assumption].
        -- intros s'' [->|Hin']%elem_of_cons Hp''; [contradiction | auto].
      * intros [(s' & Hin & Hp' & Ht') Hall]. split.
        -- apply elem_of_cons in Hin as [->|Hin]; [contradiction|].
           exists s'. split; [exact Hin | split; assumption].
        -- intros s'' Hin' Hp''. apply Hall; [right; exact Hin' | exact Hp''].
Qed.

(** When a snapshot is due, in the words of the policy. *)
Lemma shouldSnapshot_due (pid : string) (db : Db) (now rev : Z) :
  shouldSnapshot (latestCreatedAt pid (projectSnapshots db)) now rev = true
  <-> (noSnapshotOf pid db
       \/ (exists t, mostRecentSnapshotAt pid db t /\ 30000 <= now - t)
       \/ (10 | rev)).
Proof.
  unfold shouldSnapshot, Js.rem, SNAPSHOT_INTERVAL_MS, SNAPSHOT_EVERY_N_REVISIONS.
  rewrite <- latestCreatedAt_None.
  assert (Hrem : (Z.rem rev 10 =? 0) = true <-> (10 | rev)).
  { rewrite Z.eqb_eq. apply Z.rem_divide. lia. }
  destruct (latestCreatedAt pid (projectSnapshots db)) as [t|] eqn:Hl; simpl.
  - rewrite orb_true_iff, Hrem, Z.leb_le. split.
    + intros [H|H]; [right; left | right; right; exact H].
      exists t. split; [apply latestCreatedAt_Some; exact Hl | exact H].
    + intros [H|[(t' & Ht' & Hle)|H]]; [discriminate | left | right; exact H].
      apply latestCreatedAt_Some in Ht'. rewrite Hl in Ht'.
      injection Ht' as ->. exact Hle.
  - split; [intros _; left; reflexivity | reflexivity].
Qed.

(** ** What one PATCH does to the store *)

(** Either nothing is written and the answer is not a success, or the
    conditional update matched: the project is replaced and the answer is
    decided by [maybeSnapshot]. *)
Lemma serve_patch_cases (env : Env) (pid : string) (body : Body) (db : Db) :
  (snd (serve env (PatchProject pid body) db) = db
   /\ status (fst (serve env (PatchProject pid body) db)) <> 200)
  \/ exists c b p,
      wellFormed body c b
      /\ projects db !! pid = Some p
      /\ Project.revision p = b
      /\ fails env StmtUpdateProject = false
      /\ let u := applySet (mkUpdateValues c (b + 1) (jsDate env)
                              (Js.trim <$> Js.asString (prop body "name"))) p in
         let db1 := mkDb (<[pid := u]> (projects db)) (projectSnapshots db) in
         serve env (PatchProject pid body) db =
           match maybeSnapshot env pid (b + 1) c db1 with
           | (Returned _, db') => (mkResponse 200 (Json u), db')
           | (Thrown, db') => (mkResponse 500 (Text "Internal Server Error"), db')
           end.
Proof.
  destruct (wellFormed_dec body) as [(c & b & Hwf)|Hbad].
  - unfold serve. rewrite (patch_run env pid body db c b Hwf).
    destruct (fails env StmtUpdateProject) eqn:Hup; [left; split; [reflexivity|discriminate]|].
    destruct (projects db !! pid) as [p|] eqn:Hp.
    + case_bool_decide as Hrev.
      * right. exists c, b, p.
        split; [exact Hwf|]. split; [reflexivity|]. split; [exact Hrev|].
        split; [reflexivity|]. simpl.
        match goal with
        | |- context [maybeSnapshot ?e ?i ?r ?cc ?d] =>
            destruct (maybeSnapshot e i r cc d) as [[[]|] db']
        end; reflexivity.
      * left. destruct (fails env StmtSelectCurrent); split; (reflexivity || discriminate).
    + left. destruct (fails env StmtSelectCurrent); split; (reflexivity || discriminate).
  - left. unfold serve. rewrite (patch_malformed env pid body db Hbad).
    split; [reflexivity | discriminate].
Qed.

(** No request lowers the revision of a stored project, and none removes
    a project. *)
Lemma serve_revision_monotone (env : Env) (req : Request) (db : Db)
      (pid : string) (p : Project.t) :
  projects db !! pid = Some p ->
  exists p', projects (snd (serve env req db)) !! pid = Some p'
             /\ Project.revision p <= Project.revision p'.
Proof.
  intros Hp. destruct req as [body|pid'|pid' body].
  - unfold serve, handleApi, bind, insertProject, stmt, throw, ret.
    destruct (fails env StmtInsertProject); simpl; [exists p; split; [exact Hp|lia]|].
    destruct (projects db !! randomUUID env) eqn:Hu; simpl.
    + exists p. split; [exact Hp|lia].
    + exists p. split; [|lia].
      rewrite lookup_insert_ne; [exact Hp|]. intros E. rewrite E in Hu. congruence.
  - unfold serve, handleApi, bind, selectProject, stmt, throw, ret.
    destruct (fails env StmtSelectProject); simpl; [exists p; split; [exact Hp|lia]|].
    destruct (projects db !! pid'); simpl; exists p; (split; [exact Hp|lia]).
  - destruct (serve_patch_cases env pid' body db)
      as [[-> _]|(c & b & q & _ & Hq & Hrev & _ & Hrun)].
    + exists p. split; [exact Hp|lia].
    + simpl in Hrun. rewrite Hrun.
      match goal with
      | |- context [maybeSnapshot ?e ?i ?r ?cc ?d] =>
          pose proof (maybeSnapshot_projects e i r cc d) as Hproj;
          destruct (maybeSnapshot e i r cc d) as [[[]|] db']
      end; simpl in *; rewrite Hproj.
      all: destruct (decide (pid' = pid)) as [->|Hne];
        [ rewrite lookup_insert_eq; eexists; split; [reflexivity|];
          simpl; assert (q = p) by congruence; subst q; lia
        | rewrite lookup_insert_ne by exact Hne; exists p; split; [exact Hp|lia] ].
Qed.

(** With the datastore reachable and a free identifier, [maybeSnapshot]
    returns. *)
Lemma maybeSnapshot_returns (env : Env) (pid : string) (rev : Z) (c : string) (db : Db) :
  reliable env ->
  snapshotIdFree env db ->
  is_Some (projects db !! pid) ->
  exists db', maybeSnapshot env pid rev c db = (Returned tt, db')
              /\ projects db' = projects db.
Proof.
  intros Hrel Hfree [q Hq]. rewrite maybeSnapshot_run.
  rewrite !Hrel, Hq. rewrite (bool_decide_eq_false_2 _ Hfree).
  destruct (shouldSnapshot _ _ _); eexists; split; reflexivity.
Qed.

(** ** The revision protocol *)

(** C1.  A PATCH with a validated body [{content, name?, baseRevision}] on
    an existing project.  If it is answered 200, the stored revision
    equalled [baseRevision].  When the stored revision equals
    [baseRevision], the conditional update (if the statement completes)
    replaces the record by [u]: revision [baseRevision + 1], the new
    content, the new update time and, when a name was sent, that name
    (trimmed), the other fields kept; and, the datastore being reachable
    and the snapshot identifier free, the answer is 200 with [u] as body.
    When the stored revision differs, nothing is written and the answer is
    not 200. *)
Theorem patch_compare_and_swap
        (env : Env) (pid : string) (body : Body) (db : Db)
        (p : Project.t) (c : string) (b : Z) :
  projects db !! pid = Some p ->
  wellFormed body c b ->
  let res := fst (serve env (PatchProject pid body) db) in
  let db' := snd (serve env (PatchProject pid body) db) in
  let u := Project.mk (Project.id p)
                      (match Js.asString (prop body "name") with
                       | Some n => Js.trim n
                       | None => Project.name p
                       end)
                      (Project.language p) c (b + 1)
                      (Project.createdAt p) (jsDate env) in
  (status res = 200 ->
   Project.revision p = b
   /\ res = mkResponse 200 (Json u)
   /\ projects db' = <[pid := u]> (projects db))
  /\ (Project.revision p = b ->
      (fails env StmtUpdateProject = false ->
       projects db' = <[pid := u]> (projects db))
      /\ (reliable env -> snapshotIdFree env db -> res = mkResponse 200 (Json u)))
  /\ (Project.revision p <> b -> db' = db /\ status res <> 200).
Proof.
  intros Hp Hwf res db' u.
  assert (Hu : applySet (mkUpdateValues c (b + 1) (jsDate env)
                           (Js.trim <$> Js.asString (prop body "name"))) p = u).
  { subst u. unfold applySet. simpl.
    destruct (Js.asString (prop body "name")); reflexivity. }
  assert (Hrun := patch_run env pid body db c b Hwf).
  rewrite Hp, Hu in Hrun.
  assert (Hmatch : Project.revision p = b ->
            fails env StmtUpdateProject = false ->
            projects db' = <[pid := u]> (projects db)
            /\ (status res = 200 -> res = mkResponse 200 (Json u))
            /\ (reliable env -> snapshotIdFree env db -> res = mkResponse 200 (Json u))).
  { intros Hrev Hup. subst res db'. unfold serve. rewrite Hrun, Hup.
    rewrite (bool_decide_eq_true_2 _ Hrev).
    pose proof (maybeSnapshot_projects env pid (b + 1) c
                  (mkDb (<[pid := u]> (projects db)) (projectSnapshots db))) as Hproj.
    split; [|split].
    - destruct (maybeSnapshot _ _ _ _ _) as [[[]|] db1]; exact Hproj.
    - destruct (maybeSnapshot _ _ _ _ _) as [[[]|] db1]; simpl;
        [reflexivity | discriminate].
    - intros Hrel Hfree.
      destruct (maybeSnapshot_returns env pid (b + 1) c
                  (mkDb (<[pid := u]> (projects db)) (projectSnapshots db))
                  Hrel Hfree) as (db1 & -> & _); [|reflexivity].
      simpl. rewrite lookup_insert_eq. eauto. }
  assert (Hmiss : Project.revision p <> b -> db' = db /\ status res <> 200).
  { intros Hne. subst res db'. unfold serve. rewrite Hrun.
    rewrite (bool_decide_eq_false_2 _ Hne).
    destruct (fails env StmtUpdateProject); [split; [reflexivity|discriminate]|].
    destruct (fails env StmtSelectCurrent); split; (reflexivity || discriminate). }
  split; [|split].
  - intros Hst.
    destruct (decide (Project.revision p = b)) as [Hrev|Hne];
      [|destruct (Hmiss Hne) as [_ H]; contradiction].
    destruct (fails env StmtUpdateProject) eqn:Hup.
    { exfalso. subst res. unfold serve in Hst. rewrite Hrun in Hst. discriminate. }
    destruct (Hmatch Hrev eq_refl) as (H1 & H2 & _).
    split; [exact Hrev|]. split; [exact (H2 Hst) | exact H1].
  - intros Hrev. split.
    + intros Hup. exact (proj1 (Hmatch Hrev Hup)).
    + intros Hrel Hfree. exact (proj2 (proj2 (Hmatch Hrev (Hrel _))) Hrel Hfree).
  - exact Hmiss.
Qed.

(** A write that took effect found the project at its base revision and
    left it one revision further. *)
Lemma wonBy_step (env : Env) (req : Request) (db : Db) (pid : string) (b : Z) :
  wonBy pid b (mkServed db req (fst (serve env req db)) (snd (serve env req db))) ->
  exists p p',
    projects db !! pid = Some p /\ Project.revision p = b
    /\ projects (snd (serve env req db)) !! pid = Some p'
    /\ Project.revision p' = b + 1.
Proof.
  unfold wonBy; simpl. destruct req as [body|pid'|pid' body]; try contradiction.
  intros (-> & Hb & Hwon).
  destruct (serve_patch_cases env pid body db)
    as [[Hdb Hst]|(c' & b' & q & [Hc' Hb'] & Hq & Hrev & _ & Hrun)].
  - exfalso. destruct Hwon as [H|H]; [exact (Hst H)|]. apply H. rewrite Hdb. reflexivity.
  - rewrite Hb in Hb'. injection Hb' as <-.
    exists q. eexists. split; [exact Hq|]. split; [exact Hrev|].
    simpl in Hrun. rewrite Hrun.
    match goal with
    | |- context [maybeSnapshot ?e ?i ?r ?cc ?d] =>
        pose proof (maybeSnapshot_projects e i r cc d) as Hproj;
        destruct (maybeSnapshot e i r cc d) as [[[]|] db']
    end; simpl in *; rewrite Hproj, lookup_insert_eq; split; reflexivity.
Qed.

Lemma serveAll_cons (env : Env) (req : Request) (rest : list (Env * Request)) (db : Db) :
  serveAll ((env, req) :: rest) db =
    mkServed db req (fst (serve env req db)) (snd (serve env req db))
    :: serveAll rest (snd (serve env req db)).
Proof. simpl. destruct (serve env req db). reflexivity. Qed.

(** Once the revision of a project is past [b], no write on base [b]
    takes effect any more. *)
Lemma no_win_past_base (reqs : list (Env * Request)) (db : Db)
      (pid : string) (b : Z) (p : Project.t) :
  projects db !! pid = Some p ->
  b < Project.revision p ->
  filter (wonBy pid b) (serveAll reqs db) = [].
Proof.
  revert db p. induction reqs as [|[env req] rest IH]; intros db p Hp Hlt.
  - reflexivity.
  - rewrite serveAll_cons, filter_cons.
    destruct (decide (wonBy pid b _)) as [Hwon|_].
    + apply wonBy_step in Hwon as (q & _ & Hq & Hrev & _).
      rewrite Hp in Hq. injection Hq as <-. lia.
    + destruct (serve_revision_monotone env req db pid p Hp) as (p' & Hp' & Hle).
      apply (IH _ p' Hp'). lia.
Qed.

Lemma at_most_one_win (reqs : list (Env * Request)) (db : Db) (pid : string) (b : Z) :
  (length (filter (wonBy pid b) (serveAll reqs db)) <= 1)%nat.
Proof.
  revert db. induction reqs as [|[env req] rest IH]; intros db.
  - simpl. lia.
  - rewrite serveAll_cons, filter_cons.
    destruct (decide (wonBy pid b _)) as [Hwon|_]; [|apply IH].
    apply wonBy_step in Hwon as (p & p' & _ & _ & Hp' & Hrev').
    rewrite (no_win_past_base rest _ pid b p' Hp') by lia.
    simpl. lia.
Qed.

(** The same, statement by statement. *)
Lemma execute_revision_monotone (env : Env) (st : Statement) (db : Db)
      (pid : string) (p : Project.t) :
  projects db !! pid = Some p ->
  exists p', projects (snd (execute env st db)) !! pid = Some p'
             /\ Project.revision p <= Project.revision p'.
Proof.
  intros Hp. destruct st as [|row|row|pid' b c n t]; simpl.
  - exists p. split; [exact Hp|lia].
  - unfold insertProject, stmt, throw.
    destruct (fails env StmtInsertProject); simpl; [exists p; split; [exact Hp|lia]|].
    destruct (projects db !! Project.id row) eqn:Hrow; simpl;
      exists p; (split; [|lia]); [exact Hp|].
    rewrite lookup_insert_ne; [exact Hp|]. intros E. rewrite E in Hrow. congruence.
  - unfold insertSnapshot, stmt, throw.
    destruct (fails env StmtInsertSnapshot); simpl; [exists p; split; [exact Hp|lia]|].
    destruct (bool_decide _); simpl; [exists p; split; [exact Hp|lia]|].
    destruct (projects db !! Snapshot.projectId row); simpl;
      exists p; (split; [exact Hp|lia]).
  - unfold updateProject, stmt, throw.
    destruct (fails env StmtUpdateProject); simpl; [exists p; split; [exact Hp|lia]|].
    destruct (projects db !! pid') as [q|] eqn:Hq; simpl; [|exists p; split; [exact Hp|lia]].
    case_bool_decide as Hrev; simpl; [|exists p; split; [exact Hp|lia]].
    destruct (decide (pid' = pid)) as [->|Hne].
    + rewrite lookup_insert_eq. eexists. split; [reflexivity|]. simpl.
      assert (q = p) by congruence. subst q. lia.
    + rewrite lookup_insert_ne by exact Hne. exists p. split; [exact Hp|lia].
Qed.

Lemma execute_hit (env : Env) (st : Statement) (db : Db) (pid : string) (b : Z) :
  fst (execute env st db) && targets pid b st = true ->
  exists p p',
    projects db !! pid = Some p /\ Project.revision p = b
    /\ projects (snd (execute env st db)) !! pid = Some p'
    /\ Project.revision p' = b + 1.
Proof.
  destruct st as [|row|row|pid' b' c n t]; simpl; try discriminate.
  unfold updateProject, stmt, throw.
  destruct (fails env StmtUpdateProject); simpl; [discriminate|].
  destruct (projects db !! pid') as [q|] eqn:Hq; simpl; [|discriminate].
  case_bool_decide as Hrev; simpl; [|discriminate].
  intros [->%bool_decide_eq_true ->%bool_decide_eq_true]%andb_prop.
  exists q. eexists. split; [exact Hq|]. split; [exact Hrev|].
  rewrite lookup_insert_eq. split; reflexivity.
Qed.

Lemma matchedUpdates_cons (pid : string) (b : Z) (env : Env) (st : Statement)
      (rest : list (Env * Statement)) (db : Db) :
  matchedUpdates pid b ((env, st) :: rest) db
  = ((if fst (execute env st db) && targets pid b st then 1 else 0)
     + matchedUpdates pid b rest (snd (execute env st db)))%nat.
Proof. simpl. destruct (execute env st db). reflexivity. Qed.

Lemma no_match_past_base (sts : list (Env * Statement)) (db : Db)
      (pid : string) (b : Z) (p : Project.t) :
  projects db !! pid = Some p ->
  b < Project.revision p ->
  matchedUpdates pid b sts db = O.
Proof.
  revert db p. induction sts as [|[env st] rest IH]; intros db p Hp Hlt.
  - reflexivity.
  - rewrite matchedUpdates_cons.
    destruct (fst (execute env st db) && targets pid b st) eqn:Hhit.
    + apply execute_hit in Hhit as (q & _ & Hq & Hrev & _).
      rewrite Hp in Hq. injection Hq as <-. lia.
    + destruct (execute_revision_monotone env st db pid p Hp) as (p' & Hp' & Hle).
      rewrite (IH _ p' Hp') by lia. reflexivity.
Qed.

Lemma at_most_one_match (sts : list (Env * Statement)) (db : Db) (pid : string) (b : Z) :
  (matchedUpdates pid b sts db <= 1)%nat.
Proof.
  revert db. induction sts as [|[env st] rest IH]; intros db.
  - simpl. lia.
  - rewrite matchedUpdates_cons.
    destruct (fst (execute env st db) && targets pid b st) eqn:Hhit.
    + apply execute_hit in Hhit as (p & p' & _ & _ & Hp' & Hrev').
      rewrite (no_match_past_base rest _ pid b p' Hp') by lia. lia.
    + specialize (IH (snd (execute env st db))). lia.
Qed.

(** C2.  A PATCH whose [baseRevision] differs from the stored revision
    leaves the store as it was (the project record and everything else),
    and, the datastore being reachable, is answered 409 with the stored
    record.  Consequently, in any sequence of requests and for any pair of
    project and base revision, at most one write on that pair takes
    effect; and in any sequence of statements of the handlers, however
    the requests interleave, at most one update on that pair matches. *)
Theorem stale_write_conflicts
        (env : Env) (pid : string) (body : Body) (db : Db)
        (p : Project.t) (c : string) (b : Z) :
  projects db !! pid = Some p ->
  wellFormed body c b ->
  Project.revision p <> b ->
  snd (serve env (PatchProject pid body) db) = db
  /\ (fails env StmtUpdateProject = false ->
      fails env StmtSelectCurrent = false ->
      fst (serve env (PatchProject pid body) db) = mkResponse 409 (Json p))
  /\ (forall (reqs : list (Env * Request)) (db1 : Db) (pid1 : string) (b1 : Z),
         (length (filter (wonBy pid1 b1) (serveAll reqs db1)) <= 1)%nat)
  /\ (forall (sts : list (Env * Statement)) (db1 : Db) (pid1 : string) (b1 : Z),
         (matchedUpdates pid1 b1 sts db1 <= 1)%nat).
Proof.
  intros Hp Hwf Hne. unfold serve.
  rewrite (patch_run env pid body db c b Hwf), Hp.
  rewrite (bool_decide_eq_false_2 _ Hne).
  split; [|split; [|split]].
  - destruct (fails env StmtUpdateProject); [reflexivity|].
    destruct (fails env StmtSelectCurrent); reflexivity.
  - intros -> ->. reflexivity.
  - intros reqs db1 pid1 b1. apply at_most_one_win.
  - intros sts db1 pid1 b1. apply at_most_one_match.
Qed.


(** ** The snapshot policy *)

(** C4.  After a PATCH answered 200, a snapshot of the content just written
    (at the new revision) has been appended exactly when the project had no
    snapshot, or its most recent snapshot is at least 30000 ms old, or the
    new revision is a multiple of 10; otherwise the snapshots are as they
    were.  In particular a new revision that is a multiple of 10 always
    comes with a snapshot. *)
Theorem snapshot_after_write (env : Env) (pid : string) (body : Body) (db : Db) :
  status (fst (serve env (PatchProject pid body) db)) = 200 ->
  exists u,
    fst (serve env (PatchProject pid body) db) = mkResponse 200 (Json u)
    /\ Js.asString (prop body "content") = Some (Project.content u)
    /\ let db' := snd (serve env (PatchProject pid body) db) in
       let taken := Snapshot.mk (randomUUID env) pid (Project.revision u)
                                (Project.content u) (dbNow env) in
       let due := noSnapshotOf pid db
                  \/ (exists t, mostRecentSnapshotAt pid db t /\ 30000 <= jsNow env - t)
                  \/ (10 | Project.revision u) in
       (due -> projectSnapshots db' = projectSnapshots db ++ [taken])
       /\ (~ due -> projectSnapshots db' = projectSnapshots db)
       /\ ((10 | Project.revision u) ->
           projectSnapshots db' = projectSnapshots db ++ [taken]).
Proof.
  intros Hst.
  destruct (serve_patch_cases env pid body db)
    as [[_ Hno]|(c & b & p & [Hc _] & Hp & _ & _ & Hrun)]; [contradiction|].
  simpl in Hrun. rewrite Hrun in Hst |- *. clear Hrun.
  rewrite maybeSnapshot_run in Hst |- *. simpl projectSnapshots in *.
  pose proof (shouldSnapshot_due pid db (jsNow env) (b + 1)) as Hdue.
  destruct (fails env StmtLatestSnapshot); [discriminate|].
  destruct (shouldSnapshot _ _ _).
  - destruct (fails env StmtInsertSnapshot); [discriminate|].
    destruct (bool_decide _); [discriminate|].
    simpl projects in *. rewrite lookup_insert_eq in Hst |- *. simpl.
    eexists. split; [reflexivity|]. split; [exact Hc|]. simpl.
    split; [reflexivity|]. split; [|reflexivity].
    intros Hnot. exfalso. apply Hnot, Hdue. reflexivity.
  - simpl. eexists. split; [reflexivity|]. split; [exact Hc|]. simpl.
    assert (Hnot : ~ (noSnapshotOf pid db
                      \/ (exists t, mostRecentSnapshotAt pid db t
                                    /\ 30000 <= jsNow env - t)
                      \/ (10 | b + 1))).
    { intros H. apply Hdue in H. discriminate. }
    split; [intros H; contradiction|]. split; [reflexivity|].
    intros H. exfalso. apply Hnot. right. right. exact H.
Qed.

(** C9, as the code has it.  When the conditional update has matched and
    [maybeSnapshot] then throws, the update stays in the store and nothing
    else changes, and the request is answered 500. *)
Theorem snapshot_failure_after_write
        (env : Env) (pid : string) (body : Body) (db : Db)
        (p : Project.t) (c : string) (b : Z) :
  let u := applySet (mkUpdateValues c (b + 1) (jsDate env)
                       (Js.trim <$> Js.asString (prop body "name"))) p in
  let written := mkDb (<[pid := u]> (projects db)) (projectSnapshots db) in
  projects db !! pid = Some p ->
  wellFormed body c b ->
  Project.revision p = b ->
  fails env StmtUpdateProject = false ->
  fst (maybeSnapshot env pid (b + 1) c written) = Thrown ->
  serve env (PatchProject pid body) db
  = (mkResponse 500 (Text "Internal Server Error"), written)
  /\ Project.revision u = b + 1
  /\ Project.content u = c.
Proof.
  intros u written Hp Hwf Hrev Hup Hthrow.
  split; [|split; reflexivity].
  unfold serve. rewrite (patch_run env pid body db c b Hwf), Hup, Hp.
  rewrite (bool_decide_eq_true_2 _ Hrev). fold u. fold written.
  destruct (maybeSnapshot env pid (b + 1) c written) as [[[]|] db'] eqn:Hm;
    simpl in Hthrow; [discriminate|].
  rewrite (maybeSnapshot_thrown _ _ _ _ _ _ Hm). reflexivity.
Qed.

(** ** Creation *)

(** C8, as the code has it.  A creation request is answered 201 exactly
    when the insert completes and the drawn identifier is not taken.  Then
    the new record is stored under that identifier and returned; it has
    revision 0, language ["typescript"], the default content
    ["// Start typing in Codenote"] followed by a line feed, and as name
    the trimmed [name] of the body, or ["Untitled Project"] when the body
    has none or a blank one. *)
Theorem create_project (env : Env) (body : Body) (db : Db) :
  let res := fst (serve env (PostProjects body) db) in
  let db' := snd (serve env (PostProjects body) db) in
  (status res = 201
   <-> fails env StmtInsertProject = false /\ projects db !! randomUUID env = None)
  /\ (status res = 201 ->
      exists r,
        res = mkResponse 201 (Json r)
        /\ Project.id r = randomUUID env
        /\ projects db !! Project.id r = None
        /\ db' = mkDb (<[Project.id r := r]> (projects db)) (projectSnapshots db)
        /\ Project.revision r = 0
        /\ Project.language r = "typescript"
        /\ Project.content r
           = String.append "// Start typing in Codenote" (String (ascii_of_nat 10) EmptyString)
        /\ Project.name r
           = match Js.asString (prop body "name") with
             | Some n => if Js.isEmpty (Js.trim n) then "Untitled Project" else Js.trim n
             | None => "Untitled Project"
             end
        /\ Project.createdAt r = dbNow env
        /\ Project.updatedAt r = dbNow env).
Proof.
  intros res db'. subst res db'.
  unfold serve, handleApi, bind, insertProject, stmt, throw, ret. simpl.
  destruct (fails env StmtInsertProject); simpl.
  - split; [split; [discriminate | intros [? _]; discriminate] | discriminate].
  - destruct (projects db !! randomUUID env) eqn:Hu; simpl.
    + split; [split; [discriminate | intros [_ ?]; discriminate] | discriminate].
    + split; [split; [intros _; split; reflexivity | reflexivity]|].
      intros _. eexists. split; [reflexivity|]. simpl.
      split; [reflexivity|]. split; [exact Hu|]. split; [reflexivity|].
      split; [reflexivity|]. split; [reflexivity|]. split; [reflexivity|].
      split; [|split; reflexivity].
      destruct (Js.asString (prop body "name")) as [n|]; [|reflexivity].
      unfold Js.truthy. destruct (Js.isEmpty (Js.trim n)); reflexivity.
Qed.

(** ** The properties at concrete requests *)

Lemma patch_compare_and_swap_witness :
  projects Example.db !! "p-1" = Some Example.project
  /\ wellFormed Example.edit "hello" 0
  /\ reliable Example.env
  /\ snapshotIdFree Example.env Example.db
  /\ fst (serve Example.env (PatchProject "p-1" Example.edit) Example.db)
     = mkResponse 200 (Json Example.edited).
Proof.
  assert (H1 : projects Example.db !! "p-1" = Some Example.project)
    by (vm_compute; reflexivity).
  assert (H2 : wellFormed Example.edit "hello" 0) by (split; vm_compute; reflexivity).
  assert (H3 : reliable Example.env) by (intros st; reflexivity).
  assert (H4 : snapshotIdFree Example.env Example.db) by apply not_elem_of_nil.
  repeat (split; [assumption|]).
  destruct (patch_compare_and_swap Example.env "p-1" Example.edit Example.db
              Example.project "hello" 0 H1 H2) as (_ & Hmatch & _).
  destruct (Hmatch eq_refl) as [_ Hres].
  rewrite (Hres H3 H4). vm_compute. reflexivity.
Defined.

(** Two tabs send the same edit on base revision 0: the first is
    answered 200 with revision 1, the second 409 with that record. *)
Lemma stale_write_conflicts_witness :
  projects Example.db !! "p-1" = Some Example.project
  /\ wellFormed Example.staleEdit "hello" 3
  /\ Project.revision Example.project <> 3
  /\ serve Example.env (PatchProject "p-1" Example.staleEdit) Example.db
     = (mkResponse 409 (Json Example.project), Example.db)
  /\ response <$> serveAll [(Example.env, PatchProject "p-1" Example.edit);
                            (Example.envLater, PatchProject "p-1" Example.edit)]
                           Example.db
     = [mkResponse 200 (Json Example.edited); mkResponse 409 (Json Example.edited)]
  /\ (length (filter (wonBy "p-1" 0)
                     (serveAll [(Example.env, PatchProject "p-1" Example.edit);
                                (Example.envLater, PatchProject "p-1" Example.edit)]
                               Example.db)) <= 1)%nat.
Proof.
  assert (H1 : projects Example.db !! "p-1" = Some Example.project)
    by (vm_compute; reflexivity).
  assert (H2 : wellFormed Example.staleEdit "hello" 3)
    by (split; vm_compute; reflexivity).
  assert (H3 : Project.revision Example.project <> 3) by discriminate.
  repeat (split; [assumption|]).
  destruct (stale_write_conflicts Example.env "p-1" Example.staleEdit Example.db
              Example.project "hello" 3 H1 H2 H3) as (Hdb & Hres & Hone & _).
  specialize (Hres eq_refl eq_refl).
  split; [|split; [vm_compute; reflexivity | apply Hone]].
  destruct (serve Example.env (PatchProject "p-1" Example.staleEdit) Example.db).
  simpl in *. rewrite Hdb, Hres. reflexivity.
Defined.


Lemma snapshot_after_write_witness :
  status (fst (serve Example.env (PatchProject "p-1" Example.edit) Example.db)) = 200
  /\ exists u,
      fst (serve Example.env (PatchProject "p-1" Example.edit) Example.db)
      = mkResponse 200 (Json u)
      /\ projectSnapshots
           (snd (serve Example.env (PatchProject "p-1" Example.edit) Example.db))
         = [Snapshot.mk "u-1" "p-1" (Project.revision u) (Project.content u) 3000].
Proof.
  assert (H : status (fst (serve Example.env (PatchProject "p-1" Example.edit)
                                 Example.db)) = 200) by reflexivity.
  split; [exact H|].
  destruct (snapshot_after_write Example.env "p-1" Example.edit Example.db H)
    as (u & Hres & _ & Hdue & _).
  exists u. split; [exact Hres|].
  apply Hdue. left. intros s Hs. inversion Hs.
Defined.

(** C9, where the claim fails: the update has matched, the insert of the
    snapshot does not complete, and the caller gets 500 instead of 200
    although the project is stored at its new revision. *)
Lemma snapshot_failure_answers_500 :
  fst (maybeSnapshot Example.envSnapshotDown "p-1" 1 "hello"
         (mkDb {[ "p-1" := Example.edited ]} [])) = Thrown
  /\ status (fst (serve Example.envSnapshotDown (PatchProject "p-1" Example.edit)
                        Example.db)) = 500
  /\ status (fst (serve Example.envSnapshotDown (PatchProject "p-1" Example.edit)
                        Example.db)) <> 200
  /\ projects (snd (serve Example.envSnapshotDown (PatchProject "p-1" Example.edit)
                          Example.db)) !! "p-1" = Some Example.edited.
Proof.
  split; [reflexivity|]. split; [reflexivity|]. split; [discriminate|]. reflexivity.
Qed.

Lemma snapshot_failure_after_write_witness :
  projects Example.db !! "p-1" = Some Example.project
  /\ wellFormed Example.edit "hello" 0
  /\ fails Example.envSnapshotDown StmtUpdateProject = false
  /\ serve Example.envSnapshotDown (PatchProject "p-1" Example.edit) Example.db
     = (mkResponse 500 (Text "Internal Server Error"),
        mkDb (<["p-1" := Example.edited]> (projects Example.db)) []).
Proof.
  assert (H1 : projects Example.db !! "p-1" = Some Example.project) by reflexivity.
  assert (H2 : wellFormed Example.edit "hello" 0) by (split; reflexivity).
  repeat (split; [first [assumption | reflexivity]|]).
  exact (proj1 (snapshot_failure_after_write Example.envSnapshotDown "p-1" Example.edit
                  Example.db Example.project "hello" 0 H1 H2 eq_refl eq_refl eq_refl)).
Defined.

(** C8, where the claim fails: the record created by a request with an
    empty body has neither empty content nor an empty name. *)
Lemma create_defaults_not_empty :
  exists r,
    fst (serve Example.env (PostProjects ∅) Example.db) = mkResponse 201 (Json r)
    /\ Project.revision r = 0
    /\ Project.content r <> EmptyString
    /\ Project.name r <> EmptyString.
Proof.
  eexists. split; [reflexivity|]. split; [reflexivity|]. split; discriminate.
Qed.

Lemma create_project_witness :
  status (fst (serve Example.env (PostProjects ∅) Example.db)) = 201
  /\ exists r,
      fst (serve Example.env (PostProjects ∅) Example.db) = mkResponse 201 (Json r)
      /\ Project.id r = "u-1"
      /\ Project.revision r = 0
      /\ Project.name r = "Untitled Project".
Proof.
  assert (H : status (fst (serve Example.env (PostProjects ∅) Example.db)) = 201)
    by reflexivity.
  split; [exact H|].
  destruct (proj2 (create_project Example.env ∅ Example.db) H)
    as (r & Hres & Hid & _ & _ & Hrev & _ & _ & Hname & _).
  exists r. repeat split; assumption.
Defined.

(** * Properties of the scheduler *)

Import Client ClientSpec.

(** ** [flush] *)

Lemma flush_blocked (s : Session) :
  is_Some (conflictRef s) \/ savingRef s = true -> flush s = (s, []).
Proof.
  intros [H|H]; unfold flush.
  - rewrite (bool_decide_eq_true_2 _ H). reflexivity.
  - rewrite H. destruct (bool_decide _); reflexivity.
Qed.

Lemma flush_clean (s : Session) :
  latestValueRef s = lastSavedRef s ->
  latestNameRef s = lastSavedNameRef s ->
  flush s = (s, []).
Proof.
  intros Hv Hn. unfold flush.
  rewrite (bool_decide_eq_true_2 _ Hv), (bool_decide_eq_true_2 _ Hn).
  destruct (bool_decide _); [reflexivity|]. destruct (savingRef s); reflexivity.
Qed.

(** ** What the timer functions leave alone *)

Ltac session_cases :=
  repeat match goal with
         | |- context [match ?x with Some _ => _ | None => _ end] => destruct x; simpl
         | |- context [if ?b then _ else _] => destruct b; simpl
         end.

Lemma clearTimers_frame (s : Session) : sameButTimers s (clearTimers s).
Proof.
  destruct s. unfold sameButTimers, clearTimers; simpl.
  session_cases; repeat split; reflexivity.
Qed.

Lemma scheduleDraftWrite_frame (draft : Draft.t) (s : Session) :
  sameButTimers s (scheduleDraftWrite draft s).
Proof.
  destruct s. unfold sameButTimers, scheduleDraftWrite; simpl.
  session_cases; repeat split; reflexivity.
Qed.

Lemma scheduleServerSave_frame (s : Session) :
  sameButTimers s (scheduleServerSave s).
Proof.
  destruct s. unfold sameButTimers, scheduleServerSave; simpl.
  session_cases; repeat split; reflexivity.
Qed.

Lemma sameButTimers_flight (s s' : Session) : sameButTimers s s' -> sameFlight s s'.
Proof. unfold sameButTimers, sameFlight. intuition. Qed.

Lemma sameFlight_invariant (s s' : Session) :
  sameFlight s s' -> flightInvariant s -> flightInvariant s'.
Proof.
  unfold sameFlight, flightInvariant.
  intros (-> & -> & -> & -> & ->). trivial.
Qed.

Lemma changeEffect_flight (now : Z) (s : Session) : sameFlight s (changeEffect now s).
Proof.
  destruct s. unfold sameFlight, changeEffect, scheduleServerSave, scheduleDraftWrite; simpl.
  session_cases; repeat split; reflexivity.
Qed.

Lemma rendered_flight (now : Z) (before s : Session) : sameFlight s (rendered now before s).
Proof.
  unfold rendered. destruct (_ && _); [repeat split|apply changeEffect_flight].
Qed.

Lemma flush_sends (s : Session) :
  conflictRef s = None -> savingRef s = false -> dirty s ->
  let s' := fst (flush s) in
  snd (flush s) = [Fetch (patchOf s)]
  /\ inFlight s' = inFlight s ++ [patchOf s]
  /\ savingRef s' = true /\ pendingSaveRef s' = false /\ saveState s' = Saving
  /\ conflictRef s' = None /\ conflictProject s' = conflictProject s
  /\ value s' = value s /\ name s' = name s
  /\ latestValueRef s' = latestValueRef s /\ latestNameRef s' = latestNameRef s
  /\ baseRevisionRef s' = baseRevisionRef s
  /\ lastSavedRef s' = lastSavedRef s /\ lastSavedNameRef s' = lastSavedNameRef s
  /\ awaitingClearDraft s' = awaitingClearDraft s.
Proof.
  intros Hc Hs Hd. unfold flush. rewrite Hc, Hs.
  rewrite (bool_decide_eq_false_2 (is_Some None)) by (intros [? [=]]).
  assert (Hdirty : bool_decide (latestValueRef s = lastSavedRef s)
                   && bool_decide (latestNameRef s = lastSavedNameRef s) = false).
  { apply andb_false_iff. destruct Hd as [H|H]; [left|right];
      apply bool_decide_eq_false_2; exact H. }
  rewrite Hdirty. clear Hdirty Hd.
  destruct s as [? ? ? ? ? ? ? ? ? ? ? ? ? ? dr mr ? ? ? ? ?].
  simpl in *. subst. unfold clearTimers, patchOf.
  destruct dr, mr; simpl; repeat split; reflexivity.
Qed.

Lemma flush_cases (s : Session) :
  flush s = (s, []) \/ (conflictRef s = None /\ savingRef s = false /\ dirty s).
Proof.
  destruct (conflictRef s) as [server|] eqn:Hc.
  { left. apply flush_blocked. left. rewrite Hc. eauto. }
  destruct (savingRef s) eqn:Hs.
  { left. apply flush_blocked. right. exact Hs. }
  destruct (decide (latestValueRef s = lastSavedRef s)) as [Hv|Hv];
    [|right; split; [reflexivity|]; split; [reflexivity|]; left; exact Hv].
  destruct (decide (latestNameRef s = lastSavedNameRef s)) as [Hn|Hn];
    [|right; split; [reflexivity|]; split; [reflexivity|]; right; exact Hn].
  left. apply flush_clean; assumption.
Qed.

Lemma flushFinally_frame (s : Session) :
  sameButTimers (set_savingRef false s) (flushFinally s).
Proof.
  unfold flushFinally. destruct (_ && _).
  - apply scheduleServerSave_frame.
  - repeat split.
Qed.

(** ** At most one flush under way *)

Lemma init_flight (project : Project.t) : flightInvariant (init project).
Proof.
  unfold flightInvariant; simpl. split; [reflexivity|].
  split; [intros [? [=]] | reflexivity].
Qed.

Lemma flush_flight (s : Session) :
  flightInvariant s -> flightInvariant (fst (flush s)).
Proof.
  intros Hinv. destruct (flush_cases s) as [->|(Hc & Hs & Hd)]; [exact Hinv|].
  destruct (flush_sends s Hc Hs Hd)
    as (_ & Hfl & Hsv & _ & _ & Hcr & Hcp & _ & _ & _ & _ & _ & _ & _ & Haw).
  destruct Hinv as (Hlen & _ & Hsame). rewrite Hs in Hlen.
  unfold flightInvariant. rewrite Hfl, Hsv, Hcr, Hcp, Haw, length_app. simpl.
  split; [lia|]. split; [intros [? [=]]|]. rewrite Hsame. exact Hc.
Qed.

Lemma flushFinally_flight (s : Session) :
  inFlight s = [] -> awaitingClearDraft s = O ->
  conflictProject s = conflictRef s ->
  flightInvariant (flushFinally s).
Proof.
  intros Hfl Haw Hsame.
  destruct (flushFinally_frame s)
    as (_ & _ & _ & _ & Hcp & _ & _ & _ & _ & _ & _ & Hsv & _ & Hcr & Hfl' & Haw').
  unfold flightInvariant. rewrite Hfl', Haw', Hsv, Hcr, Hcp.
  destruct s; simpl in *. subst. repeat split; reflexivity.
Qed.

(** From [Some t = Some (s', cmds)], replace [s'] by [t.1] in the goal. *)
Ltac flush_result H :=
  match type of H with
  | Some ?t = Some (?s', _) =>
      let E := fresh "E" in
      assert (E : s' = fst t)
        by (injection H as H; rewrite H; reflexivity);
      rewrite E; clear E
  end.

Lemma inFlight_singleton (s : Session) (i : nat) (req : PatchRequest) :
  flightInvariant s -> inFlight s !! i = Some req ->
  delete i (inFlight s) = [] /\ awaitingClearDraft s = O
  /\ savingRef s = true /\ conflictRef s = None.
Proof.
  intros (Hlen & Hconf & Hsame) Hi.
  pose proof (lookup_lt_Some _ _ _ Hi) as Hlt.
  destruct (savingRef s) eqn:Hsv; [|lia].
  split.
  { destruct (inFlight s) as [|r [|r' l]]; simpl in *; try lia.
    destruct i; simpl in *; [reflexivity|lia]. }
  split; [lia|]. split; [reflexivity|].
  destruct (conflictRef s); [|reflexivity].
  specialize (Hconf ltac:(eauto)). discriminate.
Qed.

Lemma flushResumed_flight (now : Z) (res : FetchResult) (s : Session) :
  inFlight s = [] -> awaitingClearDraft s = O -> savingRef s = true ->
  conflictRef s = None -> conflictProject s = None ->
  flightInvariant (fst (flushResumed now res s)).
Proof.
  intros Hfl Haw Hsv Hc Hcp. destruct res as [latest| |updated]; simpl.
  - apply flushFinally_flight; destruct s; simpl in *; assumption || reflexivity.
  - apply flushFinally_flight; destruct s; simpl in *; congruence.
  - destruct (_ && _); simpl.
    + unfold flightInvariant. destruct s; simpl in *. subst.
      split; [reflexivity|]. split; [intros [? [=]]|reflexivity].
    + match goal with
      | |- context [scheduleDraftWrite ?d ?x] =>
          pose proof (scheduleDraftWrite_frame d x) as Hfr;
          assert (Hx : inFlight x = [] /\ awaitingClearDraft x = O
                       /\ conflictProject x = conflictRef x)
            by (destruct s; simpl in *; repeat split; congruence);
          generalize dependent (scheduleDraftWrite d x); generalize dependent x
      end.
      intros x (X1 & X2 & X3) y (_&_&_&_&Y5&_&_&_&_&_&_&_&_&Y14&Y15&Y16).
      apply flushFinally_flight; congruence.
Qed.

Lemma step_flight (e : Event) (s s' : Session) (cmds : list Cmd) :
  flightInvariant s -> step e s = Some (s', cmds) -> flightInvariant s'.
Proof.
  intros Hinv Hstep. destruct e as [now text|now text|tid| |now i res| |draft|now| |now| ];
    simpl in Hstep.
  - injection Hstep as <- _.
    eapply sameFlight_invariant; [apply rendered_flight|].
    eapply sameFlight_invariant; [|exact Hinv]. destruct s; repeat split.
  - injection Hstep as <- _.
    eapply sameFlight_invariant; [apply rendered_flight|].
    eapply sameFlight_invariant; [|exact Hinv]. destruct s; repeat split.
  - destruct (timers s !! tid) as [cb|]; [|discriminate].
    assert (Hinv1 : flightInvariant (set_timers (delete tid (timers s)) s)).
    { eapply sameFlight_invariant; [|exact Hinv]. destruct s; repeat split. }
    destruct cb.
    + injection Hstep as <- _. exact Hinv1.
    + flush_result Hstep. apply flush_flight, Hinv1.
    + flush_result Hstep. apply flush_flight, Hinv1.
  - flush_result Hstep. apply flush_flight, Hinv.
  - destruct (inFlight s !! i) as [req|] eqn:Hi; [|discriminate].
    flush_result Hstep.
    destruct (inFlight_singleton s i req Hinv Hi) as (Hnil & Haw & Hsv & Hc).
    destruct Hinv as (_ & _ & Hsame). rewrite Hnil.
    apply flushResumed_flight; destruct s; simpl in *; congruence.
  - destruct (awaitingClearDraft s) as [|n] eqn:Haw; [discriminate|].
    injection Hstep as <- _.
    destruct Hinv as (Hlen & Hconf & Hsame).
    destruct (savingRef s) eqn:Hsv; [|lia].
    apply flushFinally_flight.
    + destruct s; simpl in *. destruct inFlight0; [reflexivity|simpl in *; lia].
    + destruct s; simpl in *. lia.
    + destruct s; simpl in *. exact Hsame.
  - injection Hstep as <- _.
    eapply sameFlight_invariant; [|exact Hinv]. destruct s; repeat split.
  - unfold handleRestore in Hstep. destruct (restoreDraft s) as [draft|].
    + injection Hstep as <- _.
      eapply sameFlight_invariant; [apply rendered_flight|].
      eapply sameFlight_invariant; [|exact Hinv]. destruct s; repeat split.
    + injection Hstep as <- _. exact Hinv.
  - unfold handleDiscardDraft in Hstep. destruct (restoreDraft s) as [draft|].
    + injection Hstep as <- _.
      eapply sameFlight_invariant; [|exact Hinv]. destruct s; repeat split.
    + injection Hstep as <- _. exact Hinv.
  - unfold handleReloadFromServer in Hstep.
    destruct (conflictProject s) as [server|] eqn:Hcp.
    + injection Hstep as <- _.
      eapply sameFlight_invariant; [apply rendered_flight|].
      destruct Hinv as (Hlen & Hconf & Hsame).
      rewrite Hcp in Hsame. specialize (Hconf ltac:(rewrite <- Hsame; eauto)).
      rewrite Hconf in Hlen.
      unfold flightInvariant. destruct s; simpl in *. rewrite Hconf.
      split; [exact Hlen|]. split; [intros [? [=]]|reflexivity].
    + injection Hstep as <- _. exact Hinv.
  - unfold handleOverwriteServer in Hstep.
    destruct (conflictProject s) as [server|] eqn:Hcp.
    + flush_result Hstep. apply flush_flight.
      destruct Hinv as (Hlen & Hconf & Hsame).
      rewrite Hcp in Hsame. specialize (Hconf ltac:(rewrite <- Hsame; eauto)).
      rewrite Hconf in Hlen.
      unfold flightInvariant. destruct s; simpl in *. rewrite Hconf.
      split; [exact Hlen|]. split; [intros [? [=]]|reflexivity].
    + injection Hstep as <- _. exact Hinv.
Qed.

(** ** Armed timers and the refs that hold them *)

Lemma init_timers (project : Project.t) : timersInvariant (init project).
Proof. intros tid cb H. simpl in H. rewrite lookup_empty in H. discriminate. Qed.

(** Use the invariant on a lookup in the goal's hypothesis [Hl]. *)
Ltac timers_lookup Hinv Hl :=
  repeat match type of Hl with
         | <[_ := _]> _ !! _ = Some _ =>
             apply lookup_insert_Some in Hl as [[<- <-]|[? Hl]]
         | delete _ _ !! _ = Some _ =>
             apply lookup_delete_Some in Hl as [? Hl]
         end;
  try (pose proof (Hinv _ _ Hl) as [? ?]).

Lemma clearTimers_timers (s : Session) :
  timersInvariant s -> timersInvariant (clearTimers s).
Proof.
  destruct s as [? ? ? ? ? ? ? ? ? ? ? ? ? ? dr mr ? tm ? ? ?].
  unfold timersInvariant, clearTimers; simpl. intros Hinv tid cb Hl.
  destruct dr as [d|], mr as [m|]; simpl in *; timers_lookup Hinv Hl;
    (split; [assumption|]); destruct cb; simpl in *; congruence.
Qed.

Lemma scheduleDraftWrite_timers (draft : Draft.t) (s : Session) :
  timersInvariant s -> timersInvariant (scheduleDraftWrite draft s).
Proof.
  destruct s as [? ? ? ? ? ? ? ? ? ? ? ? ? ? ? ? wr tm ? ? ?].
  unfold timersInvariant, scheduleDraftWrite, setTimeout, clearTimeout; simpl.
  intros Hinv tid cb Hl.
  destruct wr as [w|]; simpl in *; timers_lookup Hinv Hl;
    try (split; [lia|]); try destruct cb; simpl in *; try congruence; try lia.
Qed.

Lemma scheduleServerSave_timers (s : Session) :
  timersInvariant s -> timersInvariant (scheduleServerSave s).
Proof.
  destruct s as [? ? ? ? ? ? ? ? ? ? ? ? ? cr dr mr ? tm ? ? ?].
  unfold timersInvariant, scheduleServerSave, setTimeout, clearTimeout; simpl.
  intros Hinv tid cb Hl.
  destruct (bool_decide (is_Some cr)); simpl in *; [exact (Hinv _ _ Hl)|].
  destruct dr as [d|], mr as [m|]; simpl in *; timers_lookup Hinv Hl;
    try (split; [lia|]); try destruct cb; simpl in *; try congruence; try lia.
Qed.

Lemma sameTimers_invariant (s s' : Session) :
  sameTimers s s' -> timersInvariant s -> timersInvariant s'.
Proof.
  unfold sameTimers, timersInvariant.
  intros (-> & -> & -> & -> & ->). trivial.
Qed.

(** [s'] is [t] with fields other than the timer ones assigned. *)
Ltac same_timers :=
  match goal with
  | |- sameTimers ?t _ => destruct t; repeat split
  end.

Lemma flush_timers (s : Session) :
  timersInvariant s -> timersInvariant (fst (flush s)).
Proof.
  intros Hinv. unfold flush.
  destruct (bool_decide _); [exact Hinv|].
  destruct (savingRef s); [exact Hinv|].
  destruct (_ && _); [exact Hinv|]. simpl.
  eapply (sameTimers_invariant
            (clearTimers (set_pendingSaveRef false (set_savingRef true s))));
    [same_timers|].
  apply clearTimers_timers.
  eapply sameTimers_invariant; [|exact Hinv]. same_timers.
Qed.

Lemma flushFinally_timers (s : Session) :
  timersInvariant s -> timersInvariant (flushFinally s).
Proof.
  intros Hinv.
  assert (H1 : timersInvariant (set_savingRef false s)).
  { eapply sameTimers_invariant; [|exact Hinv]. same_timers. }
  unfold flushFinally. destruct (_ && _); [|exact H1].
  apply scheduleServerSave_timers, H1.
Qed.

Lemma changeEffect_timers (now : Z) (s : Session) :
  timersInvariant s -> timersInvariant (changeEffect now s).
Proof.
  intros Hinv. unfold changeEffect.
  assert (H1 : timersInvariant
                 (set_latestNameRef (name (set_latestValueRef (value s) s))
                                    (set_latestValueRef (value s) s))).
  { eapply sameTimers_invariant; [|exact Hinv]. same_timers. }
  destruct (_ && _); [exact H1|].
  match goal with
  | |- context [scheduleDraftWrite ?d ?x] =>
      pose proof (scheduleDraftWrite_timers d x H1) as H2;
      generalize dependent (scheduleDraftWrite d x)
  end.
  intros s3 H3.
  destruct (bool_decide _); [exact H3|].
  destruct (savingRef s3).
  - eapply sameTimers_invariant; [|exact H3]. same_timers.
  - apply scheduleServerSave_timers, H3.
Qed.

Lemma rendered_timers (now : Z) (before s : Session) :
  timersInvariant s -> timersInvariant (rendered now before s).
Proof.
  intros Hinv. unfold rendered. destruct (_ && _); [exact Hinv|].
  apply changeEffect_timers, Hinv.
Qed.

Lemma flushResumed_timers (now : Z) (res : FetchResult) (s : Session) :
  timersInvariant s -> timersInvariant (fst (flushResumed now res s)).
Proof.
  intros Hinv. destruct res as [latest| |updated]; simpl.
  - apply flushFinally_timers.
    eapply sameTimers_invariant; [|exact Hinv]. same_timers.
  - apply flushFinally_timers.
    eapply sameTimers_invariant; [|exact Hinv]. same_timers.
  - destruct (_ && _); simpl.
    + eapply sameTimers_invariant; [|exact Hinv]. same_timers.
    + apply flushFinally_timers, scheduleDraftWrite_timers.
      eapply sameTimers_invariant; [|exact Hinv]. same_timers.
Qed.

Lemma step_timers (e : Event) (s s' : Session) (cmds : list Cmd) :
  timersInvariant s -> step e s = Some (s', cmds) -> timersInvariant s'.
Proof.
  intros Hinv Hstep. destruct e as [now text|now text|tid| |now i res| |draft|now| |now| ];
    simpl in Hstep.
  - injection Hstep as <- _. apply rendered_timers.
    eapply sameTimers_invariant; [|exact Hinv]. same_timers.
  - injection Hstep as <- _. apply rendered_timers.
    eapply sameTimers_invariant; [|exact Hinv]. same_timers.
  - destruct (timers s !! tid) as [cb|]; [|discriminate].
    assert (Hinv1 : timersInvariant (set_timers (delete tid (timers s)) s)).
    { clear Hstep. destruct s. unfold timersInvariant in *; simpl in *.
      intros tid' cb' Hl. timers_lookup Hinv Hl. split; assumption. }
    destruct cb.
    + injection Hstep as <- _. exact Hinv1.
    + flush_result Hstep. apply flush_timers, Hinv1.
    + flush_result Hstep. apply flush_timers, Hinv1.
  - flush_result Hstep. apply flush_timers, Hinv.
  - destruct (inFlight s !! i); [|discriminate].
    flush_result Hstep. apply flushResumed_timers.
    eapply sameTimers_invariant; [|exact Hinv]. same_timers.
  - destruct (awaitingClearDraft s); [discriminate|].
    injection Hstep as <- _. apply flushFinally_timers.
    eapply sameTimers_invariant; [|exact Hinv]. same_timers.
  - injection Hstep as <- _.
    eapply sameTimers_invariant; [|exact Hinv]. same_timers.
  - unfold handleRestore in Hstep. destruct (restoreDraft s).
    + injection Hstep as <- _. apply rendered_timers.
      eapply sameTimers_invariant; [|exact Hinv]. same_timers.
    + injection Hstep as <- _. exact Hinv.
  - unfold handleDiscardDraft in Hstep. destruct (restoreDraft s).
    + injection Hstep as <- _.
      eapply sameTimers_invariant; [|exact Hinv]. same_timers.
    + injection Hstep as <- _. exact Hinv.
  - unfold handleReloadFromServer in Hstep. destruct (conflictProject s).
    + injection Hstep as <- _. apply rendered_timers.
      eapply sameTimers_invariant; [|exact Hinv]. same_timers.
    + injection Hstep as <- _. exact Hinv.
  - unfold handleOverwriteServer in Hstep. destruct (conflictProject s).
    + flush_result Hstep. apply flush_timers.
      eapply sameTimers_invariant; [|exact Hinv]. same_timers.
    + injection Hstep as <- _. exact Hinv.
Qed.

(** The two invariants hold in every session a run of events leads to. *)
Lemma run_invariants (es : list Event) (s s' : Session) (cmds : list Cmd) :
  flightInvariant s -> timersInvariant s ->
  run es s = Some (s', cmds) ->
  flightInvariant s' /\ timersInvariant s'.
Proof.
  revert s cmds. induction es as [|e es IH]; intros s cmds Hf Ht Hrun; simpl in Hrun.
  - injection Hrun as <- _. split; assumption.
  - destruct (step e s) as [[s1 cmds1]|] eqn:Hstep; [|discriminate].
    destruct (run es s1) as [[s2 cmds2]|] eqn:Hrest; [|discriminate].
    injection Hrun as <- _.
    apply (IH s1 cmds2); [| |exact Hrest].
    + exact (step_flight e s s1 cmds1 Hf Hstep).
    + exact (step_timers e s s1 cmds1 Ht Hstep).
Qed.

Lemma reachable_invariants (project : Project.t) (s : Session) :
  reachable project s -> flightInvariant s /\ timersInvariant s.
Proof.
  intros (es & cmds & Hrun).
  exact (run_invariants es (init project) s cmds
           (init_flight project) (init_timers project) Hrun).
Qed.

(** ** Follow-up flushes *)

Lemma scheduleServerSave_arms (s : Session) :
  conflictRef s = None -> followUpArmed s (scheduleServerSave s).
Proof.
  intros Hc. exists (nextTimer s). split; [lia|].
  destruct s as [? ? ? ? ? ? ? ? ? ? ? ? ? cr dr mr ? tm nt ? ?]. simpl in *. subst cr.
  unfold scheduleServerSave, setTimeout, clearTimeout; simpl.
  destruct dr, mr; simpl; split; try reflexivity;
    rewrite ?lookup_insert_eq; try reflexivity;
    (rewrite lookup_insert_ne by lia); rewrite lookup_insert_eq; reflexivity.
Qed.

Lemma sameTimers_nothingScheduled (s s' : Session) :
  sameTimers s s' -> nothingScheduled s s'.
Proof.
  intros (Ht & _ & Hd & Hm & _). unfold nothingScheduled, noFlushTimerArmed.
  rewrite Ht. auto.
Qed.

Lemma scheduleDraftWrite_nothingScheduled (draft : Draft.t) (s : Session) :
  nothingScheduled s (scheduleDraftWrite draft s).
Proof.
  destruct s as [? ? ? ? ? ? ? ? ? ? ? ? ? ? ? ? wr tm nt ? ?].
  unfold nothingScheduled, noFlushTimerArmed, scheduleDraftWrite, setTimeout, clearTimeout;
    simpl.
  split; [|destruct wr; split; reflexivity].
  intros tid cb Hl Hcb. destruct wr; simpl in *;
    repeat match type of Hl with
           | <[_ := _]> _ !! _ = Some _ =>
               apply lookup_insert_Some in Hl as [[<- <-]|[? Hl]]
           | delete _ _ !! _ = Some _ =>
               apply lookup_delete_Some in Hl as [? Hl]
           end; (discriminate || assumption).
Qed.

(** The [finally] block: [savingRef] is reset, and a follow-up is armed
    exactly when the pending flag is set and no conflict is held. *)
Lemma flushFinally_spec (s : Session) :
  savingRef (flushFinally s) = false
  /\ sameFlight (set_savingRef false s) (flushFinally s)
  /\ pendingSaveRef (flushFinally s) = pendingSaveRef s
  /\ (if pendingSaveRef s && negb (bool_decide (is_Some (conflictRef s)))
      then followUpArmed s (flushFinally s)
      else sameTimers s (flushFinally s)).
Proof.
  pose proof (flushFinally_frame s) as Hfr.
  split; [destruct Hfr as (_&_&_&_&_&_&_&_&_&_&_&H&_); rewrite H; destruct s; reflexivity|].
  split; [apply sameButTimers_flight, Hfr|].
  split; [destruct Hfr as (_&_&_&_&_&_&_&_&_&_&_&_&H&_); rewrite H; destruct s; reflexivity|].
  unfold flushFinally.
  replace (pendingSaveRef (set_savingRef false s)) with (pendingSaveRef s)
    by (destruct s; reflexivity).
  replace (conflictRef (set_savingRef false s)) with (conflictRef s)
    by (destruct s; reflexivity).
  destruct (pendingSaveRef s); simpl; [|destruct s; repeat split].
  case_bool_decide as Hc; simpl; [destruct s; repeat split|].
  assert (Hnone : conflictRef (set_savingRef false s) = None).
  { destruct s; simpl in *. destruct conflictRef0; [exfalso; apply Hc; eauto|reflexivity]. }
  destruct (scheduleServerSave_arms _ Hnone) as (tid & Hle & Hd & Ht).
  exists tid. split; [destruct s; exact Hle|]. split; assumption.
Qed.

(** ** A mutation while a flush is under way *)



(** ** The end of a flush *)

Lemma nothingScheduled_trans (s1 s2 s3 : Session) :
  nothingScheduled s1 s2 -> sameTimers s2 s3 -> nothingScheduled s1 s3.
Proof.
  intros (Harm & Hd & Hm) (Ht & _ & Hd' & Hm' & _).
  unfold nothingScheduled, noFlushTimerArmed in *. rewrite Ht, Hd', Hm'. auto.
Qed.



(** ** The pending flag is read only at the end of a flush *)

(** Reduce field reads and assignments on explicit sessions. *)
Ltac session_simpl :=
  cbv beta iota delta [
      value name saveState restoreDraft conflictProject latestValueRef
      latestNameRef baseRevisionRef lastSavedRef lastSavedNameRef
      projectIdRef savingRef pendingSaveRef conflictRef debounceRef
      maxFlushRef draftTimerRef timers nextTimer inFlight awaitingClearDraft
      set_value set_name set_saveState set_restoreDraft set_conflictProject
      set_latestValueRef set_latestNameRef set_baseRevisionRef
      set_lastSavedRef set_lastSavedNameRef set_projectIdRef set_savingRef
      set_pendingSaveRef set_conflictRef set_debounceRef set_maxFlushRef
      set_draftTimerRef set_timers set_nextTimer set_inFlight
      set_awaitingClearDraft ].





(** [changeEffect], with every test read off the session it starts from. *)
Lemma changeEffect_unfold (now : Z) (s : Session) :
  changeEffect now s =
    let s2 := set_latestNameRef (name s) (set_latestValueRef (value s) s) in
    if bool_decide (value s = lastSavedRef s) && bool_decide (name s = lastSavedNameRef s)
    then s2
    else
      let s3 := scheduleDraftWrite
                  (Draft.mk (projectIdRef s) (value s) (name s) now (baseRevisionRef s))
                  s2 in
      if bool_decide (is_Some (conflictRef s)) then s3
      else if savingRef s then set_pendingSaveRef true s3
      else scheduleServerSave s3.
Proof.
  destruct s. unfold changeEffect, scheduleDraftWrite, setTimeout, clearTimeout.
  session_simpl. destruct draftTimerRef0; reflexivity.
Qed.




(** ** The claims on the scheduler *)

(** C5, as the code has it.  When the buffer equals what was last saved,
    content and name both, [flush] sends nothing and changes nothing. *)
Theorem flush_nothing_to_save (s : Session) :
  latestValueRef s = lastSavedRef s ->
  latestNameRef s = lastSavedNameRef s ->
  flush s = (s, []).
Proof. apply flush_clean. Qed.

Lemma flush_nothing_to_save_witness :
  latestValueRef ExampleSession.mounted = lastSavedRef ExampleSession.mounted
  /\ latestNameRef ExampleSession.mounted = lastSavedNameRef ExampleSession.mounted
  /\ flush ExampleSession.mounted = (ExampleSession.mounted, []).
Proof.
  split; [vm_compute; reflexivity|]. split; [vm_compute; reflexivity|].
  exact (flush_nothing_to_save ExampleSession.mounted eq_refl eq_refl).
Defined.

(** C5, where the claim fails: after a rename the content in memory still
    equals the content last saved, and [flush] sends a PATCH. *)
Lemma flush_sends_rename :
  step (ChangeName 1 "Renamed") ExampleSession.mounted
  = Some (ExampleSession.renamed, [])
  /\ latestValueRef ExampleSession.renamed = lastSavedRef ExampleSession.renamed
  /\ snd (flush ExampleSession.renamed)
     = [Fetch (mkPatch "p-1" "theirs" 5 "Renamed")].
Proof. split; [|split]; vm_compute; reflexivity. Qed.



Lemma changeEffect_clean (now : Z) (s : Session) :
  value s = lastSavedRef s -> name s = lastSavedNameRef s ->
  latestValueRef s = value s -> latestNameRef s = name s ->
  changeEffect now s = s.
Proof.
  intros Hv Hn Hlv Hln. unfold changeEffect.
  destruct s; simpl in *. subst.
  rewrite !bool_decide_eq_true_2 by reflexivity. reflexivity.
Qed.

Lemma rendered_clean (now : Z) (before s : Session) :
  value s = lastSavedRef s -> name s = lastSavedNameRef s ->
  latestValueRef s = value s -> latestNameRef s = name s ->
  rendered now before s = s.
Proof.
  intros Hv Hn Hlv Hln. unfold rendered.
  destruct (_ && _); [reflexivity|]. apply changeEffect_clean; assumption.
Qed.

Lemma reload_adopts_server (now : Z) (s : Session) (server : Project.t) :
  inConflict s server ->
  let s' := fst (handleReloadFromServer now s) in
  snd (handleReloadFromServer now s) = [ClearDraft (projectIdRef s)]
  /\ value s' = Project.content server /\ name s' = Project.name server
  /\ latestValueRef s' = Project.content server
  /\ latestNameRef s' = Project.name server
  /\ lastSavedRef s' = Project.content server
  /\ lastSavedNameRef s' = Project.name server
  /\ baseRevisionRef s' = Project.revision server
  /\ conflictRef s' = None /\ conflictProject s' = None
  /\ saveState s' = Idle /\ savingRef s' = false
  /\ inFlight s' = inFlight s /\ sameTimers s s'.
Proof.
  intros (Hcr & Hcp & Hst & Hsv).
  unfold handleReloadFromServer. rewrite Hcp. cbv zeta. cbn [fst snd].
  match goal with
  | |- context [rendered now s ?x] =>
      assert (Hfr : value x = Project.content server /\ name x = Project.name server
                    /\ latestValueRef x = Project.content server
                    /\ latestNameRef x = Project.name server
                    /\ lastSavedRef x = Project.content server
                    /\ lastSavedNameRef x = Project.name server
                    /\ baseRevisionRef x = Project.revision server
                    /\ conflictRef x = None /\ conflictProject x = None
                    /\ saveState x = Idle /\ savingRef x = false
                    /\ inFlight x = inFlight s /\ sameTimers s x
                    /\ projectIdRef x = projectIdRef s)
        by (destruct s; repeat split; exact Hsv);
      generalize dependent x
  end.
  intros x (F1&F2&F3&F4&F5&F6&F7&F8&F9&F10&F11&F12&F13&F14).
  rewrite (rendered_clean now s x) by congruence.
  rewrite F14. repeat (split; [assumption || reflexivity|]). assumption.
Qed.



Lemma changeEffect_schedules (now : Z) (s : Session) :
  dirty s -> latestValueRef s = value s -> latestNameRef s = name s ->
  conflictRef s = None -> savingRef s = false ->
  sameButTimers s (changeEffect now s) /\ followUpArmed s (changeEffect now s).
Proof.
  intros Hd Hlv Hln Hc Hs. unfold changeEffect.
  match goal with
  | |- context [set_latestNameRef ?n ?x] =>
      assert (E : set_latestNameRef n x = s)
        by (destruct s; simpl in *; subst; reflexivity);
      rewrite !E; clear E
  end.
  assert (Hdirty : bool_decide (value s = lastSavedRef s)
                   && bool_decide (name s = lastSavedNameRef s) = false).
  { apply andb_false_iff. unfold dirty in Hd. rewrite Hlv, Hln in Hd.
    destruct Hd as [H|H]; [left|right]; apply bool_decide_eq_false_2; exact H. }
  rewrite Hdirty.
  match goal with
  | |- context [scheduleDraftWrite ?d s] =>
      pose proof (scheduleDraftWrite_frame d s) as Hfr;
      assert (Hnt : (nextTimer s <= nextTimer (scheduleDraftWrite d s))%nat)
        by (destruct s; unfold scheduleDraftWrite; simpl; session_cases; lia);
      generalize dependent (scheduleDraftWrite d s)
  end.
  intros s3 Hfr Hnt.
  assert (Hc3 : conflictRef s3 = None) by (unfold sameButTimers in Hfr; intuition congruence).
  assert (Hs3 : savingRef s3 = false) by (unfold sameButTimers in Hfr; intuition congruence).
  rewrite Hc3, Hs3.
  rewrite (bool_decide_eq_false_2 (is_Some None)) by (intros [? [=]]).
  split.
  - pose proof (scheduleServerSave_frame s3) as Hfr'.
    unfold sameButTimers in *. intuition congruence.
  - destruct (scheduleServerSave_arms s3 Hc3) as (tid & Hle & Hdr & Htm).
    exists tid. split; [lia | split; assumption].
Qed.

Lemma changeEffect_frame (now : Z) (s : Session) :
  let s' := changeEffect now s in
  value s' = value s /\ name s' = name s /\ saveState s' = saveState s
  /\ restoreDraft s' = restoreDraft s /\ conflictProject s' = conflictProject s
  /\ latestValueRef s' = value s /\ latestNameRef s' = name s
  /\ baseRevisionRef s' = baseRevisionRef s /\ lastSavedRef s' = lastSavedRef s
  /\ lastSavedNameRef s' = lastSavedNameRef s /\ projectIdRef s' = projectIdRef s
  /\ savingRef s' = savingRef s /\ conflictRef s' = conflictRef s
  /\ inFlight s' = inFlight s /\ awaitingClearDraft s' = awaitingClearDraft s.
Proof.
  destruct s. unfold changeEffect, scheduleServerSave, scheduleDraftWrite; simpl.
  session_cases; repeat split; reflexivity.
Qed.

(** C7, as the code has it.  Restoring an offered draft sets the buffer
    (the state and the latest refs, content and name) to the draft's values
    and closes the offer; the saved baselines and the base revision stay
    those of the server's record, and nothing is sent.  Scheduling goes on
    as after an edit: when the restored buffer differs from what was shown
    and from the saved baseline, and no flush or conflict is held, a
    debounce timer is armed. *)
Theorem restore_sets_buffer (now : Z) (s : Session) (draft : Draft.t) :
  restoreDraft s = Some draft ->
  let s' := fst (handleRestore now s) in
  snd (handleRestore now s) = []
  /\ value s' = Draft.content draft /\ name s' = Draft.name draft
  /\ latestValueRef s' = Draft.content draft
  /\ latestNameRef s' = Draft.name draft
  /\ restoreDraft s' = None
  /\ lastSavedRef s' = lastSavedRef s
  /\ lastSavedNameRef s' = lastSavedNameRef s
  /\ baseRevisionRef s' = baseRevisionRef s
  /\ sameFlight s s'
  /\ ((value s <> Draft.content draft \/ name s <> Draft.name draft) ->
      (Draft.content draft <> lastSavedRef s \/ Draft.name draft <> lastSavedNameRef s) ->
      conflictRef s = None -> savingRef s = false ->
      followUpArmed s s').
Proof.
  intros Hd. unfold handleRestore. rewrite Hd. cbv zeta. cbn [fst snd].
  match goal with
  | |- context [rendered now s ?x] =>
      assert (Hfr : value x = Draft.content draft /\ name x = Draft.name draft
                    /\ latestValueRef x = Draft.content draft
                    /\ latestNameRef x = Draft.name draft
                    /\ restoreDraft x = None
                    /\ lastSavedRef x = lastSavedRef s
                    /\ lastSavedNameRef x = lastSavedNameRef s
                    /\ baseRevisionRef x = baseRevisionRef s
                    /\ sameFlight s x /\ nextTimer x = nextTimer s)
        by (destruct s; repeat split);
      generalize dependent x
  end.
  intros x (F1 & F2 & F3 & F4 & F5 & F6 & F7 & F8 & F9 & F10).
  split; [reflexivity|].
  unfold rendered. rewrite F1, F2.
  destruct (bool_decide (Draft.content draft = value s)
            && bool_decide (Draft.name draft = name s)) eqn:Hshown.
  { repeat (split; [assumption|]).
    apply andb_prop in Hshown as [Hv%bool_decide_eq_true Hn%bool_decide_eq_true].
    intros [H|H]; exfalso; apply H; congruence. }
  clear Hshown.
  destruct (changeEffect_frame now x)
    as (C1&C2&_&C4&C5&C6&C7&C8&C9&C10&_&C12&C13&C14&C15).
  destruct F9 as (A1 & A2 & A3 & A4 & A5).
  repeat (split; [congruence|]).
  split; [unfold sameFlight; repeat split; congruence|].
  intros _ Hdirty Hc Hs.
  destruct (changeEffect_schedules now x) as [_ (tid & Hle & Hdr & Htm)];
    try congruence.
  { unfold dirty. rewrite F3, F4, F6, F7. exact Hdirty. }
  exists tid. split; [lia | split; assumption].
Qed.

Lemma restore_sets_buffer_witness :
  restoreDraft ExampleSession.offered = Some ExampleSession.draft
  /\ value (fst (handleRestore 1000 ExampleSession.offered)) = "local text"
  /\ lastSavedRef (fst (handleRestore 1000 ExampleSession.offered)) = "theirs"
  /\ followUpArmed ExampleSession.offered (fst (handleRestore 1000 ExampleSession.offered)).
Proof.
  assert (H : restoreDraft ExampleSession.offered = Some ExampleSession.draft)
    by (vm_compute; reflexivity).
  split; [exact H|].
  destruct (restore_sets_buffer 1000 ExampleSession.offered ExampleSession.draft H)
    as (_ & Hv & _ & _ & _ & _ & Hs & _ & _ & _ & Harm).
  split; [exact Hv|]. split; [exact Hs|].
  apply Harm; [left | left | | ]; vm_compute; (discriminate || reflexivity).
Defined.

(** C7, where the claim fails: after the restore the saved baselines are
    still the server's, not the draft's. *)
Lemma restore_keeps_baselines :
  restoreDraft ExampleSession.offered = Some ExampleSession.draft
  /\ lastSavedRef (fst (handleRestore 1000 ExampleSession.offered))
     <> Draft.content ExampleSession.draft
  /\ lastSavedNameRef (fst (handleRestore 1000 ExampleSession.offered))
     <> Draft.name ExampleSession.draft
  /\ baseRevisionRef (fst (handleRestore 1000 ExampleSession.offered))
     <> Draft.baseRevision ExampleSession.draft
  /\ baseRevisionRef (fst (handleRestore 1000 ExampleSession.offered)) = 5.
Proof.
  repeat split; vm_compute; (discriminate || reflexivity).
Qed.

(** * More on the server *)

Import Server ServerSpec StoreSpec.

(** ** What one request can do to the store *)

(** Every request leaves the store as it was, or inserts one project
    under a new key, or replaces one project by its update and perhaps
    appends one snapshot of it. *)
Lemma serve_effect (env : Env) (req : Request) (db : Db) :
  let db' := snd (serve env req db) in
  db' = db
  \/ (exists body r,
         req = PostProjects body
         /\ projects db !! Project.id r = None
         /\ Project.revision r = 0
         /\ db' = mkDb (<[Project.id r := r]> (projects db)) (projectSnapshots db))
  \/ (exists pid body p u added,
         req = PatchProject pid body
         /\ projects db !! pid = Some p
         /\ Project.id u = Project.id p
         /\ Project.revision u = Project.revision p + 1
         /\ db' = mkDb (<[pid := u]> (projects db)) (projectSnapshots db ++ added)
         /\ (added = []
             \/ exists sid, added = [Snapshot.mk sid pid (Project.revision u)
                                                 (Project.content u) (dbNow env)]
                            /\ sid ∉ (Snapshot.id <$> projectSnapshots db))).
Proof.
  destruct req as [body|pid|pid body]; simpl.
  - unfold serve, handleApi, bind, insertProject, stmt, throw, ret. simpl.
    destruct (fails env StmtInsertProject); simpl; [left; reflexivity|].
    destruct (projects db !! randomUUID env) eqn:Hu; simpl; [left; reflexivity|].
    right. left.
    exists body.
    match goal with
    | |- context [<[randomUUID env := ?r]> _] => exists r
    end.
    split; [reflexivity|]. split; [exact Hu|]. split; reflexivity.
  - left. unfold serve, handleApi, bind, selectProject, stmt, throw, ret.
    destruct (fails env StmtSelectProject); simpl; [reflexivity|].
    destruct (projects db !! pid); reflexivity.
  - destruct (serve_patch_cases env pid body db)
      as [[-> _]|(c & b & p & _ & Hp & Hrev & _ & Hrun)]; [left; reflexivity|].
    right. right. simpl in Hrun. rewrite Hrun. clear Hrun.
    rewrite maybeSnapshot_run. simpl projectSnapshots. simpl projects.
    rewrite lookup_insert_eq.
    exists pid, body, p.
    match goal with
    | |- context [<[pid := ?u]> (projects db)] => exists u
    end.
    destruct (fails env StmtLatestSnapshot);
      [exists []; simpl; rewrite app_nil_r;
       repeat (split; [first [exact Hp | reflexivity | simpl; lia]|]); left; reflexivity|].
    destruct (shouldSnapshot _ _ _);
      [|exists []; simpl; rewrite app_nil_r;
        repeat (split; [first [exact Hp | reflexivity | simpl; lia]|]); left; reflexivity].
    destruct (fails env StmtInsertSnapshot);
      [exists []; simpl; rewrite app_nil_r;
       repeat (split; [first [exact Hp | reflexivity | simpl; lia]|]); left; reflexivity|].
    case_bool_decide as Hid;
      [exists []; simpl; rewrite app_nil_r;
       repeat (split; [first [exact Hp | reflexivity | simpl; lia]|]); left; reflexivity|].
    eexists. simpl.
    repeat (split; [first [exact Hp | reflexivity | simpl; lia]|]).
    right. eexists. split; [reflexivity | exact Hid].
Qed.

(** X1.  The store stays consistent: projects stay under their own
    identifier, snapshots stay attached to a stored project whose revision
    they do not exceed, snapshot identifiers stay distinct and revisions
    stay non-negative, whatever the request and whatever fails; so every
    store reached from the empty one is consistent. *)
Theorem serve_keeps_consistent (env : Env) (req : Request) (db : Db) :
  consistent db ->
  consistent (snd (serve env req db))
  /\ (forall reqs, consistent (finalDb reqs emptyDb)).
Proof.
  assert (Hstep : forall env req db, consistent db -> consistent (snd (serve env req db))).
  { clear. intros env req db (Hk & Ha & Hu & Hn).
    unfold consistent, keyed, snapshotsAnchored, snapshotIdsUnique, revisionsFromZero in *.
    destruct (serve_effect env req db)
      as [->|[(body & r & _ & Hfresh & Hr0 & ->)
             |(pid & body & p & u & added & _ & Hp & Hid & Hrev & -> & Hadd)]].
    - repeat split; assumption.
    - split; [|split; [|split]]; simpl.
      + intros k q [[<- <-]|[Hne Hq]]%lookup_insert_Some; [reflexivity | exact (Hk k q Hq)].
      + intros s Hs. destruct (Ha s Hs) as (q & Hq & Hle). exists q. split; [|exact Hle].
        simpl. rewrite lookup_insert_ne; [exact Hq|]. intros E. rewrite E in Hfresh. congruence.
      + exact Hu.
      + intros k q [[<- <-]|[Hne Hq]]%lookup_insert_Some; [lia | exact (Hn k q Hq)].
    - pose proof (Hn pid p Hp) as Hp0.
      split; [|split; [|split]]; simpl.
      + intros k q [[<- <-]|[Hne Hq]]%lookup_insert_Some; [|exact (Hk k q Hq)].
        rewrite Hid. exact (Hk _ _ Hp).
      + intros s [Hs|Hs]%elem_of_app.
        * destruct (Ha s Hs) as (q & Hq & Hle).
          destruct (decide (Snapshot.projectId s = pid)) as [E|Hne].
          -- exists u. simpl. rewrite E, lookup_insert_eq. split; [reflexivity|].
             rewrite E, Hp in Hq. injection Hq as <-. lia.
          -- exists q. simpl. rewrite lookup_insert_ne by congruence. split; assumption.
        * destruct Hadd as [->|(sid & -> & _)]; [inversion Hs|].
          apply list_elem_of_singleton in Hs as ->. simpl.
          exists u. rewrite lookup_insert_eq. split; [reflexivity|lia].
      + rewrite fmap_app.
        destruct Hadd as [->|(sid & -> & Hsid)]; simpl; [rewrite app_nil_r; exact Hu|].
        apply NoDup_app. split; [exact Hu|]. split; [|apply NoDup_singleton].
        intros x Hx ->%list_elem_of_singleton. exact (Hsid Hx).
      + intros k q [[<- <-]|[Hne Hq]]%lookup_insert_Some; [lia | exact (Hn k q Hq)]. }
  intros Hc. split; [exact (Hstep env req db Hc)|].
  intros reqs.
  assert (Hrun : forall db0, consistent db0 -> consistent (finalDb reqs db0)).
  { induction reqs as [|[e r] rest IH]; intros db0 H0; simpl; [exact H0|].
    apply IH, Hstep, H0. }
  apply Hrun. repeat split.
  - intros k p H. simpl in H. rewrite lookup_empty in H. discriminate.
  - intros s Hs. inversion Hs.
  - apply NoDup_nil_2.
  - intros k p H. simpl in H. rewrite lookup_empty in H. discriminate.
Qed.

Lemma serve_keeps_consistent_witness :
  consistent Example.db
  /\ consistent (snd (serve Example.env (PatchProject "p-1" Example.edit) Example.db)).
Proof.
  assert (H : consistent Example.db).
  { repeat split.
    - intros k p H. simpl in H. apply lookup_singleton_Some in H as [<- <-]. reflexivity.
    - intros s Hs. inversion Hs.
    - apply NoDup_nil_2.
    - intros k p H. simpl in H. apply lookup_singleton_Some in H as [<- <-]. simpl. lia. }
  split; [exact H|].
  exact (proj1 (serve_keeps_consistent Example.env (PatchProject "p-1" Example.edit)
                  Example.db H)).
Defined.

(** X2.  Nothing is ever deleted or rolled back: over any sequence of
    requests every stored project is still stored, at a revision that is
    not lower, and the snapshots that were there are still there,
    unchanged and in the same order, before the ones added since. *)
Theorem nothing_is_deleted (reqs : list (Env * Request)) (db : Db) :
  (forall pid p,
      projects db !! pid = Some p ->
      exists p', projects (finalDb reqs db) !! pid = Some p'
                 /\ Project.revision p <= Project.revision p')
  /\ exists added, projectSnapshots (finalDb reqs db) = projectSnapshots db ++ added.
Proof.
  revert db. induction reqs as [|[env req] rest IH]; intros db; simpl.
  - split; [intros pid p Hp; exists p; split; [exact Hp|lia]|].
    exists []. rewrite app_nil_r. reflexivity.
  - destruct (IH (snd (serve env req db))) as [Hproj (added & Hadd)]. split.
    + intros pid p Hp.
      destruct (serve_revision_monotone env req db pid p Hp) as (p1 & Hp1 & Hle1).
      destruct (Hproj pid p1 Hp1) as (p2 & Hp2 & Hle2).
      exists p2. split; [exact Hp2|lia].
    + rewrite Hadd.
      destruct (serve_effect env req db)
        as [->|[(body & r & _ & _ & _ & ->)|(pid & body & p & u & a1 & _ & _ & _ & _ & -> & _)]];
        simpl.
      * exists added. reflexivity.
      * exists added. reflexivity.
      * exists (a1 ++ added). rewrite app_assoc. reflexivity.
Qed.

(** X3.  The revision of a project counts the writes to it that took
    effect: over any sequence of requests it grows by exactly the number
    of PATCH requests that changed the project. *)
Theorem revision_counts_accepted_writes
        (reqs : list (Env * Request)) (db : Db) (pid : string) (p : Project.t) :
  projects db !! pid = Some p ->
  exists p',
    projects (finalDb reqs db) !! pid = Some p'
    /\ Project.revision p'
       = Project.revision p
         + Z.of_nat (length (filter (accepted pid) (serveAll reqs db))).
Proof.
  revert db p. induction reqs as [|[env req] rest IH]; intros db p Hp.
  - simpl. exists p. split; [exact Hp|lia].
  - rewrite serveAll_cons, filter_cons. simpl finalDb.
    destruct (serve_effect env req db)
      as [Hsame|[(body & r & -> & Hfresh & _ & Hdb')
                |(pid0 & body & q & u & a1 & -> & Hq & _ & Hrev & Hdb' & _)]].
    + assert (Hno : ~ accepted pid (mkServed db req (fst (serve env req db))
                                            (snd (serve env req db)))).
      { unfold accepted; simpl. rewrite Hsame. destruct req; tauto. }
      rewrite decide_False by exact Hno.
      rewrite Hsame. exact (IH db p Hp).
    + rewrite decide_False by (unfold accepted; simpl; tauto).
      apply IH. rewrite Hdb'. simpl.
      rewrite lookup_insert_ne; [exact Hp|]. intros E. rewrite E in Hfresh. congruence.
    + destruct (decide (pid0 = pid)) as [->|Hne].
      * assert (q = p) by congruence. subst q.
        rewrite decide_True.
        2:{ unfold accepted; simpl. split; [reflexivity|].
            rewrite Hdb'. simpl. rewrite lookup_insert_eq, Hp.
            intros [= E]. rewrite E in Hrev. lia. }
        destruct (IH (snd (serve env (PatchProject pid body) db)) u) as (p' & Hp' & Hcount).
        { rewrite Hdb'. simpl. apply lookup_insert_eq. }
        exists p'. split; [exact Hp'|]. rewrite Hcount. simpl length. lia.
      * rewrite decide_False by (unfold accepted; simpl; tauto).
        apply IH. rewrite Hdb'. simpl. rewrite lookup_insert_ne by exact Hne. exact Hp.
Qed.

Lemma revision_counts_accepted_writes_witness :
  projects Example.db !! "p-1" = Some Example.project
  /\ exists p',
      projects (finalDb [(Example.env, PatchProject "p-1" Example.edit);
                         (Example.envLater, PatchProject "p-1" Example.edit)]
                        Example.db) !! "p-1" = Some p'
      /\ Project.revision p' = 1.
Proof.
  assert (H : projects Example.db !! "p-1" = Some Example.project)
    by (vm_compute; reflexivity).
  split; [exact H|].
  destruct (revision_counts_accepted_writes
              [(Example.env, PatchProject "p-1" Example.edit);
               (Example.envLater, PatchProject "p-1" Example.edit)]
              Example.db "p-1" Example.project H) as (p' & Hp' & Hrev).
  exists p'. split; [exact Hp'|]. rewrite Hrev. vm_compute. reflexivity.
Defined.

(** X4.  A snapshot records a state the project went through: every
    snapshot added during a sequence of requests carries the revision and
    the content that its project had in the store right after one of the
    requests. *)
Theorem snapshot_records_a_past_state
        (reqs : list (Env * Request)) (db : Db) (s : Snapshot.t) :
  s ∈ projectSnapshots (finalDb reqs db) ->
  s ∈ projectSnapshots db
  \/ exists st p,
      st ∈ serveAll reqs db
      /\ projects (after st) !! Snapshot.projectId s = Some p
      /\ Project.revision p = Snapshot.revision s
      /\ Project.content p = Snapshot.content s.
Proof.
  revert db. induction reqs as [|[env req] rest IH]; intros db Hs; simpl in Hs.
  - left. exact Hs.
  - rewrite serveAll_cons.
    destruct (IH _ Hs) as [Hin|(st & p & Hst & Hp & Hrev & Hc)].
    + destruct (serve_effect env req db)
        as [E|[(body & r & _ & _ & _ & E)
              |(pid & body & q & u & a1 & _ & _ & _ & _ & E & Hadd)]].
      * left. rewrite <- E. exact Hin.
      * left. rewrite E in Hin. exact Hin.
      * rewrite E in Hin. simpl in Hin. apply elem_of_app in Hin as [Hin|Hin];
          [left; exact Hin|].
        destruct Hadd as [->|(sid & -> & _)]; [inversion Hin|].
        apply list_elem_of_singleton in Hin as ->.
        right. eexists. exists u. split; [left|]. simpl.
        rewrite E. simpl. rewrite lookup_insert_eq. repeat split; reflexivity.
    + right. exists st, p. split; [right; exact Hst|]. repeat split; assumption.
Qed.

Lemma snapshot_records_a_past_state_witness :
  Snapshot.mk "u-1" "p-1" 1 "hello" 3000
    ∈ projectSnapshots (finalDb [(Example.env, PatchProject "p-1" Example.edit)] Example.db)
  /\ exists st p,
      st ∈ serveAll [(Example.env, PatchProject "p-1" Example.edit)] Example.db
      /\ projects (after st) !! "p-1" = Some p
      /\ Project.revision p = 1 /\ Project.content p = "hello".
Proof.
  assert (H : Snapshot.mk "u-1" "p-1" 1 "hello" 3000
                ∈ projectSnapshots
                    (finalDb [(Example.env, PatchProject "p-1" Example.edit)] Example.db))
    by (vm_compute; left).
  split; [exact H|].
  destruct (snapshot_records_a_past_state _ _ _ H) as [Hin|Hex]; [inversion Hin|].
  exact Hex.
Defined.

(** The statuses of the PATCH route. *)
Lemma patch_statuses (env : Env) (pid : string) (body : Body) (db : Db) :
  status (fst (serve env (PatchProject pid body) db)) ∈ [200; 400; 404; 409; 500].
Proof.
  destruct (wellFormed_dec body) as [(c & b & Hwf)|Hbad].
  - unfold serve. rewrite (patch_run env pid body db c b Hwf).
    destruct (fails env StmtUpdateProject); [simpl; set_solver|].
    destruct (projects db !! pid) as [p|].
    + destruct (bool_decide _).
      * match goal with
        | |- context [maybeSnapshot ?e ?i ?rv ?cc ?d] =>
            destruct (maybeSnapshot e i rv cc d) as [[[]|] db1]
        end; simpl; set_solver.
      * destruct (fails env StmtSelectCurrent); simpl; set_solver.
    + destruct (fails env StmtSelectCurrent); simpl; set_solver.
  - unfold serve. rewrite (patch_malformed env pid body db Hbad). simpl. set_solver.
Qed.

(** X5.  Reading back what was written: after a creation answered 201 a
    fetch of the new identifier returns the created record, and after a
    PATCH answered 200 a fetch of the same project returns the updated
    record, both with status 200 (the select completing). *)
Theorem fetch_reads_back (env env' : Env) (req : Request) (db : Db) (r : Project.t) :
  fails env' StmtSelectProject = false ->
  (fst (serve env req db) = mkResponse 201 (Json r)
   \/ fst (serve env req db) = mkResponse 200 (Json r)) ->
  let db' := snd (serve env req db) in
  let key := match req with
             | PostProjects _ => Project.id r
             | GetProject pid | PatchProject pid _ => pid
             end in
  serve env' (GetProject key) db' = (mkResponse 200 (Json r), db').
Proof.
  intros Hsel Hres db' key. subst db' key.
  assert (Hget : forall pid d, projects d !! pid = Some r ->
            serve env' (GetProject pid) d = (mkResponse 200 (Json r), d)).
  { intros pid d Hd. unfold serve, handleApi, bind, selectProject, stmt, ret.
    rewrite Hsel, Hd. reflexivity. }
  apply Hget. destruct req as [body|pid|pid body].
  - revert Hres. unfold serve, handleApi, bind, insertProject, stmt, throw, ret. simpl.
    destruct (fails env StmtInsertProject); simpl; [intros [H|H]; discriminate|].
    destruct (projects db !! randomUUID env); simpl; [intros [H|H]; discriminate|].
    intros [[= <-]|[=]]. simpl. apply lookup_insert_eq.
  - revert Hres. unfold serve, handleApi, bind, selectProject, stmt, throw, ret.
    destruct (fails env StmtSelectProject); simpl; [intros [H|H]; discriminate|].
    destruct (projects db !! pid) as [q|] eqn:Hq; simpl; [|intros [H|H]; discriminate].
    intros [[=]|[= <-]]. exact Hq.
  - destruct (serve_patch_cases env pid body db)
      as [[_ Hst]|(c & b & p & _ & _ & _ & _ & Hrun)].
    + exfalso. destruct Hres as [H|H].
      * pose proof (patch_statuses env pid body db) as Hin. rewrite H in Hin.
        simpl in Hin.
        repeat (apply elem_of_cons in Hin as [Hin|Hin]; [discriminate|]).
        inversion Hin.
      * apply Hst. rewrite H. reflexivity.
    + simpl in Hrun. rewrite Hrun in Hres |- *.
      match goal with
      | |- context [maybeSnapshot ?e ?i ?rv ?cc ?d] =>
          pose proof (maybeSnapshot_projects e i rv cc d) as Hproj;
          destruct (maybeSnapshot e i rv cc d) as [[[]|] db1]
      end; simpl in *.
      * destruct Hres as [[=]|[= <-]]. rewrite Hproj. apply lookup_insert_eq.
      * destruct Hres as [[=]|[=]].
Qed.

Lemma fetch_reads_back_witness :
  fails Example.envLater StmtSelectProject = false
  /\ fst (serve Example.env (PatchProject "p-1" Example.edit) Example.db)
     = mkResponse 200 (Json Example.edited)
  /\ fst (serve Example.envLater (GetProject "p-1")
                (snd (serve Example.env (PatchProject "p-1" Example.edit) Example.db)))
     = mkResponse 200 (Json Example.edited).
Proof.
  assert (H : fst (serve Example.env (PatchProject "p-1" Example.edit) Example.db)
              = mkResponse 200 (Json Example.edited)) by (vm_compute; reflexivity).
  split; [reflexivity|]. split; [exact H|].
  rewrite (fetch_reads_back Example.env Example.envLater
             (PatchProject "p-1" Example.edit) Example.db Example.edited
             eq_refl (or_intror H)).
  reflexivity.
Defined.

(** The POST route, case by case. *)
Lemma post_run (env : Env) (body : Body) (db : Db) :
  exists r,
    Project.id r = randomUUID env
    /\ Project.revision r = 0
    /\ handleApi env (PostProjects body) db =
         if fails env StmtInsertProject then (Thrown, db)
         else match projects db !! randomUUID env with
              | Some _ => (Thrown, db)
              | None =>
                  (Returned (mkResponse 201 (Json r)),
                   mkDb (<[randomUUID env := r]> (projects db)) (projectSnapshots db))
              end.
Proof.
  eexists. split; [|split]. 3:{
    unfold handleApi, bind, insertProject, stmt, throw, ret. simpl.
    destruct (fails env StmtInsertProject); [reflexivity|].
    destruct (projects db !! randomUUID env); reflexivity. }
  - reflexivity.
  - reflexivity.
Qed.

(** X6.  The first save of a new project.  In a store where snapshots are
    attached to stored projects, a creation answered 201 followed by a
    PATCH of the new project on base revision 0 (validated body, datastore
    reachable, snapshot identifier free) is answered 200 at revision 1 and
    takes the first snapshot of the project, whatever the clocks say. *)
Theorem first_save_after_create
        (env1 env2 : Env) (body1 body2 : Body) (db : Db) (c : string) :
  snapshotsAnchored db ->
  status (fst (serve env1 (PostProjects body1) db)) = 201 ->
  wellFormed body2 c 0 ->
  reliable env2 ->
  snapshotIdFree env2 db ->
  let pid := randomUUID env1 in
  let db1 := snd (serve env1 (PostProjects body1) db) in
  exists u,
    fst (serve env2 (PatchProject pid body2) db1) = mkResponse 200 (Json u)
    /\ Project.id u = pid
    /\ Project.revision u = 1
    /\ Project.content u = c
    /\ snd (serve env2 (PatchProject pid body2) db1)
       = mkDb (<[pid := u]> (projects db1))
              (projectSnapshots db ++ [Snapshot.mk (randomUUID env2) pid 1 c (dbNow env2)]).
Proof.
  intros Hanch Hst Hwf Hrel Hfree pid db1. subst pid db1.
  destruct (post_run env1 body1 db) as (r & Hid & Hr0 & Hpost).
  assert (E : projects db !! randomUUID env1 = None
              /\ snd (serve env1 (PostProjects body1) db)
                 = mkDb (<[randomUUID env1 := r]> (projects db)) (projectSnapshots db)).
  { revert Hst. unfold serve. rewrite Hpost.
    destruct (fails env1 StmtInsertProject); simpl; [discriminate|].
    destruct (projects db !! randomUUID env1); simpl; [discriminate|].
    intros _. split; reflexivity. }
  destruct E as [Hnew ->]. clear Hst Hpost.
  set (db1 := mkDb (<[randomUUID env1 := r]> (projects db)) (projectSnapshots db)).
  unfold serve. rewrite (patch_run env2 (randomUUID env1) body2 db1 c 0 Hwf).
  rewrite !Hrel. subst db1. simpl projects. rewrite lookup_insert_eq.
  rewrite (bool_decide_eq_true_2 _ Hr0).
  rewrite maybeSnapshot_run. simpl projectSnapshots. simpl projects.
  rewrite !Hrel, lookup_insert_eq.
  assert (Hnone : latestCreatedAt (randomUUID env1) (projectSnapshots db) = None).
  { apply latestCreatedAt_None. intros s Hs E.
    destruct (Hanch s Hs) as (q & Hq & _). rewrite E, Hnew in Hq. discriminate. }
  rewrite Hnone. unfold shouldSnapshot at 1. simpl.
  rewrite (bool_decide_eq_false_2 _ Hfree).
  eexists. split; [reflexivity|]. simpl.
  split; [exact Hid|]. repeat split; reflexivity.
Qed.

Lemma first_save_after_create_witness :
  snapshotsAnchored emptyDb
  /\ status (fst (serve Example.env (PostProjects ∅) emptyDb)) = 201
  /\ wellFormed Example.edit "hello" 0
  /\ reliable Example.envLater
  /\ snapshotIdFree Example.envLater emptyDb
  /\ exists u,
      fst (serve Example.envLater (PatchProject "u-1" Example.edit)
                 (snd (serve Example.env (PostProjects ∅) emptyDb)))
      = mkResponse 200 (Json u)
      /\ Project.revision u = 1.
Proof.
  assert (H1 : snapshotsAnchored emptyDb) by (intros s Hs; inversion Hs).
  assert (H2 : status (fst (serve Example.env (PostProjects ∅) emptyDb)) = 201)
    by (vm_compute; reflexivity).
  assert (H3 : wellFormed Example.edit "hello" 0) by (split; vm_compute; reflexivity).
  assert (H4 : reliable Example.envLater) by (intros st; reflexivity).
  assert (H5 : snapshotIdFree Example.envLater emptyDb) by apply not_elem_of_nil.
  repeat (split; [assumption|]).
  destruct (first_save_after_create Example.env Example.envLater ∅ Example.edit
              emptyDb "hello" H1 H2 H3 H4 H5) as (u & Hres & _ & Hrev & _).
  exists u. split; [exact Hres | exact Hrev].
Defined.

(** Close the branches of a status table that a concrete status decides. *)
Ltac rej_cases :=
  repeat split;
  try discriminate; try tauto; try reflexivity;
  try (intros [H|[H|H]]; discriminate);
  try (intros H; exfalso; apply H; reflexivity);
  try (intros; reflexivity).

(** X7.  How the PATCH route rejects.  Its status is 200, 400, 404, 409 or
    500.  It is 400 exactly when [content] is not a string or
    [baseRevision] is not an integer, whatever the store holds and whether
    or not the datastore can be reached.  A 404 means the project is not
    stored, a 409 carries the stored record, whose revision differs from
    [baseRevision].  With 400, 404 or 409 the store is left as it was;
    snapshots change only with a 200; and a PATCH never creates a
    project. *)
Theorem patch_rejections (env : Env) (pid : string) (body : Body) (db : Db) :
  let res := fst (serve env (PatchProject pid body) db) in
  let db' := snd (serve env (PatchProject pid body) db) in
  status res ∈ [200; 400; 404; 409; 500]
  /\ (status res = 400 <-> forall c b, ~ wellFormed body c b)
  /\ (status res = 404 -> projects db !! pid = None)
  /\ (status res = 409 ->
      exists p b, projects db !! pid = Some p
                  /\ Js.asInteger (prop body "baseRevision") = Some b
                  /\ Project.revision p <> b
                  /\ res = mkResponse 409 (Json p))
  /\ (status res = 400 \/ status res = 404 \/ status res = 409 -> db' = db)
  /\ (status res <> 200 -> projectSnapshots db' = projectSnapshots db)
  /\ (projects db !! pid = None -> projects db' !! pid = None).
Proof.
  intros res db'. subst res db'.
  split; [apply patch_statuses|].
  destruct (wellFormed_dec body) as [(c & b & Hwf)|Hbad].
  - assert (Hnot : ~ forall c b, ~ wellFormed body c b)
      by (intros H; exact (H c b Hwf)).
    unfold serve. rewrite (patch_run env pid body db c b Hwf).
    destruct (fails env StmtUpdateProject); [simpl; rej_cases|].
    destruct (projects db !! pid) as [p|] eqn:Hp.
    + case_bool_decide as Hrev.
      * rewrite maybeSnapshot_run. simpl projectSnapshots. simpl projects.
        rewrite lookup_insert_eq.
        repeat (match goal with
                | |- context [if ?x then _ else _] => destruct x
                end; simpl); rej_cases.
      * destruct (fails env StmtSelectCurrent); simpl; rej_cases.
        intros _. exists p, b. destruct Hwf as [_ Hb]. repeat split; assumption.
    + destruct (fails env StmtSelectCurrent); simpl; rej_cases.
  - unfold serve. rewrite (patch_malformed env pid body db Hbad). simpl. rej_cases.
Qed.

(** ** Names *)

Lemma trimEnd_idempotent (s : string) : Js.trimEnd (Js.trimEnd s) = Js.trimEnd s.
Proof.
  induction s as [|a rest IH]; simpl; [reflexivity|].
  destruct (Js.isWhiteSpace a && Js.isEmpty (Js.trimEnd rest)) eqn:Hc; [reflexivity|].
  simpl. rewrite IH, Hc. reflexivity.
Qed.

Lemma trimStart_fixed (s : string) : Js.trimStart (Js.trimStart s) = Js.trimStart s.
Proof.
  induction s as [|a rest IH]; simpl; [reflexivity|].
  destruct (Js.isWhiteSpace a) eqn:Ha; [exact IH|]. simpl. rewrite Ha. reflexivity.
Qed.

Lemma trimStart_trimEnd (s : string) :
  Js.trimStart s = s -> Js.trimStart (Js.trimEnd s) = Js.trimEnd s.
Proof.
  destruct s as [|a rest]; simpl; [reflexivity|].
  destruct (Js.isWhiteSpace a) eqn:Ha.
  - intros H. exfalso.
    assert (Hlen : (String.length (Js.trimStart rest) <= String.length rest)%nat).
    { clear. induction rest as [|b r IH]; simpl; [lia|].
      destruct (Js.isWhiteSpace b); simpl; lia. }
    rewrite H in Hlen. simpl in Hlen. lia.
  - intros _. simpl. rewrite Ha. reflexivity.
Qed.

Lemma trim_idempotent (s : string) : Js.trim (Js.trim s) = Js.trim s.
Proof.
  unfold Js.trim.
  rewrite (trimStart_trimEnd (Js.trimStart s) (trimStart_fixed s)).
  apply trimEnd_idempotent.
Qed.

(** X8.  Names are stored trimmed.  If no stored name has white space at
    either end, no request changes that; and a project as created has a
    name without such white space that is not empty.  (A PATCH can store
    the empty name, as the example after the theorem shows.) *)
Theorem names_stay_trimmed (env : Env) (req : Request) (db : Db) :
  (forall k p, projects db !! k = Some p -> Js.trim (Project.name p) = Project.name p) ->
  (forall k p, projects (snd (serve env req db)) !! k = Some p ->
               Js.trim (Project.name p) = Project.name p)
  /\ (forall r, fst (serve env req db) = mkResponse 201 (Json r) ->
                Js.trim (Project.name r) = Project.name r
                /\ Project.name r <> EmptyString).
Proof.
  intros Hdb. destruct req as [body|pid|pid body].
  - unfold serve, handleApi, bind, insertProject, stmt, throw, ret. simpl.
    assert (Hname : forall n,
              n = match Js.asString (prop body "name") with
                  | Some s => if Js.truthy (Js.trim s) then Js.trim s
                              else "Untitled Project"
                  | None => "Untitled Project"
                  end ->
              Js.trim n = n /\ n <> EmptyString).
    { intros n ->. destruct (Js.asString (prop body "name")) as [s|];
        [|split; [vm_compute; reflexivity | discriminate]].
      destruct (Js.truthy (Js.trim s)) eqn:Ht;
        [|split; [vm_compute; reflexivity | discriminate]].
      split; [apply trim_idempotent|].
      intros E. rewrite E in Ht. discriminate. }
    destruct (fails env StmtInsertProject); simpl; [split; [exact Hdb | discriminate]|].
    destruct (projects db !! randomUUID env); simpl; [split; [exact Hdb | discriminate]|].
    split.
    + intros k p [[<- <-]|[_ Hp]]%lookup_insert_Some; [|exact (Hdb k p Hp)].
      simpl. exact (proj1 (Hname _ eq_refl)).
    + intros r [= <-]. simpl. exact (Hname _ eq_refl).
  - unfold serve, handleApi, bind, selectProject, stmt, throw, ret.
    destruct (fails env StmtSelectProject); simpl; [split; [exact Hdb | discriminate]|].
    destruct (projects db !! pid); simpl; (split; [exact Hdb | discriminate]).
  - split.
    + destruct (serve_patch_cases env pid body db)
        as [[-> _]|(c & b & p & _ & Hp & _ & _ & Hrun)]; [exact Hdb|].
      simpl in Hrun. rewrite Hrun.
      match goal with
      | |- context [maybeSnapshot ?e ?i ?rv ?cc ?d] =>
          pose proof (maybeSnapshot_projects e i rv cc d) as Hproj;
          destruct (maybeSnapshot e i rv cc d) as [[[]|] db1]
      end; simpl in *; rewrite Hproj;
        intros k q [[<- <-]|[_ Hq]]%lookup_insert_Some; try exact (Hdb k q Hq);
        simpl; (destruct (Js.asString (prop body "name")); simpl;
                [apply trim_idempotent | exact (Hdb _ _ Hp)]).
    + intros r H. exfalso.
      pose proof (patch_statuses env pid body db) as Hin. rewrite H in Hin. simpl in Hin.
      repeat (apply elem_of_cons in Hin as [Hin|Hin]; [discriminate|]).
      inversion Hin.
Qed.

Lemma names_stay_trimmed_witness :
  (forall k p, projects Example.db !! k = Some p ->
               Js.trim (Project.name p) = Project.name p)
  /\ exists u,
      projects (snd (serve Example.env (PatchProject "p-1" Example.blankRename) Example.db))
        !! "p-1" = Some u
      /\ Js.trim (Project.name u) = Project.name u
      /\ Project.name u = EmptyString.
Proof.
  assert (H : forall k p, projects Example.db !! k = Some p ->
                          Js.trim (Project.name p) = Project.name p).
  { intros k p Hp. simpl in Hp. apply lookup_singleton_Some in Hp as [_ <-].
    vm_compute. reflexivity. }
  split; [exact H|].
  eexists. split; [vm_compute; reflexivity|].
  split; [|reflexivity].
  refine (proj1 (names_stay_trimmed Example.env (PatchProject "p-1" Example.blankRename)
                   Example.db H) "p-1" _ _).
  vm_compute. reflexivity.
Defined.
(** * The snapshot policy over many requests *)

Import Server ServerSpec StoreSpec SnapshotSpec.

Lemma serve_tenths (env : Env) (req : Request) (db : Db) :
  reliable env -> snapshotIdFree env db ->
  tenthsCovered db -> tenthsCovered (snd (serve env req db)).
Proof.
  intros Hrel Hfree Hcov. destruct req as [body|pid|pid body].
  - destruct (serve_effect env (PostProjects body) db)
      as [->|[(b' & r & _ & Hnone & Hrev & ->)|(pid & b' & p & u & added & [=] & _)]];
      [exact Hcov|].
    intros pid p k Hl Hk Hdiv. simpl in *.
    apply lookup_insert_Some in Hl as [[<- <-]|[_ Hl]]; [lia|].
    exact (Hcov pid p k Hl Hk Hdiv).
  - destruct (serve_effect env (GetProject pid) db)
      as [->|[(b' & r & [=] & _)|(pid' & b' & p & u & added & [=] & _)]].
    exact Hcov.
  - destruct (serve_patch_cases env pid body db)
      as [[-> _]|(c & b & p & _ & Hp & Hrev & _ & Hrun)]; [exact Hcov|].
    cbv zeta in Hrun. rewrite Hrun. clear Hrun.
    set (u := applySet _ p).
    assert (Hu : Project.revision u = b + 1) by reflexivity.
    clearbody u.
    rewrite maybeSnapshot_run, !Hrel. simpl projectSnapshots. simpl projects.
    rewrite lookup_insert_eq.
    rewrite bool_decide_eq_false_2 by exact Hfree.
    pose proof (shouldSnapshot_due pid db (jsNow env) (b + 1)) as Hdue.
    destruct (shouldSnapshot (latestCreatedAt pid (projectSnapshots db)) (jsNow env) (b + 1));
      simpl; intros pid' p' k Hl Hk Hdiv; simpl in Hl |- *;
      (apply lookup_insert_Some in Hl as [[<- <-]|[_ Hl]];
       [|destruct (Hcov pid' p' k Hl Hk Hdiv) as (s & Hin & Hs);
         exists s; split; [first [exact Hin | apply elem_of_app; left; exact Hin] | exact Hs]]).
    + destruct (decide (k = b + 1)) as [->|Hne].
      * eexists. split; [apply elem_of_app; right; apply list_elem_of_singleton;
                         reflexivity|].
        split; reflexivity.
      * destruct (Hcov pid p k Hp) as (s & Hin & Hs); [lia | exact Hdiv |].
        exists s. split; [first [exact Hin | apply elem_of_app; left; exact Hin] | exact Hs].
    + destruct (decide (k = b + 1)) as [->|Hne].
      * exfalso. assert (Hf : false = true) by (apply Hdue; auto). discriminate.
      * destruct (Hcov pid p k Hp) as (s & Hin & Hs); [lia | exact Hdiv |].
        exists s. split; [exact Hin | exact Hs].
Qed.

(** X9.  Every tenth revision has a snapshot.  When every statement
    completes and snapshot identifiers are fresh, every revision of a
    project that is a multiple of ten has a snapshot of the project at that
    revision, after any sequence of requests, however close in time the
    saves are. *)
Theorem every_tenth_revision_has_a_snapshot (reqs : list (Env * Request)) (db : Db) :
  tenthsCovered db -> dependable reqs db -> tenthsCovered (finalDb reqs db).
Proof.
  revert db. induction reqs as [|[env req] rest IH]; intros db Hcov Hdep.
  - exact Hcov.
  - destruct Hdep as (Hrel & Hfree & Hrest). simpl.
    apply IH; [apply serve_tenths; assumption | exact Hrest].
Qed.

Lemma every_tenth_revision_has_a_snapshot_witness :
  let ninth := Project.mk "p-1" "Notes" "typescript" "old" 9 10 10 in
  let db := mkDb {[ "p-1" := ninth ]}
                 [Snapshot.mk "s-1" "p-1" 9 "old" 2000] in
  let save : Body := {[ "content" := Js.VString "new"; "baseRevision" := Js.VInt 9 ]} in
  let db' := finalDb [(Example.env, PatchProject "p-1" save)] db in
  tenthsCovered db /\ dependable [(Example.env, PatchProject "p-1" save)] db
  /\ exists s, s ∈ projectSnapshots db'
               /\ Snapshot.projectId s = "p-1" /\ Snapshot.revision s = 10.
Proof.
  intros ninth db save db'.
  assert (Hcov : tenthsCovered db).
  { intros pid p k Hl Hk [z Hz]. simpl in Hl.
    apply lookup_singleton_Some in Hl as [_ <-]. simpl in Hk. lia. }
  assert (Hdep : dependable [(Example.env, PatchProject "p-1" save)] db).
  { split; [intros st; reflexivity|]. split; [|exact I].
    unfold snapshotIdFree. simpl. intros Hin.
    apply list_elem_of_singleton in Hin. discriminate. }
  split; [exact Hcov|]. split; [exact Hdep|].
  refine (every_tenth_revision_has_a_snapshot _ db Hcov Hdep "p-1"
            (Project.mk "p-1" "Notes" "typescript" "new" 10 10 1000) 10 _ _ _).
  - vm_compute. reflexivity.
  - simpl. lia.
  - exists 1. reflexivity.
Defined.
(** * More on the session *)

Import Client ClientSpec SessionSpec.

(** ** A busy session arms no flush *)

Lemma clearTimers_noFlushTimer (s : Session) :
  timersInvariant s -> noFlushTimer (clearTimers s).
Proof.
  intros Hinv tid cb Hl.
  destruct cb as [draft| |]; [reflexivity| |]; exfalso.
  - assert (Hs : timers s !! tid = Some CbDebounce /\ debounceRef s <> Some tid).
    { unfold clearTimers, clearTimeout in Hl. destruct s; simpl in *.
      destruct debounceRef0 as [d|], maxFlushRef0 as [m|]; simpl in *;
        repeat (apply lookup_delete_Some in Hl as [? Hl]);
        (split; [exact Hl | congruence || discriminate]). }
    destruct Hs as [Hs Hne]. apply Hinv in Hs as [_ Hs]. contradiction.
  - assert (Hs : timers s !! tid = Some CbMax /\ maxFlushRef s <> Some tid).
    { unfold clearTimers, clearTimeout in Hl. destruct s; simpl in *.
      destruct debounceRef0 as [d|], maxFlushRef0 as [m|]; simpl in *;
        repeat (apply lookup_delete_Some in Hl as [? Hl]);
        (split; [exact Hl | congruence || discriminate]). }
    destruct Hs as [Hs Hne]. apply Hinv in Hs as [_ Hs]. contradiction.
Qed.

Lemma flush_quiet (s : Session) :
  timersInvariant s ->
  flush s = (s, [])
  \/ (savingRef (fst (flush s)) = true /\ noFlushTimer (fst (flush s))).
Proof.
  intros Hinv.
  destruct (flush_cases s) as [H|(Hc & Hs & Hd)]; [left; exact H|right].
  split; [apply (flush_sends s Hc Hs Hd)|].
  set (s2 := set_pendingSaveRef false (set_savingRef true s)).
  assert (Hinv2 : timersInvariant s2).
  { apply (sameTimers_invariant s); [|exact Hinv]. unfold s2. same_timers. }
  assert (Ht : timers (fst (flush s)) = timers (clearTimers s2)).
  { unfold flush. rewrite Hc, Hs.
    rewrite bool_decide_eq_false_2 by (intros [? ?]; discriminate).
    destruct (bool_decide (latestValueRef s = lastSavedRef s)
              && bool_decide (latestNameRef s = lastSavedNameRef s)) eqn:Hb.
    - exfalso. apply andb_true_iff in Hb as [H1 H2].
      apply bool_decide_eq_true in H1. apply bool_decide_eq_true in H2.
      destruct Hd; contradiction.
    - reflexivity. }
  intros tid cb Hl. rewrite Ht in Hl.
  exact (clearTimers_noFlushTimer s2 Hinv2 tid cb Hl).
Qed.

Lemma noFlushTimer_mono (s s' : Session) :
  noFlushTimerArmed s s' -> noFlushTimer s -> noFlushTimer s'.
Proof.
  intros Harm Hs tid cb Hl.
  destruct (isFlushTimer cb) eqn:Hf; [|reflexivity].
  rewrite <- Hf. exact (Hs tid cb (Harm tid cb Hl Hf)).
Qed.

Lemma changeEffect_busy (now : Z) (s : Session) :
  busy s -> nothingScheduled s (changeEffect now s).
Proof.
  intros Hb. rewrite changeEffect_unfold. cbv zeta.
  set (s2 := set_latestNameRef (name s) (set_latestValueRef (value s) s)).
  assert (H2 : sameTimers s s2) by (unfold s2; same_timers).
  destruct (bool_decide (value s = lastSavedRef s)
            && bool_decide (name s = lastSavedNameRef s));
    [apply sameTimers_nothingScheduled; exact H2|].
  set (draft := Draft.mk _ _ _ _ _).
  pose proof (scheduleDraftWrite_nothingScheduled draft s2) as H3.
  assert (H23 : nothingScheduled s (scheduleDraftWrite draft s2)).
  { destruct H2 as (Ht & _ & Hd & Hm & _). destruct H3 as (Ha & Hd3 & Hm3).
    split; [|split; congruence].
    intros tid cb Hl Hf. rewrite <- Ht. exact (Ha tid cb Hl Hf). }
  destruct (bool_decide (is_Some (conflictRef s))) eqn:Hc; [exact H23|].
  destruct Hb as [Hsv|Hcf]; [|apply bool_decide_eq_false in Hc; contradiction].
  rewrite Hsv.
  apply (nothingScheduled_trans _ _ _ H23). same_timers.
Qed.

Lemma sameFlight_busy (s s' : Session) : sameFlight s s' -> busy s' -> busy s.
Proof. intros (_ & _ & Hs & Hc & _) [H|H]; [left|right]; congruence. Qed.

Lemma rendered_busy (now : Z) (before s : Session) :
  busy s -> nothingScheduled s (rendered now before s).
Proof.
  intros Hb. unfold rendered.
  destruct (bool_decide (value s = value before) && bool_decide (name s = name before)).
  - apply sameTimers_nothingScheduled. repeat split.
  - apply changeEffect_busy, Hb.
Qed.

Lemma rendered_quiet (now : Z) (before s : Session) :
  quiet s -> quiet (rendered now before s).
Proof.
  intros Hq Hb. apply (sameFlight_busy s) in Hb; [|apply rendered_flight].
  apply (noFlushTimer_mono s); [apply (rendered_busy now before s Hb)|exact (Hq Hb)].
Qed.

Lemma sameTimers_quiet (s s' : Session) :
  sameTimers s s' -> (busy s' -> busy s) -> quiet s -> quiet s'.
Proof.
  intros (Ht & _) Hb Hq Hb' tid cb Hl. rewrite Ht in Hl. exact (Hq (Hb Hb') tid cb Hl).
Qed.

Lemma flush_step_quiet (s : Session) :
  timersInvariant s -> quiet s -> quiet (fst (flush s)).
Proof.
  intros Hinv Hq. destruct (flush_quiet s Hinv) as [->|[_ H]]; [exact Hq|].
  intros _. exact H.
Qed.

Lemma flushFinally_idle (s : Session) :
  conflictRef s = None -> ~ busy (flushFinally s).
Proof.
  intros Hc. destruct (flushFinally_spec s) as (Hs & (_ & _ & _ & Hcf & _) & _).
  intros [H|H]; [congruence|].
  rewrite Hcf in H. destruct s; simpl in *. subst. destruct H. discriminate.
Qed.

Lemma flushResumed_quiet (now : Z) (res : FetchResult) (s : Session) :
  conflictRef s = None -> noFlushTimer s -> quiet (fst (flushResumed now res s)).
Proof.
  intros Hc Hq. destruct res as [latest| |updated]; unfold flushResumed; cbv zeta.
  - intros _. unfold fst, flushFinally.
    assert (E : forall x : Session, conflictRef x = Some latest ->
                  pendingSaveRef (set_savingRef false x)
                  && negb (bool_decide (is_Some (conflictRef (set_savingRef false x))))
                  = false).
    { intros x Hx. destruct x; simpl in *. subst.
      rewrite bool_decide_eq_true_2 by eauto. apply andb_false_r. }
    rewrite E by (destruct s; reflexivity).
    intros tid cb Hl. apply (Hq tid cb). destruct s; exact Hl.
  - intros Hb. exfalso. revert Hb. apply flushFinally_idle. destruct s; exact Hc.
  - set (s4 := set_saveState Idle _).
    assert (H4 : conflictRef s4 = None /\ timers s4 = timers s)
      by (destruct s; split; [exact Hc|reflexivity]).
    clearbody s4. destruct H4 as [Hc4 Ht4].
    destruct (bool_decide (latestValueRef s4 = Project.content updated)
              && bool_decide (latestNameRef s4 = Project.name updated)).
    + intros _ tid cb Hl. apply (Hq tid cb). rewrite <- Ht4.
      destruct s4; exact Hl.
    + intros Hb. exfalso. revert Hb. apply flushFinally_idle.
      match goal with
      | |- conflictRef (scheduleDraftWrite ?d ?x) = None =>
          destruct (scheduleDraftWrite_frame d x)
            as (_&_&_&_&_&_&_&_&_&_&_&_&_&E&_); rewrite E
      end.
      exact Hc4.
Qed.

Lemma step_quiet (e : Event) (s s' : Session) (cmds : list Cmd) :
  flightInvariant s -> timersInvariant s -> quiet s ->
  step e s = Some (s', cmds) -> quiet s'.
Proof.
  intros Hfl Hti Hq Hstep. destruct e; simpl in Hstep.
  - flush_result Hstep. simpl. apply rendered_quiet.
    apply (sameTimers_quiet s); [same_timers| |exact Hq].
    intros [H|H]; [left|right]; destruct s; exact H.
  - flush_result Hstep. simpl. apply rendered_quiet.
    apply (sameTimers_quiet s); [same_timers| |exact Hq].
    intros [H|H]; [left|right]; destruct s; exact H.
  - destruct (timers s !! tid) as [cb|] eqn:Hl; [|discriminate].
    set (s1 := set_timers (delete tid (timers s)) s) in *.
    assert (Hq1 : quiet s1).
    { intros Hb t c Ht.
      assert (Hb0 : busy s) by (destruct Hb as [H|H]; [left|right]; destruct s; exact H).
      apply (Hq Hb0 t c).
      assert (Ht' : delete tid (timers s) !! t = Some c) by (destruct s; exact Ht).
      apply lookup_delete_Some in Ht' as [_ Ht']. exact Ht'. }
    assert (Hti1 : timersInvariant s1).
    { intros t c Ht.
      assert (Ht' : delete tid (timers s) !! t = Some c) by (destruct s; exact Ht).
      apply lookup_delete_Some in Ht' as [_ Ht'].
      destruct (Hti t c Ht') as [H1 H2]. destruct s; exact (conj H1 H2). }
    clearbody s1.
    destruct cb; flush_result Hstep; simpl;
      [exact Hq1 | apply flush_step_quiet; assumption ..].
  - flush_result Hstep. apply flush_step_quiet; assumption.
  - destruct (inFlight s !! i) as [req|] eqn:Hi; [|discriminate].
    destruct (inFlight_singleton s i req Hfl Hi) as (_ & _ & Hsv & Hc).
    flush_result Hstep.
    apply flushResumed_quiet.
    + destruct s; exact Hc.
    + intros t c Ht. apply (Hq (or_introl Hsv) t c). destruct s; exact Ht.
  - destruct (awaitingClearDraft s) as [|n] eqn:Ha; [discriminate|].
    flush_result Hstep. simpl.
    intros Hb. exfalso. revert Hb. apply flushFinally_idle.
    destruct Hfl as (Hcount & Hconf & _).
    destruct (conflictRef s) as [p|] eqn:Hc.
    + rewrite (Hconf (mk_is_Some _ _ eq_refl)) in Hcount. rewrite Ha in Hcount. lia.
    + destruct s; exact Hc.
  - flush_result Hstep. simpl.
    apply (sameTimers_quiet s); [same_timers| |exact Hq].
    intros [H|H]; [left|right]; destruct s; exact H.
  - flush_result Hstep. unfold handleRestore.
    destruct (restoreDraft s) as [draft|]; [|exact Hq].
    unfold fst. apply rendered_quiet.
    apply (sameTimers_quiet s); [same_timers| |exact Hq].
    intros [H|H]; [left|right]; destruct s; exact H.
  - flush_result Hstep. unfold handleDiscardDraft.
    destruct (restoreDraft s) as [draft|]; [|exact Hq].
    unfold fst.
    apply (sameTimers_quiet s); [same_timers| |exact Hq].
    intros [H|H]; [left|right]; destruct s; exact H.
  - flush_result Hstep. unfold handleReloadFromServer.
    destruct (conflictProject s) as [server|] eqn:Hcp; [|exact Hq].
    unfold fst. cbv zeta.
    set (s10 := set_saveState Idle _).
    assert (H10 : savingRef s10 = false /\ conflictRef s10 = None).
    { destruct Hfl as (_ & Hconf & Hsame). rewrite Hcp in Hsame.
      split; [|destruct s; reflexivity].
      transitivity (savingRef s); [destruct s; reflexivity|].
      apply Hconf. rewrite <- Hsame. eauto. }
    clearbody s10. destruct H10 as [Hs10 Hc10].
    intros Hb. apply (sameFlight_busy s10) in Hb; [|apply rendered_flight].
    exfalso. destruct Hb as [H|[p H]]; congruence.
  - flush_result Hstep. unfold handleOverwriteServer.
    destruct (conflictProject s) as [server|] eqn:Hcp; [|exact Hq].
    cbv zeta.
    set (s4 := set_saveState Idle _).
    assert (H4 : savingRef s4 = false /\ conflictRef s4 = None /\ sameTimers s s4).
    { destruct Hfl as (_ & Hconf & Hsame). rewrite Hcp in Hsame.
      split; [|split; [destruct s; reflexivity | unfold s4; same_timers]].
      transitivity (savingRef s); [destruct s; reflexivity|].
      apply Hconf. rewrite <- Hsame. eauto. }
    clearbody s4. destruct H4 as (Hs4 & Hc4 & Ht4).
    apply flush_step_quiet; [apply (sameTimers_invariant s); assumption|].
    intros [H|[p H]]; congruence.
Qed.

Lemma run_cons (e : Event) (es : list Event) (s s' : Session) (cmds : list Cmd) :
  run (e :: es) s = Some (s', cmds) ->
  exists s1 cmds1 cmds2,
    step e s = Some (s1, cmds1) /\ run es s1 = Some (s', cmds2)
    /\ cmds = cmds1 ++ cmds2.
Proof.
  simpl. destruct (step e s) as [[s1 cmds1]|] eqn:Hstep; [|discriminate].
  destruct (run es s1) as [[s2 cmds2]|] eqn:Hrun; [|discriminate].
  intros [= <- <-]. exists s1, cmds1, cmds2. repeat split. exact Hrun.
Qed.

Lemma run_quiet (es : list Event) (s s' : Session) (cmds : list Cmd) :
  flightInvariant s -> timersInvariant s -> quiet s ->
  run es s = Some (s', cmds) -> quiet s'.
Proof.
  revert s cmds. induction es as [|e es IH]; intros s cmds Hfl Hti Hq Hrun.
  - injection Hrun as <- _. exact Hq.
  - apply run_cons in Hrun as (s1 & c1 & c2 & Hstep & Hrun & _).
    apply (IH s1 c2); [eapply step_flight | eapply step_timers | eapply step_quiet | ];
      eassumption.
Qed.

(** X10.  While a save request is under way or a conflict is held, no timer
    that would start a save is armed: starting a save cancels both timers,
    and nothing arms one until the save has ended and the conflict is
    resolved. *)
Theorem busy_session_is_quiet (project : Project.t) (s : Session) :
  reachable project s -> busy s -> noFlushTimer s.
Proof.
  intros (es & cmds & Hrun) Hb.
  refine (run_quiet es (init project) s cmds _ _ _ Hrun Hb).
  - apply init_flight.
  - apply init_timers.
  - intros _ tid cb Hl. simpl in Hl. rewrite lookup_empty in Hl. discriminate.
Qed.

Lemma busy_session_is_quiet_witness :
  reachable Example.project ExampleSession.saving
  /\ busy ExampleSession.saving
  /\ noFlushTimer ExampleSession.saving.
Proof.
  assert (Hr : reachable Example.project ExampleSession.saving).
  { exists [ChangeValue 1 "mine"; TimerFires 2]. eexists. vm_compute. reflexivity. }
  assert (Hb : busy ExampleSession.saving) by (left; vm_compute; reflexivity).
  split; [exact Hr|]. split; [exact Hb|].
  exact (busy_session_is_quiet Example.project ExampleSession.saving Hr Hb).
Defined.

(** ** A conflict halts the autosave *)

Lemma rendered_frame (now : Z) (before s : Session) :
  let s' := rendered now before s in
  saveState s' = saveState s /\ baselines s' = baselines s
  /\ conflictRef s' = conflictRef s /\ conflictProject s' = conflictProject s
  /\ projectIdRef s' = projectIdRef s /\ value s' = value s /\ name s' = name s.
Proof.
  unfold rendered, baselines.
  destruct (bool_decide (value s = value before) && bool_decide (name s = name before));
    [repeat split|].
  destruct (changeEffect_frame now s)
    as (Hv & Hn & Hst & _ & Hcp & _ & _ & Hb & Hl & Hln & Hp & _ & Hc & _).
  cbv zeta in *. rewrite Hst, Hb, Hl, Hln, Hc, Hcp, Hp, Hv, Hn. repeat split.
Qed.

Lemma noFlushTimerArmed_delete (tid : nat) (s : Session) :
  noFlushTimerArmed s (set_timers (delete tid (timers s)) s).
Proof.
  intros t c Hl _.
  assert (Hl' : delete tid (timers s) !! t = Some c) by (destruct s; exact Hl).
  apply lookup_delete_Some in Hl' as [_ Hl']. exact Hl'.
Qed.

Lemma step_in_conflict (e : Event) (s s' : Session) (server : Project.t)
      (cmds : list Cmd) :
  flightInvariant s -> conflictRef s = Some server -> resolves e = false ->
  step e s = Some (s', cmds) ->
  forallb (fun c => negb (isFetch c)) cmds = true
  /\ conflictRef s' = Some server
  /\ baselines s' = baselines s /\ saveState s' = saveState s
  /\ noFlushTimerArmed s s'.
Proof.
  intros Hfl Hc He Hstep.
  assert (Hbusy : forall x : Session, conflictRef x = conflictRef s -> busy x).
  { intros x Hx. right. rewrite Hx, Hc. eauto. }
  assert (Hrender : forall now x,
             conflictRef x = conflictRef s -> baselines x = baselines s ->
             saveState x = saveState s -> timers x = timers s ->
             let x' := rendered now s x in
             conflictRef x' = Some server /\ baselines x' = baselines s
             /\ saveState x' = saveState s /\ noFlushTimerArmed s x').
  { intros now x Hxc Hxb Hxs Hxt. cbv zeta.
    destruct (rendered_frame now s x) as (Hst & Hb & Hcf & _).
    cbv zeta in *. rewrite Hst, Hb, Hcf, Hxc, Hxb, Hxs. repeat split; [exact Hc|].
    destruct (rendered_busy now s x (Hbusy x Hxc)) as [Harm _].
    intros t c Hl Hf. rewrite <- Hxt. exact (Harm t c Hl Hf). }
  destruct e; simpl in Hstep; try discriminate He.
  - injection Hstep as <- <-. split; [reflexivity|].
    apply Hrender; destruct s; reflexivity.
  - injection Hstep as <- <-. split; [reflexivity|].
    apply Hrender; destruct s; reflexivity.
  - destruct (timers s !! tid) as [cb|] eqn:Hl; [|discriminate].
    set (s1 := set_timers (delete tid (timers s)) s) in *.
    assert (H1 : conflictRef s1 = Some server /\ baselines s1 = baselines s
                 /\ saveState s1 = saveState s /\ noFlushTimerArmed s s1).
    { split; [destruct s; exact Hc|].
      split; [destruct s; reflexivity|].
      split; [destruct s; reflexivity|]. apply noFlushTimerArmed_delete. }
    assert (Hfl1 : flush s1 = (s1, [])).
    { apply flush_blocked. left. destruct H1 as [-> _]. eauto. }
    clearbody s1. rewrite Hfl1 in Hstep.
    destruct cb; injection Hstep as <- <-; (split; [reflexivity | exact H1]).
  - rewrite flush_blocked in Hstep by (left; rewrite Hc; eauto).
    injection Hstep as <- <-. split; [reflexivity|].
    repeat split; [exact Hc|]. intros t c Hl _. exact Hl.
  - destruct (inFlight s !! i) as [req|] eqn:Hi; [|discriminate].
    destruct (inFlight_singleton s i req Hfl Hi) as (_ & _ & _ & Hnone). congruence.
  - destruct (awaitingClearDraft s) as [|n] eqn:Ha; [discriminate|].
    destruct Hfl as (Hcount & Hconf & _).
    rewrite Hconf, Ha in Hcount by (rewrite Hc; eauto). lia.
  - injection Hstep as <- <-. split; [reflexivity|].
    split; [destruct s; exact Hc|].
    split; [destruct s; reflexivity|].
    split; [destruct s; reflexivity|].
    intros t c Hl _. destruct s; exact Hl.
  - unfold handleRestore in Hstep. destruct (restoreDraft s) as [draft|].
    + injection Hstep as <- <-. split; [reflexivity|].
      apply Hrender; destruct s; reflexivity.
    + injection Hstep as <- <-. split; [reflexivity|].
      repeat split; [exact Hc|]. intros t c Hl _. exact Hl.
  - unfold handleDiscardDraft in Hstep. destruct (restoreDraft s) as [draft|];
      injection Hstep as <- <-; (split; [reflexivity|]).
    + split; [destruct s; exact Hc|].
      split; [destruct s; reflexivity|].
      split; [destruct s; reflexivity|].
      intros t c Hl _. destruct s; exact Hl.
    + repeat split; [exact Hc|]. intros t c Hl _. exact Hl.
Qed.

(** X11.  A conflict halts the autosave.  From a session that holds a
    conflict, whatever happens short of the user choosing to reload or to
    overwrite (edits, timers firing, blur and page-hide flushes, the draft
    dialog), no request is sent, the conflict and the base revision stay as
    they are, and no timer that would start a save is armed. *)
Theorem conflict_halts_autosave (es : list Event) (s s' : Session)
        (server : Project.t) (cmds : list Cmd) :
  flightInvariant s -> conflictRef s = Some server ->
  forallb (fun e => negb (resolves e)) es = true ->
  run es s = Some (s', cmds) ->
  forallb (fun c => negb (isFetch c)) cmds = true
  /\ conflictRef s' = Some server
  /\ baselines s' = baselines s /\ saveState s' = saveState s
  /\ noFlushTimerArmed s s'.
Proof.
  revert s cmds. induction es as [|e es IH]; intros s cmds Hfl Hc Hes Hrun.
  - injection Hrun as <- <-. repeat split; [exact Hc|]. intros t c Hl _. exact Hl.
  - apply run_cons in Hrun as (s1 & c1 & c2 & Hstep & Hrun & ->).
    simpl in Hes. apply andb_true_iff in Hes as [He Hes].
    apply negb_true_iff in He.
    destruct (step_in_conflict e s s1 server c1 Hfl Hc He Hstep)
      as (Hf1 & Hc1 & Hb1 & Hs1 & Ha1).
    destruct (IH s1 c2 (step_flight e s s1 c1 Hfl Hstep) Hc1 Hes Hrun)
      as (Hf2 & Hc2 & Hb2 & Hs2 & Ha2).
    rewrite forallb_app, Hf1, Hf2, Hb2, Hb1, Hs2, Hs1.
    repeat split; [exact Hc2|].
    intros t c Hl Hf. exact (Ha1 t c (Ha2 t c Hl Hf) Hf).
Qed.

Lemma conflict_halts_autosave_witness :
  flightInvariant ExampleSession.conflicted
  /\ conflictRef ExampleSession.conflicted = Some ExampleSession.theirs
  /\ exists s' cmds,
      run [ChangeValue 5 "mine again"; TimerFires 4; FlushCalled]
          ExampleSession.conflicted = Some (s', cmds)
      /\ forallb (fun c => negb (isFetch c)) cmds = true
      /\ conflictRef s' = Some ExampleSession.theirs
      /\ baselines s' = baselines ExampleSession.conflicted.
Proof.
  assert (Hfl : flightInvariant ExampleSession.conflicted)
    by (vm_compute; repeat split; intros [? ?]; reflexivity).
  assert (Hc : conflictRef ExampleSession.conflicted = Some ExampleSession.theirs)
    by (vm_compute; reflexivity).
  split; [exact Hfl|]. split; [exact Hc|].
  destruct (run [ChangeValue 5 "mine again"; TimerFires 4; FlushCalled]
                ExampleSession.conflicted) as [[s' cmds]|] eqn:Hrun;
    [|vm_compute in Hrun; discriminate].
  exists s', cmds. split; [reflexivity|].
  destruct (conflict_halts_autosave
              [ChangeValue 5 "mine again"; TimerFires 4; FlushCalled]
              ExampleSession.conflicted s' ExampleSession.theirs cmds Hfl Hc eq_refl Hrun)
    as (H1 & H2 & H3 & _).
  split; [exact H1|]. split; [exact H2|]. exact H3.
Defined.

(** ** A save that fails *)

(** X12.  A save that fails is not retried on its own.  When the request of
    a session ends in a failure (network error, or an answer that is neither
    ok nor 409), the state becomes [Error], the base revision and the saved
    text stay as they were, and nothing is sent.  A follow-up is armed only
    if an edit came in while the request was out; otherwise no timer that
    would start a save is left, and the next flush (blur, retry, page hide)
    sends the same request again. *)
Theorem failed_save_waits (project : Project.t) (s : Session) (now : Z) (i : nat)
        (req : PatchRequest) :
  reachable project s -> inFlight s !! i = Some req ->
  exists s',
    step (FetchEnds now i ResFailed) s = Some (s', [])
    /\ saveState s' = Error /\ savingRef s' = false /\ inFlight s' = []
    /\ conflictRef s' = None
    /\ baselines s' = baselines s
    /\ latestValueRef s' = latestValueRef s /\ latestNameRef s' = latestNameRef s
    /\ (if pendingSaveRef s then followUpArmed s s' else noFlushTimer s')
    /\ (dirty s -> snd (flush s') = [Fetch (patchOf s)]).
Proof.
  intros Hreach Hi.
  destruct (reachable_invariants project s Hreach) as [Hfl Hti].
  destruct (inFlight_singleton s i req Hfl Hi) as (Hdel & _ & Hsv & Hc).
  assert (Hq : noFlushTimer s).
  { destruct Hreach as (es & cmds & Hrun).
    refine (run_quiet es (init project) s cmds _ _ _ Hrun (or_introl Hsv)).
    - apply init_flight.
    - apply init_timers.
    - intros _ tid cb Hl. simpl in Hl. rewrite lookup_empty in Hl. discriminate. }
  simpl. rewrite Hi. unfold flushResumed.
  set (x := set_saveState Error (set_inFlight (delete i (inFlight s)) s)).
  assert (Hx : saveState x = Error /\ inFlight x = [] /\ conflictRef x = None
               /\ baselines x = baselines s
               /\ latestValueRef x = latestValueRef s
               /\ latestNameRef x = latestNameRef s
               /\ projectIdRef x = projectIdRef s
               /\ pendingSaveRef x = pendingSaveRef s
               /\ timers x = timers s /\ nextTimer x = nextTimer s).
  { unfold x. rewrite Hdel. destruct s; simpl in *. subst. repeat split. }
  clearbody x.
  destruct Hx as (Hst & Hin & Hcx & Hbx & Hlv & Hln & Hpid & Hpend & Htx & Hnx).
  exists (flushFinally x). split; [reflexivity|].
  destruct (flushFinally_frame x)
    as (_&_&Fst&_&_&Flv&Fln&Fb&Fl&Fls&Fpid&_&_&Fc&Fin&_).
  destruct (flushFinally_spec x) as (Fsv & _ & _ & Ftimers).
  assert (Hset : forall y : Session,
             saveState (set_savingRef false y) = saveState y
             /\ inFlight (set_savingRef false y) = inFlight y
             /\ conflictRef (set_savingRef false y) = conflictRef y
             /\ baselines (set_savingRef false y) = baselines y
             /\ latestValueRef (set_savingRef false y) = latestValueRef y
             /\ latestNameRef (set_savingRef false y) = latestNameRef y
             /\ projectIdRef (set_savingRef false y) = projectIdRef y)
    by (intros []; repeat split).
  destruct (Hset x) as (Sst & Sin & Sc & Sb & Slv & Sln & Spid).
  assert (Hb' : baselines (flushFinally x) = baselines s).
  { unfold baselines in *. rewrite Fb, Fl, Fls. exact (eq_trans Sb Hbx). }
  split; [congruence|]. split; [exact Fsv|]. split; [congruence|].
  split; [congruence|]. split; [exact Hb'|].
  split; [congruence|]. split; [congruence|].
  split.
  - rewrite <- Hpend. rewrite Hcx in Ftimers.
    rewrite bool_decide_eq_false_2 in Ftimers by (intros [? ?]; discriminate).
    rewrite andb_true_r in Ftimers.
    destruct (pendingSaveRef x).
    + destruct Ftimers as (tid & Hle & Hd & Hl). exists tid.
      rewrite <- Hnx. auto.
    + intros tid cb Hl. apply (Hq tid cb).
      destruct Ftimers as (Ht & _). rewrite <- Htx, <- Ht. exact Hl.
  - intros Hd.
    assert (Hd' : dirty (flushFinally x)).
    { unfold dirty, baselines in *.
      injection Hb' as _ Hl' Hln'.
      replace (latestValueRef (flushFinally x)) with (latestValueRef s) by congruence.
      replace (latestNameRef (flushFinally x)) with (latestNameRef s) by congruence.
      rewrite Hl', Hln'. exact Hd. }
    destruct (flush_sends (flushFinally x)) as [Hsend _];
      [congruence | exact Fsv | exact Hd' |].
    rewrite Hsend. unfold patchOf. f_equal.
    injection Hb' as Hrev _ _. f_equal; congruence.
Qed.

Lemma failed_save_waits_witness :
  reachable Example.project ExampleSession.saving
  /\ inFlight ExampleSession.saving !! 0%nat = Some (mkPatch "p-1" "mine" 0 "Notes")
  /\ exists s',
      step (FetchEnds 9 0 ResFailed) ExampleSession.saving = Some (s', [])
      /\ saveState s' = Error
      /\ noFlushTimer s'
      /\ snd (flush s') = [Fetch (mkPatch "p-1" "mine" 0 "Notes")].
Proof.
  assert (Hr : reachable Example.project ExampleSession.saving).
  { exists [ChangeValue 1 "mine"; TimerFires 2]. eexists. vm_compute. reflexivity. }
  assert (Hi : inFlight ExampleSession.saving !! 0%nat
               = Some (mkPatch "p-1" "mine" 0 "Notes")) by (vm_compute; reflexivity).
  split; [exact Hr|]. split; [exact Hi|].
  destruct (failed_save_waits Example.project ExampleSession.saving 9 0 _ Hr Hi)
    as (s' & Hstep & Hst & _ & _ & _ & _ & _ & _ & Hq & Hretry).
  exists s'. split; [exact Hstep|]. split; [exact Hst|].
  split; [exact Hq|].
  apply Hretry. left. vm_compute. discriminate.
Defined.

(** ** One session, one project *)













(** * The session and the server together *)

Import Server ServerSpec Client ClientSpec SessionSpec Wire.

Lemma patchBody_wellFormed (req : PatchRequest) :
  wellFormed (patchBody req) (patch_content req) (patch_baseRevision req)
  /\ Js.asString (prop (patchBody req) "name") = Some (patch_name req).
Proof.
  unfold wellFormed, prop, patchBody.
  repeat split; simplify_map_eq; reflexivity.
Qed.

(** The record a request stores in place of [p]. *)
Lemma serve_fresh (env : Env) (req : PatchRequest) (db : Db) (p : Project.t) :
  reliable env -> snapshotIdFree env db ->
  projects db !! patch_projectId req = Some p ->
  Project.revision p = patch_baseRevision req ->
  let u := Project.mk (Project.id p) (Js.trim (patch_name req)) (Project.language p)
                      (patch_content req) (Project.revision p + 1)
                      (Project.createdAt p) (jsDate env) in
  exists db',
    serve env (toRequest req) db = (mkResponse 200 (Json u), db')
    /\ projects db' = <[patch_projectId req := u]> (projects db).
Proof.
  intros Hrel Hfree Hp Hrev u.
  destruct (patchBody_wellFormed req) as [Hwf Hname].
  unfold serve, toRequest.
  rewrite (patch_run env _ _ db _ _ Hwf), Hrel, Hp.
  rewrite bool_decide_eq_true_2 by exact Hrev.
  rewrite Hname. simpl fmap.
  set (db1 := mkDb _ _).
  destruct (maybeSnapshot_returns env (patch_projectId req)
              (patch_baseRevision req + 1) (patch_content req) db1 Hrel)
    as (db' & Hrun & Hproj).
  - exact Hfree.
  - unfold db1. simpl. rewrite lookup_insert_eq. eauto.
  - rewrite Hrun. exists db'. rewrite Hproj. unfold db1, u, applySet. simpl.
    rewrite Hrev. split; reflexivity.
Qed.

Lemma serve_stale (env : Env) (req : PatchRequest) (db : Db) (p : Project.t) :
  fails env StmtUpdateProject = false -> fails env StmtSelectCurrent = false ->
  projects db !! patch_projectId req = Some p ->
  Project.revision p <> patch_baseRevision req ->
  serve env (toRequest req) db = (mkResponse 409 (Json p), db).
Proof.
  intros Hu Hs Hp Hrev.
  destruct (patchBody_wellFormed req) as [Hwf _].
  unfold serve, toRequest.
  rewrite (patch_run env _ _ db _ _ Hwf), Hu, Hp, Hs.
  rewrite bool_decide_eq_false_2 by exact Hrev. reflexivity.
Qed.

(** ** The session's side of a save *)

Lemma flush_started (s : Session) :
  flightInvariant s -> timersInvariant s ->
  conflictRef s = None -> savingRef s = false -> dirty s ->
  let s1 := fst (flush s) in
  let x := set_inFlight (delete (length (inFlight s)) (inFlight s1)) s1 in
  flush s = (s1, [Fetch (patchOf s)])
  /\ inFlight s1 !! length (inFlight s) = Some (patchOf s)
  /\ inFlight x = [] /\ awaitingClearDraft x = O
  /\ savingRef x = true /\ pendingSaveRef x = false
  /\ conflictRef x = None /\ conflictProject x = None
  /\ value x = value s /\ name x = name s
  /\ latestValueRef x = latestValueRef s /\ latestNameRef x = latestNameRef s
  /\ baselines x = baselines s /\ projectIdRef x = projectIdRef s
  /\ noFlushTimer x /\ timersInvariant x.
Proof.
  intros Hfl Hti Hc Hs Hd. cbv zeta.
  destruct (flush_sends s Hc Hs Hd)
    as (Hsnd & Hin & Hsv & Hpend & _ & Hc1 & Hcp1 & Hv & Hn & Hlv & Hln & Hb & Hl & Hlsn & Ha).
  cbv zeta in *.
  assert (Hempty : inFlight s = [] /\ awaitingClearDraft s = O).
  { destruct Hfl as (Hcount & _). rewrite Hs in Hcount.
    destruct (inFlight s); [split; [reflexivity|simpl in Hcount; lia]|].
    simpl in Hcount. lia. }
  destruct Hempty as [He Ha0].
  assert (Hcp : conflictProject s = None).
  { destruct Hfl as (_ & _ & Hsame). congruence. }
  assert (Hpid : projectIdRef (fst (flush s)) = projectIdRef s).
  { unfold flush. rewrite Hc, Hs.
    rewrite bool_decide_eq_false_2 by (intros [? ?]; discriminate).
    destruct (bool_decide _ && bool_decide _); [reflexivity|].
    cbv zeta. unfold fst.
    set (s2 := set_pendingSaveRef false (set_savingRef true s)).
    destruct (clearTimers_frame s2) as (_&_&_&_&_&_&_&_&_&_&Hp&_).
    transitivity (projectIdRef (clearTimers s2));
      [destruct (clearTimers s2); reflexivity|].
    rewrite Hp. destruct s; reflexivity. }
  pose proof (flush_timers s Hti) as Hti1.
  destruct (flush_quiet s Hti) as [Hnoop|[_ Hq1]].
  { exfalso. rewrite Hnoop in Hsv. simpl in Hsv. congruence. }
  rewrite He in *. simpl in Hin. simpl length.
  set (s1 := fst (flush s)) in *.
  assert (Hfl1 : flush s = (s1, [Fetch (patchOf s)])).
  { unfold s1. rewrite <- Hsnd. destruct (flush s); reflexivity. }
  clearbody s1. rewrite Hin. simpl delete.
  split; [exact Hfl1|]. split; [reflexivity|].
  assert (Ht : sameTimers s1 (set_inFlight [] s1)) by same_timers.
  assert (Hq : noFlushTimer (set_inFlight [] s1)).
  { intros t c Hlook. apply (Hq1 t c). destruct Ht as [<- _]. exact Hlook. }
  pose proof (sameTimers_invariant _ _ Ht Hti1) as Hti'.
  set (x := set_inFlight [] s1) in *.
  assert (Hx : inFlight x = [] /\ awaitingClearDraft x = awaitingClearDraft s1
               /\ savingRef x = savingRef s1 /\ pendingSaveRef x = pendingSaveRef s1
               /\ conflictRef x = conflictRef s1
               /\ conflictProject x = conflictProject s1
               /\ value x = value s1 /\ name x = name s1
               /\ latestValueRef x = latestValueRef s1
               /\ latestNameRef x = latestNameRef s1
               /\ baselines x = baselines s1 /\ projectIdRef x = projectIdRef s1)
    by (unfold x; destruct s1; repeat split).
  clearbody x.
  destruct Hx as (X1 & X2 & X3 & X4 & X5 & X6 & X7 & X8 & X9 & X10 & X11 & X12).
  assert (Hbase : baselines s1 = baselines s) by (unfold baselines; congruence).
  split_and!; try assumption; congruence.
Qed.

Lemma scheduleDraftWrite_arms (draft : Draft.t) (s : Session) :
  exists tid,
    draftTimerRef (scheduleDraftWrite draft s) = Some tid
    /\ timers (scheduleDraftWrite draft s) !! tid = Some (CbDraftWrite draft).
Proof.
  exists (nextTimer s). unfold scheduleDraftWrite, setTimeout, clearTimeout.
  destruct s; simpl. destruct draftTimerRef0; simpl;
    (split; [reflexivity | apply lookup_insert_eq]).
Qed.

Lemma resumed_conflict (now : Z) (latest : Project.t) (x : Session) :
  let r := flushResumed now (Res409 latest) x in
  snd r = [] /\ inConflict (fst r) latest
  /\ baselines (fst r) = baselines x
  /\ value (fst r) = value x /\ name (fst r) = name x
  /\ latestValueRef (fst r) = latestValueRef x
  /\ latestNameRef (fst r) = latestNameRef x
  /\ projectIdRef (fst r) = projectIdRef x
  /\ inFlight (fst r) = inFlight x
  /\ awaitingClearDraft (fst r) = awaitingClearDraft x
  /\ sameTimers x (fst r).
Proof.
  unfold flushResumed. cbv zeta. unfold fst, snd, flushFinally. cbv zeta.
  set (s3 := set_saveState Conflict _).
  assert (E : pendingSaveRef (set_savingRef false s3)
              && negb (bool_decide (is_Some (conflictRef (set_savingRef false s3))))
              = false).
  { replace (conflictRef (set_savingRef false s3)) with (Some latest)
      by (destruct x; reflexivity).
    rewrite bool_decide_eq_true_2 by eauto. apply andb_false_r. }
  rewrite E. unfold s3, inConflict, baselines, sameTimers.
  destruct x; simpl. repeat split.
Qed.

Lemma resumed_ok (now : Z) (u : Project.t) (x : Session) :
  pendingSaveRef x = false -> conflictRef x = None ->
  let r := flushResumed now (ResOk u) x in
  baselines (fst r) = (Project.revision u, Project.content u, Project.name u)
  /\ saveState (fst r) = Idle
  /\ conflictRef (fst r) = None /\ conflictProject (fst r) = conflictProject x
  /\ value (fst r) = value x /\ name (fst r) = name x
  /\ latestValueRef (fst r) = latestValueRef x
  /\ latestNameRef (fst r) = latestNameRef x
  /\ projectIdRef (fst r) = projectIdRef x
  /\ inFlight (fst r) = inFlight x
  /\ if bool_decide (latestValueRef x = Project.content u)
        && bool_decide (latestNameRef x = Project.name u)
     then snd r = [ClearDraft (projectIdRef x)]
          /\ savingRef (fst r) = savingRef x
          /\ awaitingClearDraft (fst r) = S (awaitingClearDraft x)
          /\ sameTimers x (fst r)
     else snd r = []
          /\ savingRef (fst r) = false
          /\ awaitingClearDraft (fst r) = awaitingClearDraft x
          /\ nothingScheduled x (fst r)
          /\ exists tid,
              draftTimerRef (fst r) = Some tid
              /\ timers (fst r) !! tid
                 = Some (CbDraftWrite
                           (Draft.mk (projectIdRef x) (latestValueRef x)
                                     (latestNameRef x) now (Project.revision u))).
Proof.
  intros Hpend Hc. unfold flushResumed. cbv zeta.
  set (s4 := set_saveState Idle _).
  assert (H4 : baselines s4 = (Project.revision u, Project.content u, Project.name u)
               /\ saveState s4 = Idle /\ conflictRef s4 = None
               /\ conflictProject s4 = conflictProject x
               /\ value s4 = value x /\ name s4 = name x
               /\ latestValueRef s4 = latestValueRef x
               /\ latestNameRef s4 = latestNameRef x
               /\ projectIdRef s4 = projectIdRef x /\ inFlight s4 = inFlight x
               /\ savingRef s4 = savingRef x
               /\ awaitingClearDraft s4 = awaitingClearDraft x
               /\ pendingSaveRef s4 = false /\ baseRevisionRef s4 = Project.revision u
               /\ sameTimers x s4).
  { unfold s4, baselines, sameTimers. destruct x; simpl in *. subst. repeat split. }
  clearbody s4.
  destruct H4 as (Hb & Hst & Hc4 & Hcp & Hv & Hn & Hlv & Hln & Hp & Hin & Hsv & Ha
                  & Hpend4 & Hrev & Ht).
  rewrite Hlv, Hln, Hp, Hrev.
  destruct (bool_decide (latestValueRef x = Project.content u)
            && bool_decide (latestNameRef x = Project.name u)); unfold fst, snd.
  - assert (H5 : forall y : Session,
               let y' := set_awaitingClearDraft (S (awaitingClearDraft y)) y in
               baselines y' = baselines y /\ saveState y' = saveState y
               /\ conflictRef y' = conflictRef y /\ conflictProject y' = conflictProject y
               /\ value y' = value y /\ name y' = name y
               /\ latestValueRef y' = latestValueRef y
               /\ latestNameRef y' = latestNameRef y
               /\ projectIdRef y' = projectIdRef y /\ inFlight y' = inFlight y
               /\ savingRef y' = savingRef y
               /\ awaitingClearDraft y' = S (awaitingClearDraft y)
               /\ sameTimers y y')
      by (intros []; unfold baselines, sameTimers; repeat split).
    destruct (H5 s4) as (Y1 & Y2 & Y3 & Y4 & Y5 & Y6 & Y7 & Y8 & Y9 & Y10 & Y11 & Y12 & Y13).
    cbv zeta in *.
    split_and!; try congruence.
    destruct Ht as (T1 & T2 & T3 & T4 & T5). destruct Y13 as (U1 & U2 & U3 & U4 & U5).
    unfold sameTimers. split_and!; congruence.
  - set (draft := Draft.mk _ _ _ _ _).
    destruct (scheduleDraftWrite_frame draft s4)
      as (D1&D2&D3&D4&D5&D6&D7&D8&D9&D10&D11&D12&D13&D14&D15&D16).
    pose proof (scheduleDraftWrite_nothingScheduled draft s4) as Dn.
    destruct (scheduleDraftWrite_arms draft s4) as (tid & Dt1 & Dt2).
    set (sd := scheduleDraftWrite draft s4) in *. clearbody sd.
    assert (Hfin : flushFinally sd = set_savingRef false sd).
    { unfold flushFinally. cbv zeta.
      replace (pendingSaveRef (set_savingRef false sd)) with false
        by (rewrite <- Hpend4, <- D13; destruct sd; reflexivity).
      reflexivity. }
    rewrite Hfin.
    assert (H6 : forall y : Session,
               let y' := set_savingRef false y in
               baselines y' = baselines y /\ saveState y' = saveState y
               /\ conflictRef y' = conflictRef y /\ conflictProject y' = conflictProject y
               /\ value y' = value y /\ name y' = name y
               /\ latestValueRef y' = latestValueRef y
               /\ latestNameRef y' = latestNameRef y
               /\ projectIdRef y' = projectIdRef y /\ inFlight y' = inFlight y
               /\ savingRef y' = false
               /\ awaitingClearDraft y' = awaitingClearDraft y
               /\ sameTimers y y')
      by (intros []; unfold baselines, sameTimers; repeat split).
    destruct (H6 sd) as (Y1 & Y2 & Y3 & Y4 & Y5 & Y6 & Y7 & Y8 & Y9 & Y10 & Y11 & Y12 & Y13).
    cbv zeta in *.
    assert (Hbd : baselines sd = baselines s4) by (unfold baselines; congruence).
    split_and!; try congruence.
    + apply (nothingScheduled_trans x sd); [|exact Y13].
      destruct Ht as (T1 & _ & T3 & T4 & _). destruct Dn as (Harm & Hd & Hm).
      split; [|split; congruence].
      intros t c Hl Hf. rewrite <- T1. exact (Harm t c Hl Hf).
    + exists tid. destruct Y13 as (U1 & _ & _ & _ & U5). rewrite U1, U5. auto.
Qed.

Lemma step_fetchEnds (now : Z) (i : nat) (res : FetchResult) (req : PatchRequest)
      (s : Session) :
  inFlight s !! i = Some req ->
  step (FetchEnds now i res) s
  = Some (flushResumed now res (set_inFlight (delete i (inFlight s)) s)).
Proof. intros H. simpl. rewrite H. reflexivity. Qed.

Lemma roundTrip_flush (env : Env) (now : Z) (s : Session) (db db' : Db)
      (res : Response) :
  flightInvariant s -> timersInvariant s ->
  conflictRef s = None -> savingRef s = false -> dirty s ->
  serve env (toRequest (patchOf s)) db = (res, db') ->
  let s1 := fst (flush s) in
  let x := set_inFlight (delete (length (inFlight s)) (inFlight s1)) s1 in
  let r := flushResumed now (fetchResult res) x in
  save env now s db = Some (fst r, snd r, db').
Proof.
  intros Hfl Hti Hc Hs Hd Hserve. cbv zeta.
  destruct (flush_started s Hfl Hti Hc Hs Hd) as (Hflush & Hin & _).
  cbv zeta in *. unfold save, roundTrip. rewrite Hflush, Hserve.
  rewrite (step_fetchEnds now _ _ _ _ Hin).
  destruct (flushResumed _ _ _). reflexivity.
Qed.

(** ** A save on the current revision *)

Lemma save_fresh (env : Env) (now : Z) (s : Session) (db : Db) (p : Project.t) :
  flightInvariant s -> timersInvariant s ->
  conflictRef s = None -> savingRef s = false -> dirty s ->
  projects db !! projectIdRef s = Some p ->
  Project.revision p = baseRevisionRef s ->
  reliable env -> snapshotIdFree env db ->
  let u := Project.mk (Project.id p) (Js.trim (latestNameRef s)) (Project.language p)
                      (latestValueRef s) (Project.revision p + 1)
                      (Project.createdAt p) (jsDate env) in
  exists s' cmds db',
    save env now s db = Some (s', cmds, db')
    /\ projects db' = <[projectIdRef s := u]> (projects db)
    /\ baselines s' = (Project.revision p + 1, latestValueRef s, Js.trim (latestNameRef s))
    /\ saveState s' = Idle /\ conflictRef s' = None
    /\ value s' = value s /\ name s' = name s
    /\ latestValueRef s' = latestValueRef s /\ latestNameRef s' = latestNameRef s
    /\ projectIdRef s' = projectIdRef s /\ inFlight s' = []
    /\ if bool_decide (Js.trim (latestNameRef s) = latestNameRef s)
       then cmds = [ClearDraft (projectIdRef s)]
            /\ ~ dirty s' /\ awaitingClearDraft s' = 1%nat
       else cmds = []
            /\ dirty s' /\ savingRef s' = false /\ noFlushTimer s'
            /\ exists tid,
                draftTimerRef s' = Some tid
                /\ timers s' !! tid
                   = Some (CbDraftWrite
                             (Draft.mk (projectIdRef s) (latestValueRef s)
                                       (latestNameRef s) now (Project.revision p + 1))).
Proof.
  intros Hfl Hti Hc Hs Hd Hp Hrev Hrel Hfree u.
  destruct (serve_fresh env (patchOf s) db p Hrel Hfree Hp Hrev) as (db' & Hserve & Hdb').
  pose proof (roundTrip_flush env now s db db' _ Hfl Hti Hc Hs Hd Hserve) as Hsave.
  destruct (flush_started s Hfl Hti Hc Hs Hd)
    as (_ & _ & Xin & Xa & Xsv & Xpend & Xc & Xcp & Xv & Xn & Xlv & Xln & Xb & Xp
        & Xq & _).
  cbv zeta in *.
  set (x := set_inFlight _ (fst (flush s))) in *. clearbody x.
  change (fetchResult (mkResponse 200 (Json _))) with (ResOk u) in Hsave.
  destruct (resumed_ok now u x Xpend Xc)
    as (Rb & Rst & Rc & _ & Rv & Rn & Rlv & Rln & Rp & Rin & Rcase).
  cbv zeta in *.
  set (r := flushResumed now (ResOk u) x) in *. clearbody r.
  exists (fst r), (snd r), db'. split; [exact Hsave|].
  split; [exact Hdb'|].
  change (Project.revision u, Project.content u, Project.name u)
    with (Project.revision p + 1, latestValueRef s, Js.trim (latestNameRef s)) in Rb.
  split_and!; try congruence.
  change (Project.content u) with (latestValueRef s) in Rcase.
  change (Project.name u) with (Js.trim (latestNameRef s)) in Rcase.
  change (Project.revision u) with (Project.revision p + 1) in Rcase.
  rewrite Xlv, Xln, Xp in Rcase.
  rewrite bool_decide_eq_true_2, andb_true_l in Rcase by reflexivity.
  assert (Hdirty : dirty (fst r) <-> latestNameRef s <> Js.trim (latestNameRef s)).
  { unfold dirty. unfold baselines in Rb. injection Rb as _ Hl Hln.
    rewrite Hl, Hln, Rlv, Rln, Xlv, Xln. simpl. tauto. }
  destruct (decide (latestNameRef s = Js.trim (latestNameRef s))) as [Heq|Hne].
  - rewrite (bool_decide_eq_true_2 _ Heq) in Rcase.
    rewrite bool_decide_eq_true_2 by congruence.
    destruct Rcase as (R1 & _ & R3 & _).
    split; [exact R1|]. split; [rewrite Hdirty; tauto | congruence].
  - rewrite (bool_decide_eq_false_2 _ Hne) in Rcase.
    rewrite bool_decide_eq_false_2 by congruence.
    destruct Rcase as (R1 & R2 & _ & (Harm & _) & R5).
    split; [exact R1|]. split; [rewrite Hdirty; exact Hne|]. split; [exact R2|].
    split; [|exact R5].
    apply (noFlushTimer_mono x); assumption.
Qed.

(** ** How the session reads the answers *)

(** X14.  The session reads the server's answers soundly.  The request of a
    flush is never rejected as malformed.  When the session takes the
    answer for a save, the store holds exactly the record it is given: its
    own text, its name trimmed, and the base revision plus one.  When it
    takes the answer for a conflict, the store is untouched and holds the
    record it is given, at another revision than the base.  Anything else
    (status 404 for a project that is not stored, status 500) is a
    failure. *)
Theorem answers_are_read_soundly (env : Env) (req : PatchRequest) (db : Db) :
  let res := fst (serve env (toRequest req) db) in
  let db' := snd (serve env (toRequest req) db) in
  status res <> 400
  /\ match fetchResult res with
     | ResOk u =>
         projects db' !! patch_projectId req = Some u
         /\ Project.revision u = patch_baseRevision req + 1
         /\ Project.content u = patch_content req
         /\ Project.name u = Js.trim (patch_name req)
         /\ exists p, projects db !! patch_projectId req = Some p
                      /\ Project.revision p = patch_baseRevision req
     | Res409 latest =>
         db' = db
         /\ projects db !! patch_projectId req = Some latest
         /\ Project.revision latest <> patch_baseRevision req
     | ResFailed =>
         (status res = 404 /\ db' = db /\ projects db !! patch_projectId req = None)
         \/ status res = 500
     end.
Proof.
  cbv zeta.
  destruct (patchBody_wellFormed req) as [Hwf Hname].
  unfold serve, toRequest.
  rewrite (patch_run env _ _ db _ _ Hwf), Hname. simpl fmap.
  destruct (fails env StmtUpdateProject); [split; [discriminate|right; reflexivity]|].
  destruct (projects db !! patch_projectId req) as [p|] eqn:Hp.
  - destruct (bool_decide (Project.revision p = patch_baseRevision req)) eqn:Hrev.
    + apply bool_decide_eq_true in Hrev.
      match goal with
      | |- context [maybeSnapshot ?e ?i ?rv ?cc ?d] =>
          pose proof (maybeSnapshot_projects e i rv cc d) as Hproj;
          destruct (maybeSnapshot e i rv cc d) as [[[]|] db1]
      end; simpl in *; (split; [discriminate|]); [|right; reflexivity].
      change (fetchResult (mkResponse 200 (Json ?u))) with (ResOk u).
      rewrite Hproj, lookup_insert_eq. eauto 8.
    + apply bool_decide_eq_false in Hrev.
      destruct (fails env StmtSelectCurrent); simpl;
        (split; [discriminate|]); [right; reflexivity|].
      change (fetchResult (mkResponse 409 (Json ?u))) with (Res409 u).
      auto.
  - destruct (fails env StmtSelectCurrent); simpl;
      (split; [discriminate|]); [right; reflexivity|].
    left. auto.
Qed.

(** X15.  A save on the current revision reaches the store.  From a
    session with nothing under way and a buffer that differs from what was
    saved, against a store that holds the project at the session's base
    revision: the store takes the session's text and its name trimmed at
    the next revision, and the session takes that record as its new
    baseline.  If the name had no white space at its ends the buffer is
    then clean and the draft is cleared.  Otherwise the buffer stays dirty
    in a session shown as [Idle]: a draft is written again, no save is
    scheduled, and every later flush sends the same text once more and
    moves the revision on. *)
Theorem save_reaches_the_store (env : Env) (now : Z) (s : Session) (db : Db)
        (p : Project.t) :
  flightInvariant s -> timersInvariant s ->
  conflictRef s = None -> savingRef s = false -> dirty s ->
  projects db !! projectIdRef s = Some p ->
  Project.revision p = baseRevisionRef s ->
  reliable env -> snapshotIdFree env db ->
  let u := Project.mk (Project.id p) (Js.trim (latestNameRef s)) (Project.language p)
                      (latestValueRef s) (Project.revision p + 1)
                      (Project.createdAt p) (jsDate env) in
  exists s' cmds db',
    save env now s db = Some (s', cmds, db')
    /\ projects db' = <[projectIdRef s := u]> (projects db)
    /\ baselines s' = (Project.revision p + 1, latestValueRef s, Js.trim (latestNameRef s))
    /\ saveState s' = Idle /\ conflictRef s' = None
    /\ value s' = value s /\ name s' = name s
    /\ latestValueRef s' = latestValueRef s /\ latestNameRef s' = latestNameRef s
    /\ if bool_decide (Js.trim (latestNameRef s) = latestNameRef s)
       then cmds = [ClearDraft (projectIdRef s)] /\ ~ dirty s'
       else cmds = []
            /\ dirty s' /\ savingRef s' = false /\ noFlushTimer s'
            /\ (exists tid,
                   draftTimerRef s' = Some tid
                   /\ timers s' !! tid
                      = Some (CbDraftWrite
                                (Draft.mk (projectIdRef s) (latestValueRef s)
                                          (latestNameRef s) now (Project.revision p + 1))))
            /\ snd (flush s')
               = [Fetch (mkPatch (projectIdRef s) (latestValueRef s)
                                 (Project.revision p + 1) (latestNameRef s))].
Proof.
  intros Hfl Hti Hc Hs Hd Hp Hrev Hrel Hfree u.
  destruct (save_fresh env now s db p Hfl Hti Hc Hs Hd Hp Hrev Hrel Hfree)
    as (s' & cmds & db' & Hsave & Hdb & Hb & Hst & Hc' & Hv & Hn & Hlv & Hln & Hpid
        & _ & Hcase).
  exists s', cmds, db'. split_and!; try assumption.
  destruct (bool_decide (Js.trim (latestNameRef s) = latestNameRef s)).
  - destruct Hcase as (H1 & H2 & _). auto.
  - destruct Hcase as (H1 & H2 & H3 & H4 & H5). split_and!; try assumption.
    destruct (flush_sends s' Hc' H3 H2) as [Hsend _]. rewrite Hsend.
    unfold patchOf. unfold baselines in Hb. injection Hb as Hrev' _ _.
    rewrite Hpid, Hlv, Hln, Hrev'. reflexivity.
Qed.

Lemma save_reaches_the_store_witness :
  let s := ExampleSession.after [ChangeName 1 "Notes "] (init Example.project) in
  dirty s
  /\ exists s' cmds db',
      save Example.env 2 s Example.db = Some (s', cmds, db')
      /\ baselines s' = (1, "old", "Notes")
      /\ saveState s' = Idle
      /\ cmds = [] /\ dirty s'
      /\ snd (flush s') = [Fetch (mkPatch "p-1" "old" 1 "Notes ")].
Proof.
  intros s.
  assert (Hinv : flightInvariant s /\ timersInvariant s).
  { apply (reachable_invariants Example.project).
    exists [ChangeName 1 "Notes "]. eexists. vm_compute. reflexivity. }
  assert (Hd : dirty s) by (right; vm_compute; discriminate).
  split; [exact Hd|].
  destruct (save_reaches_the_store Example.env 2 s Example.db Example.project
              (proj1 Hinv) (proj2 Hinv))
    as (s' & cmds & db' & Hsave & _ & Hb & Hst & _ & _ & _ & _ & _ & Hcase).
  - vm_compute. reflexivity.
  - vm_compute. reflexivity.
  - exact Hd.
  - vm_compute. reflexivity.
  - vm_compute. reflexivity.
  - intros st. reflexivity.
  - unfold snapshotIdFree. simpl. apply not_elem_of_nil.
  - exists s', cmds, db'. split; [exact Hsave|].
    split; [rewrite Hb; vm_compute; reflexivity|]. split; [exact Hst|].
    rewrite bool_decide_eq_false_2 in Hcase by (vm_compute; discriminate).
    destruct Hcase as (H1 & H2 & _ & _ & _ & H6).
    split; [exact H1|]. split; [exact H2|].
    rewrite H6. vm_compute. reflexivity.
Defined.

(** ** A save on a stale revision *)

Lemma save_stale (env : Env) (now : Z) (s : Session) (db : Db) (p : Project.t) :
  flightInvariant s -> timersInvariant s ->
  conflictRef s = None -> savingRef s = false -> dirty s ->
  projects db !! projectIdRef s = Some p ->
  Project.revision p <> baseRevisionRef s ->
  fails env StmtUpdateProject = false -> fails env StmtSelectCurrent = false ->
  exists s',
    save env now s db = Some (s', [], db)
    /\ inConflict s' p
    /\ baselines s' = baselines s
    /\ value s' = value s /\ name s' = name s
    /\ latestValueRef s' = latestValueRef s /\ latestNameRef s' = latestNameRef s
    /\ projectIdRef s' = projectIdRef s
    /\ inFlight s' = [] /\ awaitingClearDraft s' = O
    /\ noFlushTimer s' /\ timersInvariant s'.
Proof.
  intros Hfl Hti Hc Hs Hd Hp Hrev Hu Hsel.
  pose proof (serve_stale env (patchOf s) db p Hu Hsel Hp Hrev) as Hserve.
  pose proof (roundTrip_flush env now s db db _ Hfl Hti Hc Hs Hd Hserve) as Hsave.
  destruct (flush_started s Hfl Hti Hc Hs Hd)
    as (_ & _ & Xin & Xa & Xsv & Xpend & Xc & Xcp & Xv & Xn & Xlv & Xln & Xb & Xp
        & Xq & Xti).
  cbv zeta in *.
  set (x := set_inFlight _ (fst (flush s))) in *. clearbody x.
  change (fetchResult (mkResponse 409 (Json p))) with (Res409 p) in Hsave.
  destruct (resumed_conflict now p x)
    as (R1 & R2 & R3 & R4 & R5 & R6 & R7 & R8 & R9 & R10 & R11).
  cbv zeta in *.
  set (r := flushResumed now (Res409 p) x) in *. clearbody r.
  rewrite R1 in Hsave.
  exists (fst r). split; [exact Hsave|]. split; [exact R2|].
  split_and!; try congruence.
  - intros t c Hl. apply (Xq t c). destruct R11 as (<- & _). exact Hl.
  - exact (sameTimers_invariant _ _ R11 Xti).
Qed.

Lemma overwrite_is_save (env : Env) (now : Z) (s : Session) (db : Db)
      (server : Project.t) :
  conflictProject s = Some server ->
  overwrite env now s db
  = save env now
         (set_saveState Idle
            (set_conflictProject None
               (set_baseRevisionRef (Project.revision server)
                  (set_conflictRef None s)))) db.
Proof.
  intros Hcp. unfold overwrite, save, roundTrip, handleOverwriteServer.
  rewrite Hcp. cbv zeta.
  set (s4 := set_saveState Idle _).
  replace (inFlight s4) with (inFlight s) by (destruct s; reflexivity).
  reflexivity.
Qed.

(** X16.  A save on a stale base revision, and overwriting.  When the
    store holds the project at another revision than the session's base,
    the save changes nothing in the store and leaves the session in
    conflict with the stored record, its buffer and its base revision as
    they were.  If the user then chooses to overwrite while the store still
    holds that record, the store takes the session's text at the stored
    revision plus one, and the session takes that as its new baseline.  If
    the store has moved on again, overwriting changes nothing either and
    ends in a conflict with the newer record. *)
Theorem stale_save_then_overwrite (env env2 : Env) (now now2 : Z) (s : Session)
        (db : Db) (p : Project.t) :
  flightInvariant s -> timersInvariant s ->
  conflictRef s = None -> savingRef s = false -> dirty s ->
  projects db !! projectIdRef s = Some p ->
  Project.revision p <> baseRevisionRef s ->
  fails env StmtUpdateProject = false -> fails env StmtSelectCurrent = false ->
  reliable env2 -> snapshotIdFree env2 db ->
  exists s',
    save env now s db = Some (s', [], db)
    /\ inConflict s' p
    /\ baselines s' = baselines s
    /\ latestValueRef s' = latestValueRef s /\ latestNameRef s' = latestNameRef s
    /\ (exists s'' cmds db'' u,
           overwrite env2 now2 s' db = Some (s'', cmds, db'')
           /\ projects db'' !! projectIdRef s = Some u
           /\ Project.revision u = Project.revision p + 1
           /\ Project.content u = latestValueRef s
           /\ Project.name u = Js.trim (latestNameRef s)
           /\ baselines s''
              = (Project.revision u, Project.content u, Project.name u)
           /\ conflictRef s'' = None /\ saveState s'' = Idle)
    /\ (forall db2 p2,
           projects db2 !! projectIdRef s = Some p2 ->
           Project.revision p2 <> Project.revision p ->
           exists s'',
             overwrite env2 now2 s' db2 = Some (s'', [], db2)
             /\ inConflict s'' p2).
Proof.
  intros Hfl Hti Hc Hs Hd Hp Hrev Hu Hsel Hrel2 Hfree2.
  destruct (save_stale env now s db p Hfl Hti Hc Hs Hd Hp Hrev Hu Hsel)
    as (s' & Hsave & Hconf & Hb & Hv & Hn & Hlv & Hln & Hpid & Hin & Ha & Hq & Hti').
  exists s'. split; [exact Hsave|]. split; [exact Hconf|]. split; [exact Hb|].
  split; [exact Hlv|]. split; [exact Hln|].
  destruct Hconf as (Hcr & Hcp & Hst & Hsv).
  pose proof (fun d => overwrite_is_save env2 now2 s' d p Hcp) as Hover.
  set (s4 := set_saveState Idle _) in Hover.
  assert (H4 : inFlight s4 = [] /\ awaitingClearDraft s4 = O
               /\ savingRef s4 = false /\ conflictRef s4 = None
               /\ conflictProject s4 = None
               /\ latestValueRef s4 = latestValueRef s'
               /\ latestNameRef s4 = latestNameRef s'
               /\ lastSavedRef s4 = lastSavedRef s'
               /\ lastSavedNameRef s4 = lastSavedNameRef s'
               /\ baseRevisionRef s4 = Project.revision p
               /\ projectIdRef s4 = projectIdRef s'
               /\ sameTimers s' s4).
  { unfold s4, sameTimers. destruct s'; simpl in *. subst. repeat split. }
  clearbody s4.
  destruct H4 as (Y1 & Y2 & Y3 & Y4 & Y5 & Y6 & Y7 & Y8 & Y9 & Y10 & Y11 & Y12).
  assert (Hfl4 : flightInvariant s4).
  { unfold flightInvariant. rewrite Y1, Y2, Y3, Y4, Y5. split; [reflexivity|].
    split; [intros [? ?]; discriminate | reflexivity]. }
  assert (Hd4 : dirty s4).
  { unfold dirty, baselines in *. injection Hb as _ Hl' Hln'.
    rewrite Y6, Y7, Y8, Y9, Hlv, Hln, Hl', Hln'. exact Hd. }
  split.
  - rewrite Hover.
    destruct (save_fresh env2 now2 s4 db p Hfl4 (sameTimers_invariant _ _ Y12 Hti')
                Y4 Y3 Hd4)
      as (s'' & cmds & db'' & Hsave2 & Hdb2 & Hb2 & Hst2 & Hc2 & _);
      [congruence | congruence | exact Hrel2 | exact Hfree2 |].
    eexists s'', cmds, db'', _. split; [exact Hsave2|].
    split; [rewrite Hdb2, Y11, Hpid; apply lookup_insert_eq|].
    simpl. rewrite Hb2. split_and!; try reflexivity; try assumption; congruence.
  - intros db2 p2 Hp2 Hrev2. rewrite Hover.
    destruct (save_stale env2 now2 s4 db2 p2 Hfl4 (sameTimers_invariant _ _ Y12 Hti')
                Y4 Y3 Hd4)
      as (s'' & Hsave2 & Hconf2 & _);
      [congruence | congruence | apply Hrel2 | apply Hrel2 |].
    exists s''. split; assumption.
Qed.

Lemma stale_save_then_overwrite_witness :
  let s := ExampleSession.after [ChangeValue 1 "mine"] (init Example.project) in
  let db := mkDb {[ "p-1" := ExampleSession.theirs ]} [] in
  exists s',
    save Example.env 2 s db = Some (s', [], db)
    /\ inConflict s' ExampleSession.theirs
    /\ exists s'' cmds db'' u,
        overwrite Example.envLater 3 s' db = Some (s'', cmds, db'')
        /\ projects db'' !! "p-1" = Some u
        /\ Project.revision u = 6
        /\ Project.content u = "mine".
Proof.
  intros s db.
  assert (Hinv : flightInvariant s /\ timersInvariant s).
  { apply (reachable_invariants Example.project).
    exists [ChangeValue 1 "mine"]. eexists. vm_compute. reflexivity. }
  destruct (stale_save_then_overwrite Example.env Example.envLater 2 3 s db
              ExampleSession.theirs (proj1 Hinv) (proj2 Hinv))
    as (s' & Hsave & Hconf & _ & _ & _ & (s'' & cmds & db'' & u & Hover & Hu & Hrev
        & Hcontent & _) & _).
  - vm_compute. reflexivity.
  - vm_compute. reflexivity.
  - left. vm_compute. discriminate.
  - vm_compute. reflexivity.
  - vm_compute. discriminate.
  - reflexivity.
  - reflexivity.
  - intros st. reflexivity.
  - unfold snapshotIdFree. simpl. apply not_elem_of_nil.
  - exists s'. split; [exact Hsave|]. split; [exact Hconf|].
    exists s'', cmds, db'', u. split; [exact Hover|].
    split; [exact Hu|]. split; [exact Hrev | exact Hcontent].
Defined.

(** ** An answer that is lost *)

Lemma resumed_failed (now : Z) (x : Session) :
  pendingSaveRef x = false ->
  flushResumed now ResFailed x = (set_savingRef false (set_saveState Error x), []).
Proof.
  intros Hpend. unfold flushResumed, flushFinally. cbv zeta.
  replace (pendingSaveRef (set_savingRef false (set_saveState Error x))) with false
    by (rewrite <- Hpend; destruct x; reflexivity).
  reflexivity.
Qed.

(** X17.  A save whose answer is lost comes back as a conflict with
    itself.  If the server stores the save but the request ends in a
    failure for the session (the connection drops, or the snapshot insert
    throws after the update), the session keeps its old base revision, and
    its next flush sends the same request again; the server, now one
    revision on, answers 409 with the record that holds the session's own
    text, and the session shows a conflict although nobody else wrote. *)
Theorem lost_answer_conflicts_with_itself (env env2 : Env) (now now2 : Z)
        (s : Session) (db : Db) (p : Project.t) :
  flightInvariant s -> timersInvariant s ->
  conflictRef s = None -> savingRef s = false -> dirty s ->
  projects db !! projectIdRef s = Some p ->
  Project.revision p = baseRevisionRef s ->
  fails env StmtUpdateProject = false ->
  fails env2 StmtUpdateProject = false -> fails env2 StmtSelectCurrent = false ->
  let s1 := fst (flush s) in
  let db1 := snd (serve env (toRequest (patchOf s)) db) in
  exists s2 s3 u,
    step (FetchEnds now (length (inFlight s)) ResFailed) s1 = Some (s2, [])
    /\ saveState s2 = Error
    /\ projects db1 !! projectIdRef s = Some u
    /\ Project.content u = latestValueRef s
    /\ Project.name u = Js.trim (latestNameRef s)
    /\ Project.revision u = baseRevisionRef s + 1
    /\ save env2 now2 s2 db1 = Some (s3, [], db1)
    /\ inConflict s3 u
    /\ latestValueRef s3 = Project.content u.
Proof.
  intros Hfl Hti Hc Hs Hd Hp Hrev Hu Hu2 Hsel2. cbv zeta.
  destruct (flush_started s Hfl Hti Hc Hs Hd)
    as (_ & Hin & Xin & Xa & Xsv & Xpend & Xc & Xcp & Xv & Xn & Xlv & Xln & Xb & Xp
        & Xq & Xti).
  cbv zeta in *.
  rewrite (step_fetchEnds now _ _ _ _ Hin).
  set (x := set_inFlight _ (fst (flush s))) in *. clearbody x.
  rewrite (resumed_failed now x Xpend).
  set (s2 := set_savingRef false (set_saveState Error x)).
  assert (H2 : saveState s2 = Error /\ inFlight s2 = [] /\ awaitingClearDraft s2 = O
               /\ savingRef s2 = false /\ conflictRef s2 = None
               /\ conflictProject s2 = None
               /\ latestValueRef s2 = latestValueRef s
               /\ latestNameRef s2 = latestNameRef s
               /\ baselines s2 = baselines s
               /\ projectIdRef s2 = projectIdRef s
               /\ sameTimers x s2).
  { unfold s2, sameTimers, baselines in *. destruct x; simpl in *. subst.
    repeat split; assumption. }
  clearbody s2.
  destruct H2 as (Y1 & Y2 & Y3 & Y4 & Y5 & Y6 & Y7 & Y8 & Y9 & Y10 & Y11).
  (* what the server stored *)
  assert (Hstored : exists u,
             projects (snd (serve env (toRequest (patchOf s)) db)) !! projectIdRef s
             = Some u
             /\ Project.content u = latestValueRef s
             /\ Project.name u = Js.trim (latestNameRef s)
             /\ Project.revision u = baseRevisionRef s + 1).
  { destruct (patchBody_wellFormed (patchOf s)) as [Hwf Hname].
    unfold serve, toRequest.
    rewrite (patch_run env _ _ db _ _ Hwf), Hname, Hu. simpl fmap.
    change (patch_projectId (patchOf s)) with (projectIdRef s).
    rewrite Hp. change (patch_baseRevision (patchOf s)) with (baseRevisionRef s).
    rewrite bool_decide_eq_true_2 by exact Hrev.
    match goal with
    | |- context [maybeSnapshot ?e ?i ?rv ?cc ?d] =>
        pose proof (maybeSnapshot_projects e i rv cc d) as Hproj;
        destruct (maybeSnapshot e i rv cc d) as [[[]|] db1]
    end; simpl in *; rewrite Hproj, lookup_insert_eq; eauto. }
  destruct Hstored as (u & Hlook & Hcontent & Hname & Hrevu).
  set (db1 := snd (serve env (toRequest (patchOf s)) db)) in *. clearbody db1.
  assert (Hfl2 : flightInvariant s2).
  { unfold flightInvariant. rewrite Y2, Y3, Y4, Y5, Y6. split; [reflexivity|].
    split; [intros [? ?]; discriminate | reflexivity]. }
  assert (Hd2 : dirty s2).
  { unfold dirty, baselines in *. injection Y9 as _ Hl' Hln'.
    rewrite Y7, Y8, Hl', Hln'. exact Hd. }
  assert (Hbase2 : baseRevisionRef s2 = baseRevisionRef s).
  { unfold baselines in Y9. injection Y9 as H _ _. exact H. }
  destruct (save_stale env2 now2 s2 db1 u Hfl2 (sameTimers_invariant _ _ Y11 Xti)
              Y5 Y4 Hd2)
    as (s3 & Hsave & Hconf & _ & _ & _ & Hlv3 & _);
    [congruence | rewrite Hrevu, Hbase2; lia | exact Hu2 | exact Hsel2 |].
  exists s2, s3, u. split_and!; try assumption; try reflexivity. congruence.
Qed.

Lemma lost_answer_conflicts_with_itself_witness :
  let s := ExampleSession.after [ChangeValue 1 "mine"] (init Example.project) in
  let db1 := snd (serve Example.envSnapshotDown (toRequest (patchOf s)) Example.db) in
  status (fst (serve Example.envSnapshotDown (toRequest (patchOf s)) Example.db)) = 500
  /\ exists s2 s3 u,
      step (FetchEnds 2 0 ResFailed) (fst (flush s)) = Some (s2, [])
      /\ save Example.envLater 3 s2 db1 = Some (s3, [], db1)
      /\ inConflict s3 u
      /\ Project.content u = "mine"
      /\ latestValueRef s3 = "mine".
Proof.
  intros s db1.
  split; [vm_compute; reflexivity|].
  assert (Hinv : flightInvariant s /\ timersInvariant s).
  { apply (reachable_invariants Example.project).
    exists [ChangeValue 1 "mine"]. eexists. vm_compute. reflexivity. }
  destruct (lost_answer_conflicts_with_itself Example.envSnapshotDown Example.envLater
              2 3 s Example.db Example.project (proj1 Hinv) (proj2 Hinv))
    as (s2 & s3 & u & Hstep & _ & _ & Hcontent & _ & _ & Hsave & Hconf & Hlv).
  - vm_compute. reflexivity.
  - vm_compute. reflexivity.
  - left. vm_compute. discriminate.
  - vm_compute. reflexivity.
  - vm_compute. reflexivity.
  - reflexivity.
  - reflexivity.
  - reflexivity.
  - exists s2, s3, u. split; [exact Hstep|]. split; [exact Hsave|].
    split; [exact Hconf|]. split; [exact Hcontent|].
    rewrite Hlv. exact Hcontent.
Defined.

(** ** Two sessions on one project *)

(** X23.  Of two sessions that save from the same revision, the first
    wins and the second is told.  Two sessions (two tabs) hold the same
    project at the revision the store has, each with text of its own.
    The first save reaches the store.  The second save then changes
    nothing: the store keeps the first session's text, and the second
    session is in conflict with exactly that record, its own buffer and
    base revision untouched, so that no text is lost without notice. *)
Theorem second_tab_conflicts (envA envB : Env) (nowA nowB : Z) (a b : Session)
        (db : Db) (p : Project.t) :
  flightInvariant a -> timersInvariant a ->
  conflictRef a = None -> savingRef a = false -> dirty a ->
  flightInvariant b -> timersInvariant b ->
  conflictRef b = None -> savingRef b = false -> dirty b ->
  projectIdRef b = projectIdRef a ->
  projects db !! projectIdRef a = Some p ->
  Project.revision p = baseRevisionRef a ->
  Project.revision p = baseRevisionRef b ->
  reliable envA -> snapshotIdFree envA db ->
  fails envB StmtUpdateProject = false -> fails envB StmtSelectCurrent = false ->
  exists a' cmds db1 b' u,
    save envA nowA a db = Some (a', cmds, db1)
    /\ save envB nowB b db1 = Some (b', [], db1)
    /\ projects db1 !! projectIdRef a = Some u
    /\ Project.content u = latestValueRef a
    /\ Project.name u = Js.trim (latestNameRef a)
    /\ Project.revision u = Project.revision p + 1
    /\ baseRevisionRef a' = Project.revision u
    /\ inConflict b' u
    /\ baselines b' = baselines b
    /\ latestValueRef b' = latestValueRef b /\ latestNameRef b' = latestNameRef b.
Proof.
  intros Hfa Hta Hca Hsa Hda Hfb Htb Hcb Hsb Hdb Hpid Hp HrevA HrevB Hrel Hfree Hu Hsel.
  destruct (save_fresh envA nowA a db p Hfa Hta Hca Hsa Hda Hp HrevA Hrel Hfree)
    as (a' & cmds & db1 & HsaveA & Hdb1 & Hba & _).
  set (u := Project.mk _ _ _ _ _ _ _) in Hdb1.
  assert (Hlook : projects db1 !! projectIdRef b = Some u).
  { rewrite Hdb1, Hpid. apply lookup_insert_eq. }
  destruct (save_stale envB nowB b db1 u Hfb Htb Hcb Hsb Hdb Hlook)
    as (b' & HsaveB & Hconf & Hbb & _ & _ & Hlv & Hln & _);
    [unfold u; simpl; lia | exact Hu | exact Hsel |].
  exists a', cmds, db1, b', u.
  split; [exact HsaveA|]. split; [exact HsaveB|].
  split; [rewrite <- Hpid; exact Hlook|].
  split; [reflexivity|]. split; [reflexivity|]. split; [reflexivity|].
  split; [unfold baselines in Hba; injection Hba as H _ _; exact H|].
  split_and!; assumption.
Qed.

Lemma second_tab_conflicts_witness :
  let a := ExampleSession.after [ChangeValue 1 "first"] (init Example.project) in
  let b := ExampleSession.after [ChangeValue 2 "second"] (init Example.project) in
  exists a' cmds db1 b' u,
    save Example.env 3 a Example.db = Some (a', cmds, db1)
    /\ save Example.envLater 4 b db1 = Some (b', [], db1)
    /\ projects db1 !! "p-1" = Some u
    /\ Project.content u = "first"
    /\ inConflict b' u
    /\ latestValueRef b' = "second".
Proof.
  intros a b.
  assert (Ha : flightInvariant a /\ timersInvariant a).
  { apply (reachable_invariants Example.project).
    exists [ChangeValue 1 "first"]. eexists. vm_compute. reflexivity. }
  assert (Hb : flightInvariant b /\ timersInvariant b).
  { apply (reachable_invariants Example.project).
    exists [ChangeValue 2 "second"]. eexists. vm_compute. reflexivity. }
  destruct (second_tab_conflicts Example.env Example.envLater 3 4 a b Example.db
              Example.project (proj1 Ha) (proj2 Ha))
    as (a' & cmds & db1 & b' & u & H1 & H2 & H3 & H4 & _ & _ & _ & H8 & _ & H10 & _).
  - vm_compute. reflexivity.
  - vm_compute. reflexivity.
  - left. vm_compute. discriminate.
  - exact (proj1 Hb).
  - exact (proj2 Hb).
  - vm_compute. reflexivity.
  - vm_compute. reflexivity.
  - left. vm_compute. discriminate.
  - vm_compute. reflexivity.
  - vm_compute. reflexivity.
  - vm_compute. reflexivity.
  - vm_compute. reflexivity.
  - intros st. reflexivity.
  - unfold snapshotIdFree. simpl. apply not_elem_of_nil.
  - reflexivity.
  - reflexivity.
  - exists a', cmds, db1, b', u. split_and!; assumption.
Defined.
(** * The session and the draft store *)

Import Client ClientSpec SessionSpec.

(** X18.  Reloading the server's version leaves an armed draft write
    armed.  In a conflict, an edit arms a draft write; if the user reloads
    before it fires, the draft is cleared at once and written again when
    the timer fires, with the text that was just given up.  At the next
    mount on the same record that draft is offered for restoring when it
    differs from the record and is newer. *)
Theorem reload_keeps_the_draft_write (now : Z) (s : Session) (server : Project.t)
        (tid : nat) (draft : Draft.t) (st : Drafts.Store) :
  inConflict s server ->
  timers s !! tid = Some (CbDraftWrite draft) ->
  Draft.projectId draft = projectIdRef s ->
  let cmds := [ClearDraft (projectIdRef s); SetDraft draft] in
  let st' := Drafts.performAll true cmds st in
  exists s',
    run [ReloadClicked now; TimerFires tid] s = Some (s', cmds)
    /\ value s' = Project.content server /\ name s' = Project.name server
    /\ ~ dirty s'
    /\ Drafts.getDraft true (projectIdRef s) st' = Some (Some (Drafts.ofDraft draft))
    /\ Drafts.draftFound server (Drafts.getDraft true (projectIdRef s) st')
       = if bool_decide (Draft.content draft = Project.content server)
            && bool_decide (Draft.name draft = Project.name server)
         then Drafts.Cleared
         else if Draft.updatedAt draft <=? Project.updatedAt server then Drafts.Ignored
              else Drafts.Offered draft.
Proof.
  intros Hconf Hl Hpid. cbv zeta.
  destruct (reload_adopts_server now s server Hconf)
    as (Hcmd & Hv & Hn & Hlv & Hln & Hls & Hlsn & _ & _ & _ & _ & _ & _ & Ht).
  cbv zeta in *.
  assert (Hstep : step (ReloadClicked now) s
                  = Some (fst (handleReloadFromServer now s),
                          [ClearDraft (projectIdRef s)])).
  { simpl. rewrite <- Hcmd. destruct (handleReloadFromServer now s). reflexivity. }
  set (s1 := fst (handleReloadFromServer now s)) in *. clearbody s1.
  assert (Hl1 : timers s1 !! tid = Some (CbDraftWrite draft)).
  { destruct Ht as (-> & _). exact Hl. }
  exists (set_timers (delete tid (timers s1)) s1).
  split.
  { unfold run. rewrite Hstep. simpl step. rewrite Hl1. reflexivity. }
  split; [destruct s1; exact Hv|]. split; [destruct s1; exact Hn|].
  split.
  { unfold dirty. intros [H|H]; apply H; destruct s1; simpl in *; congruence. }
  assert (Hget : Drafts.getDraft true (projectIdRef s)
                   (Drafts.performAll true [ClearDraft (projectIdRef s); SetDraft draft] st)
                 = Some (Some (Drafts.ofDraft draft))).
  { rewrite <- Hpid.
    change (Some (<[Draft.projectId draft := Drafts.ofDraft draft]>
                    (delete (Draft.projectId draft) st) !! Draft.projectId draft)
            = Some (Some (Drafts.ofDraft draft))).
    rewrite lookup_insert_eq. reflexivity. }
  split; [exact Hget|].
  rewrite Hget. unfold Drafts.draftFound. simpl.
  destruct (bool_decide (Draft.content draft = Project.content server)
            && bool_decide (Draft.name draft = Project.name server)); [reflexivity|].
  destruct (Draft.updatedAt draft <=? Project.updatedAt server); [reflexivity|].
  destruct draft; reflexivity.
Qed.

Lemma reload_keeps_the_draft_write_witness :
  let s := ExampleSession.after [ChangeValue 5 "mine again"] ExampleSession.conflicted in
  let draft := Draft.mk "p-1" "mine again" "Notes" 5 0 in
  inConflict s ExampleSession.theirs
  /\ timers s !! 4%nat = Some (CbDraftWrite draft)
  /\ exists s',
      run [ReloadClicked 6; TimerFires 4] s
      = Some (s', [ClearDraft "p-1"; SetDraft draft])
      /\ value s' = "theirs"
      /\ Drafts.getDraft true "p-1" (Drafts.performAll true [ClearDraft "p-1"; SetDraft draft] ∅)
         = Some (Some (Drafts.ofDraft draft)).
Proof.
  intros s draft.
  assert (Hc : inConflict s ExampleSession.theirs) by (vm_compute; repeat split).
  assert (Hl : timers s !! 4%nat = Some (CbDraftWrite draft)) by (vm_compute; reflexivity).
  split; [exact Hc|]. split; [exact Hl|].
  destruct (reload_keeps_the_draft_write 6 s ExampleSession.theirs 4 draft ∅ Hc Hl)
    as (s' & Hrun & Hv & _ & _ & Hget & _); [vm_compute; reflexivity|].
  exists s'. split; [exact Hrun|]. split; [exact Hv | exact Hget].
Defined.

(** ** Timer identifiers *)

Import DraftSpec.

Section TimerInvariant.

Variable P : Session -> Prop.
Hypothesis P_same : forall s s', sameTimers s s' -> P s -> P s'.
Hypothesis P_clearTimers : forall s, P s -> P (clearTimers s).
Hypothesis P_draft : forall draft s, P s -> P (scheduleDraftWrite draft s).
Hypothesis P_save : forall s, P s -> P (scheduleServerSave s).
Hypothesis P_fired : forall tid s, P s -> P (set_timers (delete tid (timers s)) s).

Lemma flush_preserves (s : Session) : P s -> P (fst (flush s)).
Proof.
  intros Hinv. unfold flush.
  destruct (bool_decide _); [exact Hinv|].
  destruct (savingRef s); [exact Hinv|].
  destruct (_ && _); [exact Hinv|]. simpl.
  eapply (P_same (clearTimers (set_pendingSaveRef false (set_savingRef true s))));
    [same_timers|].
  apply P_clearTimers.
  eapply P_same; [|exact Hinv]. same_timers.
Qed.

Lemma flushFinally_preserves (s : Session) : P s -> P (flushFinally s).
Proof.
  intros Hinv.
  assert (H1 : P (set_savingRef false s)).
  { eapply P_same; [|exact Hinv]. same_timers. }
  unfold flushFinally. destruct (_ && _); [|exact H1].
  apply P_save, H1.
Qed.

Lemma changeEffect_preserves (now : Z) (s : Session) : P s -> P (changeEffect now s).
Proof.
  intros Hinv. unfold changeEffect.
  assert (H1 : P (set_latestNameRef (name (set_latestValueRef (value s) s))
                                    (set_latestValueRef (value s) s))).
  { eapply P_same; [|exact Hinv]. same_timers. }
  destruct (_ && _); [exact H1|].
  match goal with
  | |- context [scheduleDraftWrite ?d ?x] =>
      pose proof (P_draft d x H1) as H2;
      generalize dependent (scheduleDraftWrite d x)
  end.
  intros s3 H3.
  destruct (bool_decide _); [exact H3|].
  destruct (savingRef s3).
  - eapply P_same; [|exact H3]. same_timers.
  - apply P_save, H3.
Qed.

Lemma rendered_preserves (now : Z) (before s : Session) :
  P s -> P (rendered now before s).
Proof.
  intros Hinv. unfold rendered. destruct (_ && _); [exact Hinv|].
  apply changeEffect_preserves, Hinv.
Qed.

Lemma flushResumed_preserves (now : Z) (res : FetchResult) (s : Session) :
  P s -> P (fst (flushResumed now res s)).
Proof.
  intros Hinv. destruct res as [latest| |updated]; simpl.
  - apply flushFinally_preserves.
    eapply P_same; [|exact Hinv]. same_timers.
  - apply flushFinally_preserves.
    eapply P_same; [|exact Hinv]. same_timers.
  - destruct (_ && _); simpl.
    + eapply P_same; [|exact Hinv]. same_timers.
    + apply flushFinally_preserves, P_draft.
      eapply P_same; [|exact Hinv]. same_timers.
Qed.

Lemma step_preserves (e : Event) (s s' : Session) (cmds : list Cmd) :
  P s -> step e s = Some (s', cmds) -> P s'.
Proof.
  intros Hinv Hstep. destruct e as [now text|now text|tid| |now i res| |draft|now| |now| ];
    simpl in Hstep.
  - injection Hstep as <- _. apply rendered_preserves.
    eapply P_same; [|exact Hinv]. same_timers.
  - injection Hstep as <- _. apply rendered_preserves.
    eapply P_same; [|exact Hinv]. same_timers.
  - destruct (timers s !! tid) as [cb|]; [|discriminate].
    pose proof (P_fired tid s Hinv) as Hinv1.
    destruct cb.
    + injection Hstep as <- _. exact Hinv1.
    + flush_result Hstep. apply flush_preserves, Hinv1.
    + flush_result Hstep. apply flush_preserves, Hinv1.
  - flush_result Hstep. apply flush_preserves, Hinv.
  - destruct (inFlight s !! i); [|discriminate].
    flush_result Hstep. apply flushResumed_preserves.
    eapply P_same; [|exact Hinv]. same_timers.
  - destruct (awaitingClearDraft s); [discriminate|].
    injection Hstep as <- _. apply flushFinally_preserves.
    eapply P_same; [|exact Hinv]. same_timers.
  - injection Hstep as <- _.
    eapply P_same; [|exact Hinv]. same_timers.
  - unfold handleRestore in Hstep. destruct (restoreDraft s).
    + injection Hstep as <- _. apply rendered_preserves.
      eapply P_same; [|exact Hinv]. same_timers.
    + injection Hstep as <- _. exact Hinv.
  - unfold handleDiscardDraft in Hstep. destruct (restoreDraft s).
    + injection Hstep as <- _.
      eapply P_same; [|exact Hinv]. same_timers.
    + injection Hstep as <- _. exact Hinv.
  - unfold handleReloadFromServer in Hstep. destruct (conflictProject s).
    + injection Hstep as <- _. apply rendered_preserves.
      eapply P_same; [|exact Hinv]. same_timers.
    + injection Hstep as <- _. exact Hinv.
  - unfold handleOverwriteServer in Hstep. destruct (conflictProject s).
    + flush_result Hstep. apply flush_preserves.
      eapply P_same; [|exact Hinv]. same_timers.
    + injection Hstep as <- _. exact Hinv.
Qed.

End TimerInvariant.

Lemma sameTimers_refs (s s' : Session) : sameTimers s s' -> refsOk s -> refsOk s'.
Proof. unfold sameTimers, refsOk. intros (_ & -> & -> & -> & ->). trivial. Qed.

Lemma clearTimers_refs (s : Session) : refsOk s -> refsOk (clearTimers s).
Proof.
  intros (B1 & B2 & B3 & D1 & D2 & D3). unfold refsOk, clearTimers, clearTimeout.
  destruct s; simpl in *.
  destruct debounceRef0, maxFlushRef0; simpl; split_and!;
    solve [assumption | discriminate | intros; discriminate].
Qed.

Lemma scheduleDraftWrite_refs (draft : Draft.t) (s : Session) :
  refsOk s -> refsOk (scheduleDraftWrite draft s).
Proof.
  intros (B1 & B2 & B3 & D1 & D2 & D3).
  unfold refsOk, scheduleDraftWrite, setTimeout, clearTimeout.
  destruct s; simpl in *.
  destruct draftTimerRef0; simpl; split_and!; intros t Ht;
    try (pose proof (B1 t Ht)); try (pose proof (B2 t Ht));
    try (injection Ht as <-); try (intros [= <-]); try lia; eauto.
Qed.

Lemma scheduleServerSave_refs (s : Session) : refsOk s -> refsOk (scheduleServerSave s).
Proof.
  intros (B1 & B2 & B3 & D1 & D2 & D3).
  unfold refsOk, scheduleServerSave, setTimeout, clearTimeout.
  destruct s; simpl in *.
  destruct (bool_decide (is_Some conflictRef0)); [split_and!; assumption|].
  destruct debounceRef0, maxFlushRef0; simpl; split_and!; intros t Ht;
    try (pose proof (B2 t Ht)); try (pose proof (B3 t Ht));
    try (injection Ht as <-); try (intros [= <-]);
    try (specialize (B2 _ eq_refl)); try (specialize (B3 _ eq_refl));
    try lia; eauto;
    intros E; first [apply B3 in E | injection E as E]; lia.
Qed.

Lemma step_refs (e : Event) (s s' : Session) (cmds : list Cmd) :
  refsOk s -> step e s = Some (s', cmds) -> refsOk s'.
Proof.
  apply (step_preserves refsOk).
  - exact sameTimers_refs.
  - exact clearTimers_refs.
  - exact scheduleDraftWrite_refs.
  - exact scheduleServerSave_refs.
  - intros tid x H. destruct x; exact H.
Qed.

Lemma reachable_refs (project : Project.t) (s : Session) :
  reachable project s -> refsOk s.
Proof.
  intros (es & cmds & Hrun).
  assert (H0 : refsOk (init project))
    by (unfold refsOk; simpl; split_and!; intros; discriminate).
  revert H0 Hrun. generalize (init project). revert cmds.
  induction es as [|e es IH]; intros cmds s0 H0 Hrun.
  - injection Hrun as <- _. exact H0.
  - apply run_cons in Hrun as (s1 & c1 & c2 & Hstep & Hrun & _).
    exact (IH c2 s1 (step_refs e s0 s1 c1 H0 Hstep) Hrun).
Qed.

(** ** What the drafts protect *)






















(** ** The bounding timer *)

Lemma scheduleDraftWrite_lookup (draft : Draft.t) (s : Session) (tid : nat) :
  refsOk s -> maxFlushRef s = Some tid ->
  timers (scheduleDraftWrite draft s) !! tid = timers s !! tid
  /\ maxFlushRef (scheduleDraftWrite draft s) = Some tid.
Proof.
  intros (_ & B2 & _ & _ & _ & D3) Hm.
  pose proof (B2 tid Hm) as Hlt. pose proof (D3 tid Hm) as Hne.
  unfold scheduleDraftWrite, setTimeout, clearTimeout. destruct s; simpl in *.
  destruct draftTimerRef0 as [w|]; simpl; (split; [|exact Hm]);
    rewrite lookup_insert_ne by lia; [|reflexivity].
  apply lookup_delete_ne. congruence.
Qed.

Lemma scheduleServerSave_lookup (s : Session) (tid : nat) :
  refsOk s -> maxFlushRef s = Some tid ->
  timers (scheduleServerSave s) !! tid = timers s !! tid
  /\ maxFlushRef (scheduleServerSave s) = Some tid.
Proof.
  intros (_ & B2 & _ & D1 & _ & _) Hm.
  pose proof (B2 tid Hm) as Hlt.
  unfold scheduleServerSave, setTimeout, clearTimeout. destruct s; simpl in *. subst.
  destruct (bool_decide (is_Some conflictRef0)); [split; reflexivity|].
  destruct debounceRef0 as [d|]; simpl; (split; [|reflexivity]);
    rewrite lookup_insert_ne by lia; [|reflexivity].
  apply lookup_delete_ne. intros ->. exact (D1 tid eq_refl eq_refl).
Qed.

Lemma changeEffect_lookup (now : Z) (s : Session) (tid : nat) :
  refsOk s -> maxFlushRef s = Some tid ->
  timers (changeEffect now s) !! tid = timers s !! tid
  /\ maxFlushRef (changeEffect now s) = Some tid.
Proof.
  intros Href Hm. rewrite changeEffect_unfold. cbv zeta.
  set (s2 := set_latestNameRef (name s) (set_latestValueRef (value s) s)).
  assert (H2 : maxFlushRef s2 = Some tid /\ timers s2 = timers s /\ sameTimers s s2)
    by (unfold s2, sameTimers; destruct s; repeat split; exact Hm).
  clearbody s2. destruct H2 as (Hm2 & Ht2 & Hs2).
  pose proof (sameTimers_refs _ _ Hs2 Href) as Href2.
  destruct (bool_decide (value s = lastSavedRef s)
            && bool_decide (name s = lastSavedNameRef s));
    [rewrite Ht2; split; [reflexivity|exact Hm2]|].
  set (draft := Draft.mk _ _ _ _ _).
  destruct (scheduleDraftWrite_lookup draft s2 tid Href2 Hm2) as [Ht3 Hm3].
  pose proof (scheduleDraftWrite_refs draft s2 Href2) as Href3.
  set (s3 := scheduleDraftWrite draft s2) in *. clearbody s3.
  rewrite <- Ht2, <- Ht3.
  destruct (bool_decide (is_Some (conflictRef s))); [split; [reflexivity|exact Hm3]|].
  destruct (savingRef s).
  - destruct s3; split; [reflexivity|exact Hm3].
  - apply scheduleServerSave_lookup; assumption.
Qed.

Lemma edit_lookup (e : Event) (s s' : Session) (cmds : list Cmd) (tid : nat) :
  isEdit e = true -> refsOk s -> maxFlushRef s = Some tid ->
  step e s = Some (s', cmds) ->
  cmds = [] /\ timers s' !! tid = timers s !! tid /\ maxFlushRef s' = Some tid.
Proof.
  intros He Href Hm Hstep.
  assert (Hr : forall now x, sameTimers s x ->
                 timers (rendered now s x) !! tid = timers s !! tid
                 /\ maxFlushRef (rendered now s x) = Some tid).
  { intros now x Hx. pose proof (sameTimers_refs _ _ Hx Href) as Hrx.
    destruct Hx as (Ht & _ & _ & Hmx & _). rewrite Hm in Hmx.
    unfold rendered.
    destruct (bool_decide (value x = value s) && bool_decide (name x = name s)).
    - rewrite Ht. split; [reflexivity|exact Hmx].
    - rewrite <- Ht. apply changeEffect_lookup; assumption. }
  destruct e; try discriminate He; simpl in Hstep; injection Hstep as <- <-;
    (split; [reflexivity|]); apply Hr; same_timers.
Qed.

(** X20.  The bounding timer is armed once per save.  While its ref is
    set, edits re-arm the debounce timer only: the bounding timer that is
    armed stays armed under the same identifier, so that edits do not
    postpone the bound.  But the ref is cleared only when a flush starts;
    after the bounding timer has fired without a flush starting (the
    buffer was back at the saved text) the ref is stale, and further
    edits arm no bounding timer at all. *)
Theorem bounding_timer_is_armed_once (es : list Event) (s s' : Session)
        (cmds : list Cmd) (tid : nat) :
  timersInvariant s -> refsOk s -> maxFlushRef s = Some tid ->
  forallb isEdit es = true ->
  run es s = Some (s', cmds) ->
  cmds = [] /\ maxFlushRef s' = Some tid
  /\ timers s' !! tid = timers s !! tid
  /\ (forall t, timers s' !! t = Some CbMax -> t = tid).
Proof.
  intros Hti Href Hm Hes Hrun.
  assert (H : cmds = [] /\ maxFlushRef s' = Some tid
              /\ timers s' !! tid = timers s !! tid /\ timersInvariant s').
  { revert s cmds Hti Href Hm Hes Hrun.
    induction es as [|e es IH]; intros s cmds Hti Href Hm Hes Hrun.
    - injection Hrun as <- <-. auto.
    - apply run_cons in Hrun as (s1 & c1 & c2 & Hstep & Hrun & ->).
      simpl in Hes. apply andb_true_iff in Hes as [He Hes].
      destruct (edit_lookup e s s1 c1 tid He Href Hm Hstep) as (-> & Ht1 & Hm1).
      destruct (IH s1 c2 (step_timers e s s1 [] Hti Hstep)
                   (step_refs e s s1 [] Href Hstep) Hm1 Hes Hrun)
        as (-> & Hm2 & Ht2 & Hti2).
      split; [reflexivity|]. split; [exact Hm2|]. split; [congruence | exact Hti2]. }
  destruct H as (Hc & Hm' & Ht & Hti').
  split; [exact Hc|]. split; [exact Hm'|]. split; [exact Ht|].
  intros t Hl. destruct (Hti' t CbMax Hl) as [_ E]. simpl in E. congruence.
Qed.

Lemma bounding_timer_is_armed_once_witness :
  let stale :=
    ExampleSession.after
      [ChangeValue 1 "draft"; ChangeValue 2 (Project.content Example.project);
       TimerFires 3]
      (init Example.project) in
  maxFlushRef stale = Some 3%nat
  /\ timers stale !! 3%nat = None
  /\ exists s',
      run [ChangeValue 3 "a"; ChangeValue 4 "ab"] stale = Some (s', [])
      /\ dirty s'
      /\ forall t, timers s' !! t <> Some CbMax.
Proof.
  intros stale.
  assert (Hm : maxFlushRef stale = Some 3%nat) by (vm_compute; reflexivity).
  assert (Hnone : timers stale !! 3%nat = None) by (vm_compute; reflexivity).
  assert (Hti : timersInvariant stale).
  { apply (reachable_invariants Example.project).
    exists [ChangeValue 1 "draft"; ChangeValue 2 (Project.content Example.project);
            TimerFires 3].
    eexists. vm_compute. reflexivity. }
  assert (Href : refsOk stale).
  { apply (reachable_refs Example.project).
    exists [ChangeValue 1 "draft"; ChangeValue 2 (Project.content Example.project);
            TimerFires 3].
    eexists. vm_compute. reflexivity. }
  split; [exact Hm|]. split; [exact Hnone|].
  destruct (run [ChangeValue 3 "a"; ChangeValue 4 "ab"] stale) as [[s' cmds]|] eqn:Hrun;
    [|vm_compute in Hrun; discriminate].
  destruct (bounding_timer_is_armed_once
              [ChangeValue 3 "a"; ChangeValue 4 "ab"] stale s' cmds 3 Hti Href Hm
              eq_refl Hrun)
    as (-> & _ & Hsame & Hbound).
  exists s'. split; [reflexivity|]. split.
  - vm_compute in Hrun. injection Hrun as <-. left. vm_compute. discriminate.
  - intros t Hl. rewrite (Hbound t Hl), Hsame, Hnone in Hl. discriminate.
Defined.
(** * Routing *)

Import Server.

Lemma startsWith_split (s prefix : string) :
  Router.startsWith s prefix = true ->
  s = String.append prefix (Router.skip (String.length prefix) s).
Proof.
  revert s. induction prefix as [|a prefix IH]; intros s H; [reflexivity|].
  destruct s as [|b s]; [discriminate|]. simpl in H.
  apply andb_true_iff in H as [Hab H]. apply Ascii.eqb_eq in Hab as ->.
  change (String b s
          = String b (String.append prefix (Router.skip (String.length prefix) s))).
  f_equal. apply IH, H.
Qed.

Lemma replace_prefix (s prefix : string) :
  Router.startsWith s prefix = true ->
  Router.replace s prefix "" = Router.skip (String.length prefix) s.
Proof. intros H. destruct s; simpl; rewrite H; reflexivity. Qed.

Lemma serve_project_route (amb : Router.Ambient) (env : Env) (method pathname : string)
      (body : Body) (db : Db) (req : Request) :
  Router.projectRequest amb method pathname body = Some req ->
  Router.serve amb env method pathname body db = Router.routed env req db.
Proof.
  unfold Router.projectRequest.
  destruct (String.eqb method "POST" && String.eqb pathname "/api/projects") eqn:Hpost.
  - apply andb_true_iff in Hpost as [Hm Hp].
    apply String.eqb_eq in Hm as ->. apply String.eqb_eq in Hp as ->.
    intros [= <-]. unfold Router.serve, Router.handleApi, Router.routed.
    generalize (Server.handleApi env (PostProjects body)). intros h. simpl.
    unfold bind, ret. destruct (h db) as [[res|] db']; reflexivity.
  - destruct (Router.startsWith pathname "/api/projects/") eqn:Hpre; [|discriminate].
    pose proof (replace_prefix _ _ Hpre) as Hrep.
    pose proof (startsWith_split _ _ Hpre) as Hsplit.
    change (String.length "/api/projects/") with 14%nat in *.
    set (rest := Router.skip 14 pathname) in *. clearbody rest. subst pathname.
    destruct (Router.decodeURIComponent amb rest) as [id|] eqn:Hdec; [|discriminate].
    destruct (String.eqb method "GET") eqn:Hget.
    + apply String.eqb_eq in Hget as ->. intros [= <-].
      unfold Router.serve, Router.handleApi, Router.routed.
      rewrite Hrep, Hdec.
      generalize (Server.handleApi env (GetProject id)). intros h. simpl.
      unfold bind, ret. destruct (h db) as [[res|] db']; reflexivity.
    + destruct (String.eqb method "PATCH") eqn:Hpatch; [|discriminate].
      apply String.eqb_eq in Hpatch as ->. intros [= <-].
      unfold Router.serve, Router.handleApi, Router.routed.
      rewrite Hrep, Hdec.
      generalize (Server.handleApi env (PatchProject id body)). intros h. simpl.
      unfold bind, ret. destruct (h db) as [[res|] db']; reflexivity.
Qed.

Lemma serve_other_route (amb : Router.Ambient) (env : Env) (method pathname : string)
      (body : Body) (db : Db) :
  Router.projectRequest amb method pathname body = None ->
  snd (Router.serve amb env method pathname body db) = db
  /\ forall res,
      fst (Router.serve amb env method pathname body db)
      <> inl (Router.ProjectReply res).
Proof.
  unfold Router.projectRequest, Router.serve, Router.handleApi, Router.selectProjects.
  assert (Hrep : Router.startsWith pathname "/api/projects/" = true ->
                 Router.replace pathname "/api/projects/" "" = Router.skip 14 pathname)
    by apply replace_prefix.
  destruct (Router.startsWith pathname "/api/projects/");
    [rewrite (Hrep eq_refl)|]; clear Hrep;
    generalize (Router.startsWith pathname "/api/");
    repeat match goal with
           | |- context [String.eqb ?a ?b] => generalize (String.eqb a b)
           end;
    intros b1 b2 b3 b4 b5 b6 b7 b8;
    try destruct (Router.decodeURIComponent amb (Router.skip 14 pathname));
    destruct b1, b2, b3, b4, b5, b6, b7, b8; cbn [andb negb];
    unfold bind, ret, throw; try destruct (Router.listFails amb);
    intros H; try discriminate H; (split; [reflexivity|discriminate]).
Qed.

(** X21.  Only the project routes write.  A method and a path that make a
    request of the project routes (POST on the collection, GET or PATCH
    under it, with the rest of the path decoded as the identifier) are
    answered as that request is, with a rejection turned into status 500.
    Every other request, whatever its method, leaves the store as it is
    and is not answered by a project route; a path outside [/api/] is
    handed over to the static files. *)
Theorem only_project_routes_write (amb : Router.Ambient) (env : Env)
        (method pathname : string) (body : Body) (db : Db) :
  match Router.projectRequest amb method pathname body with
  | Some req =>
      Router.serve amb env method pathname body db = Router.routed env req db
      /\ snd (Router.serve amb env method pathname body db) = snd (Server.serve env req db)
      /\ (forall r, fst (Router.serve amb env method pathname body db) = inl r ->
                    Router.replyStatus r = status (fst (Server.serve env req db)))
  | None =>
      snd (Router.serve amb env method pathname body db) = db
      /\ forall res,
          fst (Router.serve amb env method pathname body db)
          <> inl (Router.ProjectReply res)
  end
  /\ (Router.startsWith pathname "/api/" = false ->
      Router.serve amb env method pathname body db = (inr tt, db))
  /\ (forall rest,
         Router.serve amb env "GET" (String.append "/api/projects/" rest) body db
         = match Router.decodeURIComponent amb rest with
           | Some id => Router.routed env (GetProject id) db
           | None => (inl Router.ServerError, db)
           end)
  /\ (forall rest,
         Router.serve amb env "PATCH" (String.append "/api/projects/" rest) body db
         = match Router.decodeURIComponent amb rest with
           | Some id => Router.routed env (PatchProject id body) db
           | None => (inl Router.ServerError, db)
           end).
Proof.
  split; [|split; [|split]]; cycle 2.
  - intros rest. unfold Router.serve, Router.handleApi, Router.routed.
    change (Router.replace (String.append "/api/projects/" rest) "/api/projects/" "")
      with rest.
    destruct (Router.decodeURIComponent amb rest) as [id|]; [|reflexivity].
    generalize (Server.handleApi env (GetProject id)). intros h.
    change ((let (o, db') := bind h (fun res => ret (Some (Router.ProjectReply res))) db in
             match o with
             | Returned (Some r) => (inl r, db')
             | Returned None => (inr tt, db')
             | Thrown => (inl Router.ServerError, db')
             end)
            = (let (o, db') := h db in
               match o with
               | Returned res => (inl (Router.ProjectReply res), db')
               | Thrown => (inl Router.ServerError, db')
               end)).
    unfold bind, ret. destruct (h db) as [[res|] db']; reflexivity.
  - intros rest. unfold Router.serve, Router.handleApi, Router.routed.
    change (Router.replace (String.append "/api/projects/" rest) "/api/projects/" "")
      with rest.
    destruct (Router.decodeURIComponent amb rest) as [id|]; [|reflexivity].
    generalize (Server.handleApi env (PatchProject id body)). intros h.
    change ((let (o, db') := bind h (fun res => ret (Some (Router.ProjectReply res))) db in
             match o with
             | Returned (Some r) => (inl r, db')
             | Returned None => (inr tt, db')
             | Thrown => (inl Router.ServerError, db')
             end)
            = (let (o, db') := h db in
               match o with
               | Returned res => (inl (Router.ProjectReply res), db')
               | Thrown => (inl Router.ServerError, db')
               end)).
    unfold bind, ret. destruct (h db) as [[res|] db']; reflexivity.
  - destruct (Router.projectRequest amb method pathname body) as [req|] eqn:Hreq;
      [|apply serve_other_route, Hreq].
    rewrite (serve_project_route amb env method pathname body db req Hreq).
    unfold Router.routed, Server.serve.
    destruct (Server.handleApi env req db) as [[res|] db']; simpl;
      (split; [reflexivity|]); (split; [reflexivity|]); intros r [= <-]; reflexivity.
  - intros H. unfold Router.serve, Router.handleApi. rewrite H. reflexivity.
Qed.
(** * The suggestion shown as ghost text *)

Lemma removeCR_clean (text : string) : Llm.occurs Llm.CR (Llm.removeCR text) = false.
Proof.
  induction text as [|a rest IH]; [reflexivity|]. simpl.
  destruct (Ascii.eqb a Llm.CR) eqn:Ha; [exact IH|]. simpl. rewrite Ha. exact IH.
Qed.

Lemma removeCR_fixed (s : string) :
  Llm.occurs Llm.CR s = false -> Llm.removeCR s = s.
Proof.
  induction s as [|a rest IH]; [reflexivity|]. simpl.
  destruct (Ascii.eqb a Llm.CR); [discriminate|]. simpl. intros H. rewrite IH; auto.
Qed.

Lemma split_lines (c : ascii) (s line : string) :
  line ∈ Llm.split s ->
  Llm.occurs Llm.LF line = false
  /\ (Llm.occurs c s = false -> Llm.occurs c line = false).
Proof.
  revert line. induction s as [|a rest IH]; intros line Hin.
  - apply list_elem_of_singleton in Hin as ->. split; reflexivity || trivial.
  - simpl in Hin. destruct (Ascii.eqb a Llm.LF) eqn:Ha.
    + apply elem_of_cons in Hin as [->|Hin]; [split; reflexivity || trivial|].
      destruct (IH line Hin) as [H1 H2]. split; [exact H1|].
      simpl. intros H. apply orb_false_iff in H as [_ H]. auto.
    + destruct (Llm.split rest) as [|l ls] eqn:Hs.
      * apply list_elem_of_singleton in Hin as ->. simpl. rewrite Ha.
        split; [reflexivity|]. intros H. apply orb_false_iff in H as [-> _]. reflexivity.
      * apply elem_of_cons in Hin as [->|Hin].
        -- destruct (IH l (list_elem_of_here _ _)) as [H1 H2]. simpl. rewrite Ha.
           split; [exact H1|]. intros H. apply orb_false_iff in H as [-> H]. auto.
        -- destruct (IH line (list_elem_of_further _ _ _ Hin)) as [H1 H2].
           split; [exact H1|]. simpl. intros H. apply orb_false_iff in H as [_ H]. auto.
Qed.

Lemma split_one_line (s : string) :
  Llm.occurs Llm.LF s = false -> Llm.split s = [s].
Proof.
  induction s as [|a rest IH]; [reflexivity|]. simpl.
  destruct (Ascii.eqb a Llm.LF); [discriminate|]. simpl. intros H.
  rewrite IH by exact H. reflexivity.
Qed.

Lemma find_found (lines : list string) (line : string) :
  Llm.find lines = Some line ->
  line ∈ lines /\ Js.truthy (Js.trim line) = true.
Proof.
  induction lines as [|item rest IH]; [discriminate|]. simpl.
  destruct (Js.truthy (Js.trim item)) eqn:Ht.
  - intros [= <-]. split; [apply list_elem_of_here | exact Ht].
  - intros H. destruct (IH H) as [H1 H2]. split; [apply list_elem_of_further, H1 | exact H2].
Qed.

Lemma find_none (lines : list string) :
  Llm.find lines = None <-> forall line, line ∈ lines -> Js.truthy (Js.trim line) = false.
Proof.
  induction lines as [|item rest IH]; simpl.
  - split; [intros _ line Hin; inversion Hin | reflexivity].
  - destruct (Js.truthy (Js.trim item)) eqn:Ht.
    + split; [discriminate|]. intros H. rewrite (H item (list_elem_of_here _ _)) in Ht.
      discriminate.
    + rewrite IH. split.
      * intros H line Hin. apply elem_of_cons in Hin as [->|Hin]; auto.
      * intros H line Hin. apply H, list_elem_of_further, Hin.
Qed.

(** X22.  The suggestion is one line.  Whatever text the completion
    service returns, what is shown holds no line feed and no carriage
    return; it is empty exactly when no line of the text has anything but
    white space, and otherwise it is a line of the text (without its
    carriage returns) that does, kept with its leading and trailing white
    space.  Normalising it again changes nothing. *)
Theorem suggestion_is_one_line (text : string) :
  let shown := Llm.normalizeSuggestion text in
  Llm.occurs Llm.LF shown = false
  /\ Llm.occurs Llm.CR shown = false
  /\ (shown = EmptyString
      <-> forall line, line ∈ Llm.split (Llm.removeCR text) ->
                       Js.trim line = EmptyString)
  /\ (shown <> EmptyString ->
      shown ∈ Llm.split (Llm.removeCR text) /\ Js.trim shown <> EmptyString)
  /\ Llm.normalizeSuggestion shown = shown.
Proof.
  cbv zeta. unfold Llm.normalizeSuggestion.
  assert (Hblank : forall s, Js.truthy (Js.trim s) = false <-> Js.trim s = EmptyString).
  { intros s. unfold Js.truthy. destruct (Js.trim s); simpl; split; congruence. }
  destruct (Llm.find (Llm.split (Llm.removeCR text))) as [line|] eqn:Hfind; simpl.
  - destruct (find_found _ _ Hfind) as [Hin Ht].
    destruct (split_lines Llm.CR _ _ Hin) as [Hlf Hcr].
    specialize (Hcr (removeCR_clean text)).
    assert (Hne : line <> EmptyString).
    { intros ->. discriminate Ht. }
    split; [exact Hlf|]. split; [exact Hcr|]. split; [|split].
    + split; [contradiction|]. intros H.
      exfalso. specialize (H line Hin). rewrite H in Ht. discriminate.
    + intros _. split; [exact Hin|]. intros H. rewrite H in Ht. discriminate.
    + rewrite (removeCR_fixed _ Hcr), (split_one_line _ Hlf). simpl. rewrite Ht.
      reflexivity.
  - split; [reflexivity|]. split; [reflexivity|]. split; [|split].
    + split; [|reflexivity]. intros _ line Hin. apply Hblank.
      exact (proj1 (find_none _) Hfind line Hin).
    + contradiction.
    + reflexivity.
Qed.
